(** * rice-opencode: the document plugin (packages/docs/src/plugin.ts)

    A shallow embedding of the draft registry, the document-identifier
    generator and validator, and the plugin's tools, together with the
    collaborators the plugin imports (preset manager, template resolver,
    command builder).  Tools are functions in a state-and-exception monad
    over an explicit world (file system, preset cache, event log); the
    JavaScript runtime (random numbers, clock, JSON, external processes,
    HTTP) is an explicit oracle record. *)

From Stdlib Require Import ZArith NArith List Ascii String Bool Lia.
From Stdlib Require Import DecimalString.
From stdpp Require Import base option list strings gmap.

Local Open Scope string_scope.

(** ** Regular expressions over characters

    [isValidDocId] is a regular-expression test, so the embedding carries a
    small regular-expression matcher (Brzozowski derivatives) with its
    declarative semantics. *)
Module Regex.

Inductive regex : Type :=
| Void
| Eps
| Class (p : ascii -> bool)
| Cat (r1 r2 : regex)
| Alt (r1 r2 : regex)
| Star (r : regex).

(** One or more / zero or one repetitions, and a literal character. *)
Definition Plus (r : regex) : regex := Cat r (Star r).
Definition Opt (r : regex) : regex := Alt Eps r.
Definition Lit (c : ascii) : regex := Class (Ascii.eqb c).

Inductive Matches : regex -> list ascii -> Prop :=
| MEps : Matches Eps []
| MClass p c : p c = true -> Matches (Class p) [c]
| MCat r1 r2 s1 s2 :
    Matches r1 s1 -> Matches r2 s2 -> Matches (Cat r1 r2) (s1 ++ s2)
| MAltL r1 r2 s : Matches r1 s -> Matches (Alt r1 r2) s
| MAltR r1 r2 s : Matches r2 s -> Matches (Alt r1 r2) s
| MStarNil r : Matches (Star r) []
| MStarApp r s1 s2 :
    Matches r s1 -> Matches (Star r) s2 -> Matches (Star r) (s1 ++ s2).

Fixpoint nullable (r : regex) : bool :=
  match r with
  | Void => false
  | Eps => true
  | Class _ => false
  | Cat r1 r2 => nullable r1 && nullable r2
  | Alt r1 r2 => nullable r1 || nullable r2
  | Star _ => true
  end.

Fixpoint deriv (c : ascii) (r : regex) : regex :=
  match r with
  | Void => Void
  | Eps => Void
  | Class p => if p c then Eps else Void
  | Cat r1 r2 =>
      if nullable r1
      then Alt (Cat (deriv c r1) r2) (deriv c r2)
      else Cat (deriv c r1) r2
  | Alt r1 r2 => Alt (deriv c r1) (deriv c r2)
  | Star r1 => Cat (deriv c r1) (Star r1)
  end.

Fixpoint run (r : regex) (s : list ascii) : bool :=
  match s with
  | [] => nullable r
  | c :: s' => run (deriv c r) s'
  end.

(** [re.test(str)] for a pattern anchored with [^] and [$]. *)
Definition test (r : regex) (s : string) : bool :=
  run r (list_ascii_of_string s).

(** The characters a pattern can ever consume. *)
Fixpoint alphabet (r : regex) (c : ascii) : bool :=
  match r with
  | Void | Eps => false
  | Class p => p c
  | Cat r1 r2 | Alt r1 r2 => alphabet r1 c || alphabet r2 c
  | Star r1 => alphabet r1 c
  end.

End Regex.

(** ** Pieces of the JavaScript runtime used by the plugin *)
Module Js.

Definition is_lower (c : ascii) : bool :=
  (97 <=? nat_of_ascii c)%nat && (nat_of_ascii c <=? 122)%nat.

Definition is_digit (c : ascii) : bool :=
  (48 <=? nat_of_ascii c)%nat && (nat_of_ascii c <=? 57)%nat.

(** [`${n}`] for a non-negative integer below 1e21: its decimal digits. *)
Definition Number_toString (n : N) : string :=
  NilZero.string_of_uint (N.to_uint n).

(** Truthiness of an optional string argument: [undefined] and [""] are
    falsy, everything else is truthy. *)
Definition truthy (o : option string) : bool :=
  match o with
  | Some s => negb (String.eqb s "")
  | None => false
  end.

(** [a || b] on strings. *)
Definition or_else (o : option string) (d : string) : string :=
  match o with
  | Some s => if String.eqb s "" then d else s
  | None => d
  end.

(** [s.startsWith(p)]. *)
Definition startsWith (s p : string) : bool := String.prefix p s.

(** [s.replace(/c/g, by)] for a one-character pattern. *)
Fixpoint replaceAll (c : ascii) (by_ : string) (s : string) : string :=
  match s with
  | EmptyString => EmptyString
  | String d s' =>
      if Ascii.eqb d c then by_ +:+ replaceAll c by_ s'
      else String d (replaceAll c by_ s')
  end.

(** [s.split(c)[0]]: the part of [s] before the first [c]. *)
Fixpoint before (c : ascii) (s : string) : string :=
  match s with
  | EmptyString => EmptyString
  | String d s' => if Ascii.eqb d c then EmptyString else String d (before c s')
  end.

(** [lines.join("\n")]. *)
Definition nl : string := String (ascii_of_nat 10) EmptyString.

Fixpoint join (sep : string) (l : list string) : string :=
  match l with
  | [] => ""
  | [x] => x
  | x :: rest => x +:+ sep +:+ join sep rest
  end.

(** [s.split("\n")]. *)
Fixpoint split_acc (c : ascii) (cur : string) (s : string) : list string :=
  match s with
  | EmptyString => [String.rev cur]
  | String d s' =>
      if Ascii.eqb d c then String.rev cur :: split_acc c EmptyString s'
      else split_acc c (String d cur) s'
  end.

Definition split (c : ascii) (s : string) : list string :=
  split_acc c EmptyString s.

(** [l.slice(-n)]; [slice(-0)] is the whole list. *)
Definition slice_last {A} (n : nat) (l : list A) : list A :=
  match n with
  | O => l
  | S _ => drop (length l - n) l
  end.

(** [s.includes(sub)]. *)
Definition includes (s sub : string) : bool :=
  match String.index 0 sub s with Some _ => true | None => false end.

(** [s.endsWith(suffix)]. *)
Definition endsWith (s suffix : string) : bool :=
  String.prefix (String.rev suffix) (String.rev s).

(** [p.split("/").slice(0, -1).join("/")]. *)
Definition parentDir (p : string) : string :=
  join "/" (removelast (split "/" p)).

(** [`${x}`] for a possibly undefined string. *)
Definition render (o : option string) : string :=
  match o with Some s => s | None => "undefined" end.

End Js.

(** ** Data model *)

(** The plugin context: [{ worktree?: string; directory: string }]. *)
Record Ctx := {
  worktree : option string;
  directory : string;
}.

Inductive DraftStatus := StDraft | StCompiled.

Definition status_text (s : DraftStatus) : string :=
  match s with StDraft => "draft" | StCompiled => "compiled" end.

(** An entry of [DocRegistry.drafts]. *)
Record DraftInfo := {
  title : string;
  preset : string;
  created_at : string;
  last_modified : string;
  source_markdown : option string;
  status : DraftStatus;
}.

(** [interface DocRegistry { drafts: Record<string, ...> }]. *)
Record DocRegistry := {
  drafts : gmap string DraftInfo;
}.

Definition emptyRegistry : DocRegistry := {| drafts := ∅ |}.

(** Element of the [authors] JSON array of docs_compile. *)
Record Author := {
  author_name : string;
  sit_id : option string;
  glasgow_id : option string;
}.

Inductive Scope := ScProject | ScUser | ScBuiltin.

(** Modelled from the spec: PresetConfig of the absent presets module, with
    the fields section 3 of the specification lists; the parsed form of a
    preset definition file. *)
Record PresetConfig := {
  name : string;
  description : option string;
  extends : option string;
  template_path : option string;
  pdf_engine : option string;
  csl : option string;
  pandoc_from : option string;
  pandoc_variables : gmap string string;
  pandoc_extra_args : list string;
  logos : gmap string string;
  style : gmap string bool;
  required_fields : option (list string);
  optional_fields : option (list string);
}.

(** Modelled from the spec: ResolvedPreset of the absent presets module, a
    PresetConfig augmented with resolved absolute paths and provenance. *)
Record ResolvedPreset := {
  config : PresetConfig;
  resolved_template_path : option string;
  resolved_csl_path : option string;
  resolved_logo_path : option string;
  source : Scope;
}.

(** Modelled from the spec: the command builder of the absent builder module
    is a stateful accumulator of chained configuration calls; the embedding
    keeps the calls in the order they were made. *)
Inductive BuilderCall :=
| BInput (path : string)
| BOutput (path : string)
| BFrom (format : string)
| BTemplate (path : string)
| BPdfEngine (engine : string)
| BApplyPreset (p : ResolvedPreset)
| BListings
| BSimpleTables
| BToc
| BVariable (key value : string)
| BApplyMetadata (fields : list (string * option string))
| BBibliography (path : string)
| BMetadataFile (path : string).

Definition Builder := list BuilderCall.

(** An external command: an argument vector given to [Bun.spawn], or the
    command a builder serializes to, with its working directory. *)
Inductive Command :=
| Argv (argv : list string)
| Pandoc (b : Builder) (cwd : option string).

Record ProcResult := {
  exitCode : Z;
  stdout : string;
  stderr : string;
}.

(** The part of a [fetch] response the plugin reads. *)
Record Response := {
  ok : bool;
  http_status : N;
  body : string;
}.

(** The content of a file: plain text, or the text [JSON.stringify] gives
    for a registry or a draft's metadata, kept as the value it serializes.
    [JSON.parse] gives that value back: this is the round trip of the
    runtime's JSON functions on objects whose fields are strings. *)
Inductive Content :=
| Text (s : string)
| RegistryJson (r : DocRegistry)
| MetaJson (m : DraftInfo).

(** What the plugin does to the outside, newest event first. *)
Inductive Event :=
| EvSpawn (c : Command)
| EvFetch (url : string)
| EvClearCache.

(** ** World and runtime *)

(** The mutable world: the files and directories the plugin reads and
    writes, the parsed preset definitions of each scope, the preset
    manager's cache, how many random numbers and clock readings were
    consumed, and the log of outside events. *)
Record World := {
  files : gmap string Content;
  dirs : gset string;
  preset_defs : Scope -> gmap string PresetConfig;
  cache : gmap (string * option string) ResolvedPreset;
  random_calls : nat;
  clock_calls : nat;
  log : list Event;
}.

(** The JavaScript runtime and the machine, as an oracle.  [Math_random k]
    is the numerator over 2^53 of the k-th [Math.random()]; [Date_now k] is
    the k-th clock reading in milliseconds since the epoch, a time value of
    a clock that is past the epoch;
    [run_process n c] is the outcome of command [c] started after [n]
    earlier events.  [JSON_parse_registry] is [JSON.parse] of a plain text
    at the type the source ascribes to its result, [None] standing for a
    thrown SyntaxError; the [JSON_stringify] functions give the text of a
    serialized value; [JSON_parse_authors] gives the rendering of the thrown
    error on the left.  [error_tail_lines] is the N of the builder's
    standard-output fallback and [stack_depth] the depth of recursion the
    runtime supports. *)
Record Runtime := {
  Math_random : nat -> N;
  Date_now : nat -> N;
  toISOString : N -> string;
  run_process : nat -> Command -> ProcResult;
  http_get : nat -> string -> Response;
  JSON_parse_registry : string -> option DocRegistry;
  JSON_stringify_registry : DocRegistry -> string;
  JSON_stringify_meta : DraftInfo -> string;
  JSON_parse_authors : string -> string + list Author;
  process_cwd : string;
  userConfigDir : string;
  builtinDir : string;
  error_tail_lines : nat;
  stack_depth : nat;
}.

(** ** The tool monad: state and exceptions *)

Inductive Completion (A : Type) : Type :=
| Return (a : A)
| Throw (msg : string).
Arguments Return {A} a.
Arguments Throw {A} msg.

Definition Tool (A : Type) : Type := World -> Completion A * World.

Definition ret {A} (a : A) : Tool A := fun w => (Return a, w).

Definition throw {A} (msg : string) : Tool A := fun w => (Throw msg, w).

Definition bind {A B} (m : Tool A) (k : A -> Tool B) : Tool B :=
  fun w =>
    match m w with
    | (Return a, w') => k a w'
    | (Throw e, w') => (Throw e, w')
    end.

(** [try { m } catch (e) { h e }]: effects made before the throw persist. *)
Definition try_catch {A} (m : Tool A) (h : string -> Tool A) : Tool A :=
  fun w =>
    match m w with
    | (Return a, w') => (Return a, w')
    | (Throw e, w') => h e w'
    end.

Definition get : Tool World := fun w => (Return w, w).

Definition modify (f : World -> World) : Tool unit := fun w => (Return tt, f w).

Notation "'let*' x ':=' c1 'in' c2" := (bind c1 (fun x => c2))
  (at level 10, x name, c1 at level 100, c2 at level 200,
   format "'[v' 'let*'  x  ':='  c1  'in' '/' c2 ']'").

(** [if (b) { c }]. *)
Definition when (b : bool) (c : Tool unit) : Tool unit :=
  if b then c else ret tt.

Definition is_return {A} (c : Completion A) : bool :=
  match c with Return _ => true | Throw _ => false end.

(** Field updates of the world. *)
Definition set_files (f : gmap string Content -> gmap string Content) (w : World) : World :=
  {| files := f (files w); dirs := dirs w; preset_defs := preset_defs w;
     cache := cache w; random_calls := random_calls w;
     clock_calls := clock_calls w; log := log w |}.

Definition set_dirs (f : gset string -> gset string) (w : World) : World :=
  {| files := files w; dirs := f (dirs w); preset_defs := preset_defs w;
     cache := cache w; random_calls := random_calls w;
     clock_calls := clock_calls w; log := log w |}.

Definition set_cache
    (f : gmap (string * option string) ResolvedPreset ->
         gmap (string * option string) ResolvedPreset) (w : World) : World :=
  {| files := files w; dirs := dirs w; preset_defs := preset_defs w;
     cache := f (cache w); random_calls := random_calls w;
     clock_calls := clock_calls w; log := log w |}.

Definition tick_random (w : World) : World :=
  {| files := files w; dirs := dirs w; preset_defs := preset_defs w;
     cache := cache w; random_calls := S (random_calls w);
     clock_calls := clock_calls w; log := log w |}.

Definition tick_clock (w : World) : World :=
  {| files := files w; dirs := dirs w; preset_defs := preset_defs w;
     cache := cache w; random_calls := random_calls w;
     clock_calls := S (clock_calls w); log := log w |}.

Definition record (e : Event) (w : World) : World :=
  {| files := files w; dirs := dirs w; preset_defs := preset_defs w;
     cache := cache w; random_calls := random_calls w;
     clock_calls := clock_calls w; log := e :: log w |}.

(** Paths: [join(a, b, ...)] of Node's path module, on segments that need
    no normalisation. *)
Definition path_join (segments : list string) : string := Js.join "/" segments.

(** [dirname(p)]. *)
Definition dirname (p : string) : string :=
  match removelast (Js.split "/" p) with
  | [] => "."
  | segs => Js.join "/" segs
  end.

(** [p] is [d] itself or lies below it. *)
Definition under (d p : string) : bool :=
  String.eqb d p || String.prefix (d +:+ "/") p.

(** What the external programs the plugin runs do to the tracked files:
    [rm -f file] and [rm -rf dir] delete, as they do when they succeed.
    What the other programs write (the output of a conversion, a download
    of curl, a copy) is not tracked: [files] holds what the plugin itself
    wrote and has not removed, and no statement below speaks of the files a
    conversion produces. *)
Definition process_effect (c : Command) (w : World) : World :=
  match c with
  | Argv ["rm"; "-f"; p] => set_files (delete p) w
  | Argv ["rm"; "-rf"; d] =>
      set_dirs (filter (λ p, under d p = false))
        (set_files (filter (λ kv, under d kv.1 = false)) w)
  | _ => w
  end.

(** ** Runtime primitives *)
Section Primitives.

Context (rt : Runtime).

(** [Math.floor(Math.random() * n)], with the product taken exactly.  The
    binary64 product of the runtime can round up to the next integer, never
    to [n] for the sizes used here; the statements below depend on the
    range of the result only, not on which index is drawn. *)
Definition Math_floor_random (n : N) : Tool N :=
  fun w =>
    (Return ((Math_random rt (random_calls w) mod 2 ^ 53) * n / 2 ^ 53)%N,
     tick_random w).

(** [Date.now()]. *)
Definition Date_now_ : Tool N :=
  fun w => (Return (Date_now rt (clock_calls w)), tick_clock w).

(** [new Date().toISOString()]. *)
Definition new_Date_toISOString : Tool string :=
  let* t := Date_now_ in ret (toISOString rt t).

Definition existsSync (p : string) : Tool bool :=
  fun w =>
    (Return (bool_decide (is_Some (files w !! p)) || bool_decide (p ∈ dirs w)), w).

(** [mkdirSync(p, { recursive: true })]; ancestors are not tracked. *)
Definition mkdirSync (p : string) : Tool unit :=
  modify (set_dirs (λ d, {[p]} ∪ d)).

(** The text of a file. *)
Definition content_text (c : Content) : string :=
  match c with
  | Text s => s
  | RegistryJson r => JSON_stringify_registry rt r
  | MetaJson m => JSON_stringify_meta rt m
  end.

(** [JSON.parse(content)] at type DocRegistry, the type the source
    ascribes to it.  A text that is valid JSON of another shape has no
    counterpart here: the statements that say a tool completes on what
    it reads from the registry file take the file to be absent or written
    by the plugin ([RegistryJson]). *)
Definition JSON_parse (c : Content) : option DocRegistry :=
  match c with
  | RegistryJson r => Some r
  | _ => JSON_parse_registry rt (content_text c)
  end.

(** [readFileSync(p, "utf-8")]: throws when [p] is not a file. *)
Definition readFileSync (p : string) : Tool Content :=
  fun w =>
    match files w !! p with
    | Some s => (Return s, w)
    | None => (Throw ("ENOENT: no such file or directory, open '" +:+ p +:+ "'"), w)
    end.

(** [writeFileSync(p, content)] on a disk that takes the write; like
    [mkdirSync] it does not model the faults of the file system. *)
Definition writeFileSync (p : string) (content : Content) : Tool unit :=
  modify (set_files <[p := content]>).

(** [await Bun.spawn(argv, ...).exited] and the builder's subprocess. *)
Definition spawn (c : Command) : Tool ProcResult :=
  fun w =>
    (Return (run_process rt (length (log w)) c),
     process_effect c (record (EvSpawn c) w)).

(** [await fetch(url)]. *)
Definition fetch (url : string) : Tool Response :=
  fun w => (Return (http_get rt (length (log w)) url), record (EvFetch url) w).

End Primitives.

(** ** Identifiers (plugin.ts, lines 8-38 and 115-118) *)

(** Every double quote becomes backslash, double quote; then every newline
    becomes a space. *)
Definition escapeYaml (str : string) : string :=
  Js.replaceAll (ascii_of_nat 10) " "
    (Js.replaceAll (ascii_of_nat 34)
       (String (ascii_of_nat 92) (String (ascii_of_nat 34) EmptyString)) str).

Definition ADJECTIVES : list string := [
  "amber"; "ancient"; "autumn"; "bold"; "brave"; "bright"; "calm"; "clever"; "cool"; "crimson";
  "curious"; "daring"; "deep"; "eager"; "elegant"; "fierce"; "gentle"; "golden"; "graceful"; "happy";
  "hidden"; "jade"; "joyful"; "kind"; "lively"; "lucky"; "mighty"; "misty"; "modern"; "mystic";
  "noble"; "peaceful"; "purple"; "quiet"; "rapid"; "royal"; "rustic"; "serene"; "silent"; "silver";
  "smooth"; "solid"; "spring"; "steady"; "summer"; "swift"; "tender"; "vivid"; "warm"; "wild";
  "wise"; "young"; "zealous"; "azure"; "blazing"; "breezy"; "cosmic"; "crystal"; "dawn"; "dusk"
].

Definition NOUNS : list string := [
  "apple"; "arrow"; "autumn"; "beach"; "bird"; "bloom"; "breeze"; "brook"; "canyon"; "cloud";
  "coral"; "crane"; "crystal"; "dolphin"; "dream"; "eagle"; "field"; "flame"; "flower"; "forest";
  "fountain"; "garden"; "gate"; "glade"; "grove"; "harbor"; "haven"; "hill"; "horizon"; "island";
  "journey"; "lake"; "leaf"; "meadow"; "mirror"; "mist"; "moon"; "mountain"; "night"; "ocean";
  "orchard"; "peak"; "pine"; "pond"; "rain"; "ravine"; "river"; "road"; "rock"; "rose";
  "sands"; "sea"; "shade"; "sky"; "spring"; "star"; "stone"; "stream"; "sun"; "sunset";
  "surf"; "swan"; "tide"; "tower"; "tree"; "valley"; "wave"; "willow"; "wind"; "wood"
].

(** [arr[i]] on an array of strings, rendered in a template. *)
Definition at_index (arr : list string) (i : N) : string :=
  nth (N.to_nat i) arr "undefined".

(** The pattern of [isValidDocId]: lower-case word, dash, lower-case word,
    dash, digits, and optionally a dash and more digits. *)
Definition docIdPattern : Regex.regex :=
  let word := Regex.Plus (Regex.Class Js.is_lower) in
  let number := Regex.Plus (Regex.Class Js.is_digit) in
  let dash := Regex.Lit "-" in
  Regex.Cat word
    (Regex.Cat dash
       (Regex.Cat word
          (Regex.Cat dash
             (Regex.Cat number (Regex.Opt (Regex.Cat dash number)))))).

Definition isValidDocId (docId : string) : bool :=
  Regex.test docIdPattern docId.

(** ** Collaborators imported by the plugin *)

(** Modelled from the spec: the result of [builder.execute()] of the absent
    builder module, which reports success with the captured output or
    failure with a reason (section 4.2); the plugin reads its [success]
    and [error] fields. *)
Record ExecResult := {
  success : bool;
  output : option string;
  error : option string;
}.

(** The child's field when it has one, else the parent's. *)
Definition child_or {A} (child parent : option A) : option A :=
  match child with Some x => Some x | None => parent end.

(** Modelled from the spec: the merge of a resolved parent into a child
    preset (section 4.1).  Child fields take precedence; the nested maps
    (pandoc variables, logo sets, style flags) are merged key by key, the
    child's binding winning; extra arguments are concatenated parent first,
    then child. *)
Definition mergePresets (parent child : PresetConfig) : PresetConfig :=
  {| name := name child;
     description := child_or (description child) (description parent);
     extends := extends child;
     template_path := child_or (template_path child) (template_path parent);
     pdf_engine := child_or (pdf_engine child) (pdf_engine parent);
     csl := child_or (csl child) (csl parent);
     pandoc_from := child_or (pandoc_from child) (pandoc_from parent);
     pandoc_variables := pandoc_variables child ∪ pandoc_variables parent;
     pandoc_extra_args := (pandoc_extra_args parent ++ pandoc_extra_args child)%list;
     logos := logos child ∪ logos parent;
     style := style child ∪ style parent;
     required_fields := child_or (required_fields child) (required_fields parent);
     optional_fields := child_or (optional_fields child) (optional_fields parent) |}.

(** Modelled from the spec: a preset definition is located by scope
    precedence, project before user before built-in. *)
Definition findPreset (w : World) (nm : string) : option (Scope * PresetConfig) :=
  match preset_defs w ScProject !! nm with
  | Some c => Some (ScProject, c)
  | None =>
      match preset_defs w ScUser !! nm with
      | Some c => Some (ScUser, c)
      | None =>
          match preset_defs w ScBuiltin !! nm with
          | Some c => Some (ScBuiltin, c)
          | None => None
          end
      end
  end.

(** Modelled from the spec: the names a failed lookup lists (section 4.1). *)
Definition availablePresets (w : World) : list string :=
  elements (dom (preset_defs w ScProject) ∪ dom (preset_defs w ScUser)
            ∪ dom (preset_defs w ScBuiltin)).

(** Modelled from the spec: loading a preset definition with inheritance
    (section 4.1).  [depth] bounds the chain of parents that can be
    followed; running out of it is the runtime's stack overflow on a cyclic
    or over-long chain. *)
Fixpoint loadConfig (depth : nat) (w : World) (nm : string)
    : Completion (Scope * PresetConfig) :=
  match findPreset w nm with
  | None =>
      Throw ("Preset '" +:+ nm +:+ "' not found. Available: "
             +:+ Js.join ", " (availablePresets w))
  | Some (sc, c) =>
      match extends c with
      | None => Return (sc, c)
      | Some parent =>
          match depth with
          | O => Throw "Maximum call stack size exceeded"
          | S depth' =>
              match loadConfig depth' w parent with
              | Return (_, pc) => Return (sc, mergePresets pc c)
              | Throw e => Throw e
              end
          end
      end
  end.

Section Collaborators.

Context (rt : Runtime).

(** Modelled from the spec: the template and asset resolver searches the
    scopes in the order project, user, built-in (section 2) for a file
    [kind/rel] below the scope's directory. *)
Definition scopeDir (ctx : Ctx) (sc : Scope) : string :=
  match sc with
  | ScProject => path_join [Js.or_else (worktree ctx) (directory ctx); ".opencode"]
  | ScUser => userConfigDir rt
  | ScBuiltin => builtinDir rt
  end.

(** Modelled from the spec: the first scope, in that order, that has the
    file decides (section 2). *)
Definition resolveAsset (ctx : Ctx) (w : World) (kind rel : string) : option string :=
  let candidate sc := path_join [scopeDir ctx sc; kind; rel] in
  if bool_decide (is_Some (files w !! candidate ScProject)) then Some (candidate ScProject)
  else if bool_decide (is_Some (files w !! candidate ScUser)) then Some (candidate ScUser)
  else if bool_decide (is_Some (files w !! candidate ScBuiltin)) then Some (candidate ScBuiltin)
  else None.

(** Modelled from the spec: the paths a preset refers to are made
    absolute (section 3, ResolvedPreset). *)
Definition resolvePreset (ctx : Ctx) (w : World) (sc : Scope) (c : PresetConfig)
    (logo : option string) : ResolvedPreset :=
  {| config := c;
     resolved_template_path := template_path c ≫= resolveAsset ctx w "templates";
     resolved_csl_path := csl c ≫= resolveAsset ctx w "csl";
     resolved_logo_path :=
       match logo with
       | Some l => (logos c !! l) ≫= resolveAsset ctx w "assets"
       | None => None
       end;
     source := sc |}.

(** Modelled from the spec: [presetManager.loadPreset(name, logo)]
    (section 4.1): a cached result is returned as it is; otherwise the
    definition is loaded, merged with its parents, resolved and cached
    for the pair of preset name and logo option. *)
Definition loadPreset (ctx : Ctx) (nm : string) (logo : option string)
    : Tool ResolvedPreset :=
  let* w := get in
  match cache w !! (nm, logo) with
  | Some r => ret r
  | None =>
      match loadConfig (stack_depth rt) w nm with
      | Throw e => throw e
      | Return (sc, c) =>
          let r := resolvePreset ctx w sc c logo in
          let* _ := modify (set_cache <[(nm, logo) := r]>) in
          ret r
      end
  end.

(** Modelled from the spec: [presetManager.clearCache()] invalidates the
    cache of resolved presets (section 4.1); the call is logged. *)
Definition clearCache : Tool unit :=
  modify (λ w, record EvClearCache (set_cache (λ _, ∅) w)).

(** Modelled from the spec: the builder starts empty and every chained
    call is accumulated in order (section 4.2). *)
Definition pandoc : Builder := [].

(** Modelled from the spec: one chained call on the builder. *)
Definition call (c : BuilderCall) (b : Builder) : Builder := (b ++ [c])%list.

(** [if (x) builder.m(x)]. *)
Definition call_if (x : option string) (c : string -> BuilderCall) (b : Builder)
    : Builder :=
  match x with
  | Some s => if String.eqb s "" then b else call (c s) b
  | None => b
  end.

(** Modelled from the spec: the failure reason of an execution is the
    captured standard error, or the last N lines of standard output when
    standard error is empty (section 4.2). *)
Definition failureReason (r : ProcResult) : string :=
  if String.eqb (stderr r) ""
  then Js.join Js.nl (Js.slice_last (error_tail_lines rt) (Js.split (ascii_of_nat 10) (stdout r)))
  else stderr r.

(** Modelled from the spec: [builder.execute(cwd)] runs the accumulated
    command as one subprocess; a non-zero exit is a failure carrying the
    failure reason, a zero exit a success carrying the captured standard
    output (section 4.2). *)
Definition execute (b : Builder) (cwd : option string) : Tool ExecResult :=
  let* r := spawn rt (Pandoc b cwd) in
  if (exitCode r =? 0)%Z
  then ret {| success := true; output := Some (stdout r); error := None |}
  else ret {| success := false; output := None; error := Some (failureReason r) |}.

End Collaborators.

(** ** The plugin (packages/docs/src/plugin.ts) *)

Record DraftArgs := {
  da_title : string;
  da_preset : string;
  da_initial_content : option string;
  da_source_markdown : option string;
}.

Record CompileArgs := {
  doc_id : string;
  output_path : option string;
  author : option string;
  date : option string;
  subtitle : option string;
  abstract : option string;
  keywords : option string;
  bibliography : option string;
  logo : option string;
  course : option string;
  project_title : option string;
  group : option string;
  authors : option string;
  version : option string;
  project_topic_id : option string;
}.

Record CreateArgs := {
  ca_input_path : string;
  ca_preset : string;
  ca_output_dir : option string;
  ca_logo : option string;
  ca_title : option string;
  ca_author : option string;
  ca_date : option string;
  ca_subtitle : option string;
  ca_abstract : option string;
  ca_keywords : option string;
  ca_bibliography : option string;
}.

Inductive InstallSource := Eisvogel | Ieee | CslIeee | CslApa | CslAcm.

Definition source_name (s : InstallSource) : string :=
  match s with
  | Eisvogel => "eisvogel"
  | Ieee => "ieee"
  | CslIeee => "csl-ieee"
  | CslApa => "csl-apa"
  | CslAcm => "csl-acm"
  end.

Section Plugin.

Context (rt : Runtime) (ctx : Ctx).

(** Two functions of the imported modules that the specification does not
    describe are parameters: [computeOutputPath] of the builder module and
    [resolver.ensureUserConfigDirs()]. *)
Context (computeOutputPath : string -> option string -> string -> string).
Context (ensureUserConfigDirs : Tool unit).

(** [ctx.worktree || ctx.directory || process.cwd()]. *)
Definition projectBase : string :=
  Js.or_else (worktree ctx) (Js.or_else (Some (directory ctx)) (process_cwd rt)).

Definition no_project_directory : string :=
  "Cannot determine project directory. Please run from a project directory.".

Definition getDocsBasePath : Tool string :=
  let base := projectBase in
  if String.eqb base "" || String.eqb base "/"
  then throw no_project_directory
  else ret (path_join [base; ".opencode"; "docs"]).

Definition getRegistryPath : Tool string :=
  let base := projectBase in
  if String.eqb base "" || String.eqb base "/"
  then throw no_project_directory
  else ret (path_join [base; ".opencode"; "docs-registry.json"]).

Definition ensureDocsDir : Tool unit :=
  let* basePath := getDocsBasePath in
  let* present := existsSync basePath in
  when (negb present) (mkdirSync basePath).

(** [JSON.parse(readFileSync(path, "utf-8"))]. *)
Definition parseRegistryFile (path : string) : Tool DocRegistry :=
  let* text := readFileSync path in
  match JSON_parse rt text with
  | Some registry => ret registry
  | None => throw "SyntaxError: JSON Parse error"
  end.

Definition readRegistry : Tool DocRegistry :=
  let* path := getRegistryPath in
  let* present := existsSync path in
  if negb present then ret emptyRegistry
  else try_catch (parseRegistryFile path) (λ _, ret emptyRegistry).

Definition writeRegistry (registry : DocRegistry) : Tool unit :=
  let* path := getRegistryPath in
  let dir := dirname path in
  let* present := existsSync dir in
  let* _ := when (negb present) (mkdirSync dir) in
  writeFileSync path (RegistryJson registry).

Definition generateDocId : Tool string :=
  let* a := Math_floor_random rt (N.of_nat (length ADJECTIVES)) in
  let adj := at_index ADJECTIVES a in
  let* n := Math_floor_random rt (N.of_nat (length NOUNS)) in
  let noun := at_index NOUNS n in
  let* r := Math_floor_random rt 900 in
  let num := (r + 100)%N in
  ret (adj +:+ "-" +:+ noun +:+ "-" +:+ Js.Number_toString num).

(** The loop [do { id = generateDocId(); attempts++; } while
    (registry.drafts[id] && attempts < 100)], entered with [attempts]
    attempts made; [fuel] bounds the iterations and 100 is always
    enough. *)
Fixpoint docIdLoop (registry : DocRegistry) (fuel attempts : nat)
    : Tool (string * nat) :=
  let* id := generateDocId in
  let attempts := S attempts in
  if bool_decide (is_Some (drafts registry !! id)) && (attempts <? 100)%nat
  then match fuel with
       | O => ret (id, attempts)
       | S fuel' => docIdLoop registry fuel' attempts
       end
  else ret (id, attempts).

Definition generateUniqueDocId : Tool string :=
  let* registry := readRegistry in
  let* found := docIdLoop registry 100 0 in
  let '(id, attempts) := found in
  if (100 <=? attempts)%nat
  then
    let* fresh := generateDocId in
    let* now := Date_now_ rt in
    ret (fresh +:+ "-" +:+ Js.Number_toString now)
  else ret id.

(** *** docs_draft *)

(** The initial content: [initial_content] when given, else the file
    [source_markdown] when it is given and exists, else empty. *)
Definition initialContent (args : DraftArgs) : Tool string :=
  if Js.truthy (da_initial_content args)
  then ret (Js.render (da_initial_content args))
  else if Js.truthy (da_source_markdown args)
  then
    let src := Js.render (da_source_markdown args) in
    let* present := existsSync src in
    if present
    then let* text := readFileSync src in ret (content_text rt text)
    else ret ""
  else ret "".

Definition frontmatter (ttl today : string) : string :=
  Js.join Js.nl
    [ "---";
      "title: " +:+ String (ascii_of_nat 34) (escapeYaml ttl) +:+ String (ascii_of_nat 34) "";
      "date: " +:+ String (ascii_of_nat 34) today +:+ String (ascii_of_nat 34) "";
      "---";
      "" ].

(** Add YAML frontmatter if not present. *)
Definition withFrontmatter (ttl content : string) : Tool string :=
  if negb (Js.startsWith content "---")
  then
    let* iso := new_Date_toISOString rt in
    ret (frontmatter ttl (Js.before "T" iso) +:+ content)
  else ret content.

Definition docs_draft (args : DraftArgs) : Tool string :=
  let* _ := ensureDocsDir in
  let* docId := generateUniqueDocId in
  let* base := getDocsBasePath in
  let draftDir := path_join [base; docId] in
  let* _ := mkdirSync draftDir in
  let* content := initialContent args in
  let* content := withFrontmatter (da_title args) content in
  let draftPath := path_join [draftDir; "draft.md"] in
  let* _ := writeFileSync draftPath (Text content) in
  let metaPath := path_join [draftDir; "meta.json"] in
  let* created := new_Date_toISOString rt in
  let* modified := new_Date_toISOString rt in
  let meta :=
    {| title := da_title args; preset := da_preset args;
       created_at := created; last_modified := modified;
       source_markdown := da_source_markdown args; status := StDraft |} in
  let* _ := writeFileSync metaPath (MetaJson meta) in
  let* registry := readRegistry in
  let registry :=
    {| drafts :=
         <[docId := {| title := da_title args; preset := da_preset args;
                       created_at := created_at meta;
                       last_modified := last_modified meta;
                       source_markdown := da_source_markdown args;
                       status := StDraft |}]> (drafts registry) |} in
  let* _ := writeRegistry registry in
  ret (Js.join Js.nl
         [ "Draft created: " +:+ da_title args;
           "";
           "Document ID: " +:+ docId;
           "Draft path: " +:+ draftPath;
           "Preset: " +:+ da_preset args;
           "";
           "Next steps:";
           "1. Edit the draft: " +:+ draftPath;
           "2. Compile when ready: docs_compile doc_id="
             +:+ String (ascii_of_nat 34) docId +:+ String (ascii_of_nat 34) "" ]).

(** *** docs_list_drafts *)

(** The loop over [Object.entries(registry.drafts)]; the order of the
    entries is that of the map, not the insertion order of the object. *)
Fixpoint listDraftLines (entries : list (string * DraftInfo)) : Tool (list string) :=
  match entries with
  | [] => ret []
  | (id, info) :: rest =>
      let* base := getDocsBasePath in
      let draftPath := path_join [base; id; "draft.md"] in
      let* present := existsSync draftPath in
      let st := if present then status_text (status info) else "missing" in
      let* more := listDraftLines rest in
      ret ([ id;
             "  Title: " +:+ title info;
             "  Preset: " +:+ preset info;
             "  Status: " +:+ st;
             "  Modified: " +:+ Js.before "T" (last_modified info);
             "  Path: " +:+ draftPath;
             "" ] ++ more)%list
  end.

Definition docs_list_drafts : Tool string :=
  let* registry := readRegistry in
  let entries := map_to_list (drafts registry) in
  if (length entries =? 0)%nat
  then ret "No active drafts. Create one with docs_draft."
  else
    let* lines := listDraftLines entries in
    ret (Js.join Js.nl (["Active document drafts:"; ""] ++ lines)%list).

(** *** docs_compile *)

Definition quoted (s : string) : string :=
  String (ascii_of_nat 34) s +:+ String (ascii_of_nat 34) "".

(** The metadata overrides: only the truthy arguments become keys. *)
Definition compileMetadata (args : CompileArgs) : list (string * option string) :=
  filter (λ kv, Js.truthy kv.2 = true)
    [ ("author", author args); ("date", date args);
      ("subtitle", subtitle args); ("abstract", abstract args);
      ("keywords", keywords args) ].

(** School report specific variables for the logo option. *)
Definition logoVariables (lg : option string) (b : Builder) : Builder :=
  if Js.truthy lg then
    let assetsDir := userConfigDir rt +:+ "/assets" in
    let l := Js.render lg in
    if String.eqb l "sit" then
      call (BVariable "sit-logo" (assetsDir +:+ "/sit-logo.png"))
        (call (BVariable "logo-mode" "single") b)
    else if String.eqb l "uofg" then
      call (BVariable "uofg-logo" (assetsDir +:+ "/uofg-logo.png"))
        (call (BVariable "logo-mode" "single") b)
    else if String.eqb l "both" then
      call (BVariable "uofg-logo" (assetsDir +:+ "/uofg-logo.png"))
        (call (BVariable "sit-logo" (assetsDir +:+ "/sit-logo.png"))
           (call (BVariable "logo-mode" "both") b))
    else b
  else b.

(** The builder calls of docs_compile between the template check and the
    authors table, in source order. *)
Definition compileBuilder (args : CompileArgs) (p : ResolvedPreset) (b : Builder)
    : Builder :=
  let b := call BListings (call (BApplyPreset p) b) in
  let metadata := compileMetadata args in
  let b := if (0 <? length metadata)%nat then call (BApplyMetadata metadata) b else b in
  let b := call_if (bibliography args) BBibliography b in
  let b := logoVariables (logo args) b in
  let b := call_if (course args) (BVariable "course") b in
  let b := call_if (project_title args) (BVariable "project-title") b in
  let b := call_if (group args) (BVariable "group") b in
  let b := call_if (version args) (BVariable "version") b in
  call_if (project_topic_id args) (BVariable "project-topic-id") b.

Definition authorYaml (a : Author) : list string :=
  (["  - name: " +:+ quoted (escapeYaml (author_name a))]
   ++ (if Js.truthy (sit_id a)
       then ["    sit-id: " +:+ quoted (escapeYaml (Js.render (sit_id a)))] else [])
   ++ (if Js.truthy (glasgow_id a)
       then ["    glasgow-id: " +:+ quoted (escapeYaml (Js.render (glasgow_id a)))]
       else []))%list.

(** [JSON.parse(args.authors)]; the thrown value is carried rendered. *)
Definition parseAuthors (text : string) : Tool (list Author) :=
  match JSON_parse_authors rt text with
  | inr l => ret l
  | inl e => throw e
  end.

(** Handle the authors table: returns the builder and the metadata file
    to clean up. *)
Definition authorsTable (args : CompileArgs) (draftDir : string) (b : Builder)
    : Tool (Builder * option string) :=
  if Js.truthy (authors args) then
    try_catch
      (let* authorsArray := parseAuthors (Js.render (authors args)) in
       let yamlLines := ("authors:" :: concat (map authorYaml authorsArray))%list in
       let* now := Date_now_ rt in
       let metaFile :=
         path_join [draftDir; "authors-" +:+ Js.Number_toString now +:+ ".yaml"] in
       let* _ := writeFileSync metaFile (Text (Js.join Js.nl yamlLines)) in
       ret (call (BMetadataFile metaFile) b, Some metaFile))
      (λ e, throw ("Invalid authors JSON: " +:+ e))
  else ret (b, None).

(** Cleanup of the metadata file; errors of the removal are ignored. *)
Definition cleanupMetaFile (metaFile : option string) : Tool unit :=
  match metaFile with
  | Some f =>
      let* present := existsSync f in
      when present
        (try_catch (let* _ := spawn rt (Argv ["rm"; "-f"; f]) in ret tt) (λ _, ret tt))
  | None => ret tt
  end.

Definition template_missing (p : ResolvedPreset) : bool :=
  Js.truthy (template_path (config p)) && negb (Js.truthy (resolved_template_path p)).

Definition template_not_found (p : ResolvedPreset) : string :=
  "Template '" +:+ Js.render (template_path (config p))
  +:+ "' not found. Use docs_templates_install.".

(** docs_compile from the point where the registry has been written:
    load the preset, build the command, execute it. *)
Definition compileDraft (args : CompileArgs) (draftInfo : DraftInfo)
    (draftDir draftPath : string) : Tool string :=
  let outputPath :=
    Js.or_else (output_path args) (path_join [draftDir; doc_id args +:+ ".pdf"]) in
  let* p := loadPreset rt ctx (preset draftInfo) (logo args) in
  let builder := call (BOutput outputPath) (call (BInput draftPath) pandoc) in
  if template_missing p then throw (template_not_found p)
  else
    let builder := compileBuilder args p builder in
    let* tbl := authorsTable args draftDir builder in
    let '(builder, metaFileToCleanup) := tbl in
    let* result := execute rt builder None in
    let* _ := cleanupMetaFile metaFileToCleanup in
    if negb (success result)
    then throw ("Compilation failed:" +:+ Js.nl +:+ Js.render (error result))
    else ret ("Compiled: " +:+ outputPath +:+ Js.nl
              +:+ "Document: " +:+ title draftInfo +:+ Js.nl
              +:+ "Preset: " +:+ preset draftInfo).

(** The entry after [draftInfo.last_modified = ...; draftInfo.status =
    "compiled"]. *)
Definition markCompiled (now : string) (d : DraftInfo) : DraftInfo :=
  {| title := title d; preset := preset d; created_at := created_at d;
     last_modified := now; source_markdown := source_markdown d;
     status := StCompiled |}.

Definition docs_compile (args : CompileArgs) : Tool string :=
  if negb (isValidDocId (doc_id args))
  then ret ("Invalid document ID format: " +:+ doc_id args)
  else
    let* registry := readRegistry in
    match drafts registry !! doc_id args with
    | None =>
        ret ("Draft not found: " +:+ doc_id args
             +:+ ". Use docs_list_drafts to see available drafts.")
    | Some draftInfo =>
        let* base := getDocsBasePath in
        let draftDir := path_join [base; doc_id args] in
        let draftPath := path_join [draftDir; "draft.md"] in
        let* present := existsSync draftPath in
        if negb present then ret ("Draft file missing: " +:+ draftPath)
        else
          let* now := new_Date_toISOString rt in
          let draftInfo := markCompiled now draftInfo in
          let registry :=
            {| drafts := <[doc_id args := draftInfo]> (drafts registry) |} in
          let* _ := writeRegistry registry in
          compileDraft args draftInfo draftDir draftPath
    end.

(** *** docs_delete_draft *)

Definition docs_delete_draft (docId : string) : Tool string :=
  if negb (isValidDocId docId)
  then ret ("Invalid document ID format: " +:+ docId)
  else
    let* registry := readRegistry in
    match drafts registry !! docId with
    | None => ret ("Draft not found: " +:+ docId)
    | Some _ =>
        let* base := getDocsBasePath in
        let draftDir := path_join [base; docId] in
        let* present := existsSync draftDir in
        let* _ := when present
                    (let* _ := spawn rt (Argv ["rm"; "-rf"; draftDir]) in ret tt) in
        let registry := {| drafts := delete docId (drafts registry) |} in
        let* _ := writeRegistry registry in
        ret ("Deleted draft: " +:+ docId)
    end.

(** *** docs_compile_latex *)

Definition docs_compile_latex (file_path : string) (output_dir : option string)
    : Tool string :=
  if negb (Js.endsWith file_path ".tex") then throw "Input file must be a .tex file"
  else
    let inputDir := Js.parentDir file_path in
    let outputDir := Js.or_else output_dir inputDir in
    let* proc :=
      spawn rt (Argv ["pdflatex"; "-output-directory"; outputDir;
                      "-interaction=nonstopmode"; file_path]) in
    if negb (exitCode proc =? 0)%Z
    then throw ("Compilation failed:" +:+ Js.nl +:+ stderr proc)
    else ret ("Compiled " +:+ file_path +:+ " to PDF.").

(** *** docs_templates_install *)

(** [await Bun.write(dest, text)]. *)
Definition Bun_write (dest text : string) : Tool unit :=
  writeFileSync dest (Text text).

Definition eisvogelUrl : string :=
  "https://github.com/Wandmalfarbe/pandoc-latex-template/releases/download/v3.3.0/Eisvogel.tar.gz".

(** The table [urls] of the direct downloads. *)
Definition directDownload (userDir : string) (src : InstallSource)
    : option (string * string) :=
  match src with
  | CslIeee =>
      Some ("https://raw.githubusercontent.com/citation-style-language/styles/master/ieee.csl",
            userDir +:+ "/csl/ieee.csl")
  | CslApa =>
      Some ("https://raw.githubusercontent.com/citation-style-language/styles/master/apa.csl",
            userDir +:+ "/csl/apa.csl")
  | CslAcm =>
      Some ("https://raw.githubusercontent.com/citation-style-language/styles/master/acm-sig-proceedings.csl",
            userDir +:+ "/csl/acm-sig-proceedings.csl")
  | Eisvogel | Ieee => None
  end.

Definition installIeee (userDir : string) : Tool string :=
  let ieeeDir := userDir +:+ "/templates/ieee" in
  let* _ := spawn rt (Argv ["mkdir"; "-p"; ieeeDir]) in
  let* tplRes :=
    fetch rt "https://raw.githubusercontent.com/stsewd/ieee-pandoc-template/master/template.latex" in
  if negb (ok tplRes)
  then throw ("Template download failed: HTTP " +:+ Js.Number_toString (http_status tplRes))
  else
    let* _ := Bun_write (ieeeDir +:+ "/template.latex") (body tplRes) in
    let* clsProc :=
      spawn rt (Argv ["curl"; "-sL"; "-o"; ieeeDir +:+ "/IEEEtran.cls";
                      "http://mirrors.ctan.org/macros/latex/contrib/IEEEtran/IEEEtran.cls"]) in
    if negb (exitCode clsProc =? 0)%Z
    then throw "Failed to download IEEEtran.cls from CTAN"
    else
      let* _ := clearCache in
      ret ("Installed IEEE template + IEEEtran.cls to " +:+ ieeeDir).

Definition installDirect (userDir : string) (src : InstallSource) : Tool string :=
  match directDownload userDir src with
  | None => throw "TypeError: undefined is not an object"
  | Some (url, dest) =>
      let* _ := spawn rt (Argv ["mkdir"; "-p"; Js.parentDir dest]) in
      let* res := fetch rt url in
      if negb (ok res) then throw ("HTTP " +:+ Js.Number_toString (http_status res))
      else
        let* _ := Bun_write dest (body res) in
        let* _ := clearCache in
        ret ("Installed " +:+ source_name src +:+ " to " +:+ dest)
  end.

(** packages/docs/src/plugin.ts: the tarball is downloaded, then
    extracted. *)
Definition installEisvogel (userDir : string) : Tool string :=
  let tarUrl := eisvogelUrl in
  let dest := userDir +:+ "/templates/eisvogel.latex" in
  let tmpDir := "/tmp/eisvogel-install" in
  let* _ := spawn rt (Argv ["rm"; "-rf"; tmpDir]) in
  let* _ := spawn rt (Argv ["mkdir"; "-p"; tmpDir]) in
  let* dlProc :=
    spawn rt (Argv ["curl"; "-sL"; "-o"; tmpDir +:+ "/template.tar.gz"; tarUrl]) in
  if negb (exitCode dlProc =? 0)%Z
  then throw ("Download failed: " +:+ stderr dlProc)
  else
    let* tarProc :=
      spawn rt (Argv ["tar"; "-xz"; "-C"; tmpDir; "-f"; tmpDir +:+ "/template.tar.gz"]) in
    if negb (exitCode tarProc =? 0)%Z
    then throw ("Extraction failed: " +:+ stderr tarProc)
    else
      let* _ := spawn rt (Argv ["cp"; tmpDir +:+ "/eisvogel.latex"; dest]) in
      let* _ := spawn rt (Argv ["rm"; "-rf"; tmpDir]) in
      let* _ := clearCache in
      ret ("Installed eisvogel to " +:+ dest).

Definition docs_templates_install (src : InstallSource) : Tool string :=
  let* _ := ensureUserConfigDirs in
  let userDir := userConfigDir rt in
  match src with
  | Eisvogel => installEisvogel userDir
  | Ieee => installIeee userDir
  | _ => installDirect userDir src
  end.

(** plugins/docs.ts: download and extraction are one shell pipeline. *)
Definition installEisvogel_legacy (userDir : string) : Tool string :=
  let tarUrl := eisvogelUrl in
  let dest := userDir +:+ "/templates/eisvogel.latex" in
  let tmpDir := "/tmp/eisvogel-install" in
  let* _ := spawn rt (Argv ["rm"; "-rf"; tmpDir]) in
  let* _ := spawn rt (Argv ["mkdir"; "-p"; tmpDir]) in
  let* proc :=
    spawn rt (Argv ["sh"; "-c";
                    "curl -sL " +:+ quoted tarUrl +:+ " | tar -xz -C " +:+ quoted tmpDir]) in
  if negb (exitCode proc =? 0)%Z
  then throw ("Download failed: " +:+ stderr proc)
  else
    let* _ := spawn rt (Argv ["cp"; tmpDir +:+ "/eisvogel.latex"; dest]) in
    let* _ := spawn rt (Argv ["rm"; "-rf"; tmpDir]) in
    let* _ := clearCache in
    ret ("Installed eisvogel to " +:+ dest).

Definition docs_templates_install_legacy (src : InstallSource) : Tool string :=
  let* _ := ensureUserConfigDirs in
  let userDir := userConfigDir rt in
  match src with
  | Eisvogel => installEisvogel_legacy userDir
  | Ieee => installIeee userDir
  | _ => installDirect userDir src
  end.

(** *** docs_create *)

Definition createMetadata (args : CreateArgs) : list (string * option string) :=
  [ ("title", ca_title args); ("author", ca_author args); ("date", ca_date args);
    ("subtitle", ca_subtitle args); ("abstract", ca_abstract args);
    ("keywords", ca_keywords args) ].

Definition docs_create (args : CreateArgs) : Tool string :=
  let* p := loadPreset rt ctx (ca_preset args) (ca_logo args) in
  if template_missing p then throw (template_not_found p)
  else
    let outputPath := computeOutputPath (ca_input_path args) (ca_output_dir args) "pdf" in
    let builder :=
      call (BApplyMetadata (createMetadata args))
        (call BListings
           (call (BApplyPreset p)
              (call (BOutput outputPath) (call (BInput (ca_input_path args)) pandoc)))) in
    let builder := call_if (ca_bibliography args) BBibliography builder in
    let isIeee :=
      Js.includes (name (config p)) "ieee" || Js.includes (ca_preset args) "ieee" in
    let run :=
      if isIeee && Js.truthy (resolved_template_path p)
      then (call BSimpleTables builder,
            Some (Js.parentDir (Js.render (resolved_template_path p))))
      else (builder, None) in
    let* result := execute rt run.1 run.2 in
    if negb (success result)
    then throw ("Failed:" +:+ Js.nl +:+ Js.render (error result))
    else ret ("Created: " +:+ outputPath +:+ Js.nl +:+ "Preset: " +:+ name (config p)).

End Plugin.

(** ** Further tools of the plugin *)

Record ConvertArgs := {
  cv_input_path : string;
  cv_output_format : string;
  cv_from_format : option string;
  cv_output_dir : option string;
}.

Inductive IeeeFormat := Conference | Journal.

Record IeeePaperArgs := {
  ip_input_path : string;
  ip_format : option IeeeFormat;
  ip_title : string;
  ip_author : string;
  ip_abstract : string;
  ip_keywords : option string;
  ip_bibliography : option string;
  ip_output_dir : option string;
}.

Record GenerateLatexArgs := {
  gl_input_path : string;
  gl_preset : string;
  gl_output_path : option string;
  gl_logo : option string;
  gl_title : option string;
  gl_author : option string;
  gl_date : option string;
  gl_subtitle : option string;
  gl_abstract : option string;
  gl_keywords : option string;
  gl_bibliography : option string;
}.

(** The suffix is replaced when the string ends with it, as a regular
    expression anchored at the end does for a literal. *)
Definition replaceSuffix (s suffix by_ : string) : string :=
  if Js.endsWith s suffix
  then String.substring 0 (String.length s - String.length suffix) s +:+ by_
  else s.

(** [s.split(sep).pop()]. *)
Definition lastSegment (sep : ascii) (s : string) : string :=
  List.last (Js.split sep s) "".

Section MoreTools.

Context (rt : Runtime) (ctx : Ctx).
Context (computeOutputPath : string -> option string -> string -> string).

(** *** docs_convert (both copies of the plugin) *)

Definition docs_convert (args : ConvertArgs) : Tool string :=
  let outputPath :=
    computeOutputPath (cv_input_path args) (cv_output_dir args) (cv_output_format args) in
  let builder := call (BOutput outputPath) (call (BInput (cv_input_path args)) pandoc) in
  let builder := call_if (cv_from_format args) BFrom builder in
  let* result := execute rt builder None in
  if negb (success result)
  then throw ("Pandoc failed:" +:+ Js.nl +:+ Js.render (error result))
  else ret ("Converted " +:+ cv_input_path args +:+ " to " +:+ outputPath).

(** *** docs_create of plugins/docs.ts *)

Definition docs_create_legacy (args : CreateArgs) : Tool string :=
  let* p := loadPreset rt ctx (ca_preset args) (ca_logo args) in
  if template_missing p then throw (template_not_found p)
  else
    let outputPath := computeOutputPath (ca_input_path args) (ca_output_dir args) "pdf" in
    let builder :=
      call (BApplyMetadata (createMetadata args))
        (call BListings
           (call (BApplyPreset p)
              (call (BOutput outputPath) (call (BInput (ca_input_path args)) pandoc)))) in
    let builder := call_if (ca_bibliography args) BBibliography builder in
    let* result := execute rt builder None in
    if negb (success result)
    then throw ("Failed:" +:+ Js.nl +:+ Js.render (error result))
    else ret ("Created: " +:+ outputPath +:+ Js.nl +:+ "Preset: " +:+ name (config p)).

(** *** docs_create_ieee_paper (packages/docs/src/plugin.ts) *)

Definition ieeePresetName (f : option IeeeFormat) : string :=
  match f with Some Journal => "ieee-journal" | _ => "ieee-conference" end.

Definition ieeeFormatName (f : option IeeeFormat) : string :=
  match f with Some Journal => "journal" | _ => "conference" end.

Definition ieeeMetadata (args : IeeePaperArgs) : list (string * option string) :=
  [ ("title", Some (ip_title args)); ("author", Some (ip_author args));
    ("abstract", Some (ip_abstract args)); ("keywords", ip_keywords args) ].

Definition docs_create_ieee_paper (args : IeeePaperArgs) : Tool string :=
  let* p := loadPreset rt ctx (ieeePresetName (ip_format args)) None in
  if negb (Js.truthy (resolved_template_path p))
  then throw "IEEE template not found. Run: docs_templates_install ieee"
  else
    let outputPath := computeOutputPath (ip_input_path args) (ip_output_dir args) "pdf" in
    let builder :=
      call (BApplyMetadata (ieeeMetadata args))
        (call (BApplyPreset p)
           (call (BOutput outputPath) (call (BInput (ip_input_path args)) pandoc))) in
    let builder := call_if (ip_bibliography args) BBibliography builder in
    let builder := call BSimpleTables builder in
    let templateDir := Js.parentDir (Js.render (resolved_template_path p)) in
    let* result := execute rt builder (Some templateDir) in
    if negb (success result)
    then throw ("Failed:" +:+ Js.nl +:+ Js.render (error result))
    else ret ("Created IEEE " +:+ ieeeFormatName (ip_format args) +:+ " paper: "
              +:+ outputPath).

(** *** docs_generate_latex (packages/docs/src/plugin.ts) *)

Definition latexMetadata (args : GenerateLatexArgs) : list (string * option string) :=
  [ ("title", gl_title args); ("author", gl_author args); ("date", gl_date args);
    ("subtitle", gl_subtitle args); ("abstract", gl_abstract args);
    ("keywords", gl_keywords args) ].

Definition latexOutputPath (args : GenerateLatexArgs) : string :=
  Js.or_else (gl_output_path args)
    (replaceSuffix (computeOutputPath (gl_input_path args) None "tex") ".pdf" ".tex").

Definition docs_generate_latex (args : GenerateLatexArgs) : Tool string :=
  let* p := loadPreset rt ctx (gl_preset args) (gl_logo args) in
  if template_missing p then throw (template_not_found p)
  else
    let outputPath := latexOutputPath args in
    let builder :=
      call (BApplyMetadata (latexMetadata args))
        (call (BApplyPreset p)
           (call (BOutput outputPath) (call (BInput (gl_input_path args)) pandoc))) in
    let builder := call_if (gl_bibliography args) BBibliography builder in
    let isIeee :=
      Js.includes (name (config p)) "ieee" || Js.includes (gl_preset args) "ieee" in
    let builder := if isIeee then call BSimpleTables builder else builder in
    let* result := execute rt builder None in
    if negb (success result)
    then throw ("Failed:" +:+ Js.nl +:+ Js.render (error result))
    else ret ("Generated LaTeX: " +:+ outputPath +:+ Js.nl
              +:+ "Preset: " +:+ name (config p) +:+ Js.nl +:+ Js.nl
              +:+ "To compile manually:" +:+ Js.nl
              +:+ "pdflatex " +:+ lastSegment "/" outputPath).

End MoreTools.

(** ** Vocabulary of the statements *)

(** A non-empty word of lower-case letters, and one of digits. *)
Definition lower_word (s : string) : bool :=
  negb (String.eqb s "") && forallb Js.is_lower (list_ascii_of_string s).

Definition digit_word (s : string) : bool :=
  negb (String.eqb s "") && forallb Js.is_digit (list_ascii_of_string s).

(** The shape of a freshly drawn identifier. *)
Definition PlainId (id : string) : Prop :=
  exists adj noun num,
    id = adj +:+ "-" +:+ noun +:+ "-" +:+ num
    /\ lower_word adj = true /\ lower_word noun = true /\ digit_word num = true.

(** Worlds that differ at most in how many random numbers and clock
    readings were consumed. *)
Definition only_ticks (w w' : World) : Prop :=
  files w' = files w /\ dirs w' = dirs w /\ preset_defs w' = preset_defs w
  /\ cache w' = cache w /\ log w' = log w.

(** What [readRegistry] returns, as a function of the files and directories
    it reads. *)
Definition registryView (rt : Runtime) (ctx : Ctx)
    (fs : gmap string Content) (ds : gset string) : Completion DocRegistry :=
  let base := projectBase rt ctx in
  if String.eqb base "" || String.eqb base "/" then Throw no_project_directory
  else
    match fs !! path_join [base; ".opencode"; "docs-registry.json"] with
    | Some text =>
        match JSON_parse rt text with
        | Some registry => Return registry
        | None => Return emptyRegistry
        end
    | None => Return emptyRegistry
    end.

(** Accepted identifiers consist of lower-case letters, digits and dashes. *)
Definition id_char (c : ascii) : bool :=
  Js.is_lower c || Js.is_digit c || Ascii.eqb c "-".

(** A tool reports by throwing when its completion is a thrown exception. *)
Definition throws {A} (r : Completion A * World) : Prop :=
  exists msg, r.1 = Throw msg.

(** The project directory can be determined. *)
Definition project_ok (rt : Runtime) (ctx : Ctx) : Prop :=
  String.eqb (projectBase rt ctx) "" || String.eqb (projectBase rt ctx) "/" = false.

(** The paths [getRegistryPath] and [getDocsBasePath] return then, and the
    directory of a draft. *)
Definition registryPathOf (rt : Runtime) (ctx : Ctx) : string :=
  path_join [projectBase rt ctx; ".opencode"; "docs-registry.json"].

Definition docsBaseOf (rt : Runtime) (ctx : Ctx) : string :=
  path_join [projectBase rt ctx; ".opencode"; "docs"].

Definition draftDirOf (rt : Runtime) (ctx : Ctx) (id : string) : string :=
  path_join [docsBaseOf rt ctx; id].

(** The registry a file system holds: the parsed registry file, or the
    empty registry when the file is absent or malformed. *)
Definition registryOf (rt : Runtime) (ctx : Ctx) (fs : gmap string Content) : DocRegistry :=
  match fs !! registryPathOf rt ctx with
  | Some text =>
      match JSON_parse rt text with
      | Some registry => registry
      | None => emptyRegistry
      end
  | None => emptyRegistry
  end.

(** Worlds that agree on the preset definitions, the cache and the log. *)
Definition quiet_step (w w' : World) : Prop :=
  preset_defs w' = preset_defs w /\ cache w' = cache w /\ log w' = log w.

(** What [existsSync] answers in a world. *)
Definition fileExists (w : World) (p : string) : bool :=
  bool_decide (is_Some (files w !! p)) || bool_decide (p ∈ dirs w).

(** The initial content of a draft, as a function of the files. *)
Definition draftContent (rt : Runtime) (args : DraftArgs) (fs : gmap string Content)
    : string :=
  if Js.truthy (da_initial_content args) then Js.render (da_initial_content args)
  else if Js.truthy (da_source_markdown args) then
    match fs !! Js.render (da_source_markdown args) with
    | Some c => content_text rt c
    | None => ""
    end
  else "".

(** The source file is asked for and cannot be read. *)
Definition source_unreadable (args : DraftArgs) (fs : gmap string Content) : Prop :=
  Js.truthy (da_initial_content args) = false
  /\ Js.truthy (da_source_markdown args) = true
  /\ fs !! Js.render (da_source_markdown args) = None.

(** The entry docs_draft registers. *)
Definition draftEntry (args : DraftArgs) (created modified : string) : DraftInfo :=
  {| title := da_title args; preset := da_preset args;
     created_at := created; last_modified := modified;
     source_markdown := da_source_markdown args; status := StDraft |}.

(** The registry file is absent, or its contents are not valid JSON. *)
Definition registry_unreadable (rt : Runtime) (ctx : Ctx) (w : World) : Prop :=
  files w !! registryPathOf rt ctx = None
  \/ exists text, files w !! registryPathOf rt ctx = Some text /\ JSON_parse rt text = None.


(** No character of the text is a slash. *)
Definition no_slash (s : string) : Prop :=
  forall c, In c (list_ascii_of_string s) -> c <> "/"%char.


(** The lines docs_list_drafts prints for one entry, given whether its
    draft file exists and where. *)
Definition draftListing (id : string) (info : DraftInfo) (present : bool)
    (draftPath : string) : list string :=
  [ id;
    "  Title: " +:+ title info;
    "  Preset: " +:+ preset info;
    "  Status: " +:+ (if present then status_text (status info) else "missing");
    "  Modified: " +:+ Js.before "T" (last_modified info);
    "  Path: " +:+ draftPath;
    "" ].

(** The downloads of the IEEE installation. *)
Definition ieeeTemplateUrl : string :=
  "https://raw.githubusercontent.com/stsewd/ieee-pandoc-template/master/template.latex".

Definition ieeeClassCommand (ieeeDir : string) : Command :=
  Argv ["curl"; "-sL"; "-o"; ieeeDir +:+ "/IEEEtran.cls";
        "http://mirrors.ctan.org/macros/latex/contrib/IEEEtran/IEEEtran.cls"].

(** A tool run surfaces the outcome of its conversion: either it threw
    before any process was started, or it started exactly one conversion
    and completed normally if that exited with zero and threw the message
    made of [prefix], a newline and the failure reason otherwise. *)
Definition surfaces (rt : Runtime) (prefix : string) (w : World)
    (r : Completion string * World) : Prop :=
  (log r.2 = log w /\ exists e, r.1 = Throw e)
  \/ exists b cwd,
       log r.2 = EvSpawn (Pandoc b cwd) :: log w
       /\ let p := run_process rt (length (log w)) (Pandoc b cwd) in
          (exitCode p = 0%Z -> is_return r.1 = true)
          /\ (exitCode p <> 0%Z ->
              r.1 = Throw (prefix +:+ Js.nl +:+ failureReason rt p)).

(** The escaping as the claim words it, one character at a time: a double
    quote is escaped by a backslash before it, a newline is replaced by a
    space, every other character stays. *)
Fixpoint quotesEscapedNewlinesSpaced (s : string) : string :=
  match s with
  | EmptyString => EmptyString
  | String c rest =>
      if Ascii.eqb c (ascii_of_nat 34)
      then String (ascii_of_nat 92) (String (ascii_of_nat 34) (quotesEscapedNewlinesSpaced rest))
      else if Ascii.eqb c (ascii_of_nat 10)
      then String " " (quotesEscapedNewlinesSpaced rest)
      else String c (quotesEscapedNewlinesSpaced rest)
  end.

(** The registry file is absent, or it is as the plugin wrote it. *)
Definition registry_intact (rt : Runtime) (ctx : Ctx) (w : World) : Prop :=
  files w !! registryPathOf rt ctx = None
  \/ exists registry, files w !! registryPathOf rt ctx = Some (RegistryJson registry).

(** The world in which docs_compile loads the preset of draft [d]: the
    clock has been read once and the registry written with the entry
    marked compiled. *)
Definition registryMarked (rt : Runtime) (ctx : Ctx) (args : CompileArgs)
    (d : DraftInfo) (w : World) : World :=
  (writeRegistry rt ctx
     {| drafts :=
          <[doc_id args := markCompiled (toISOString rt (Date_now rt (clock_calls w))) d]>
            (drafts (registryOf rt ctx (files w))) |}
     (tick_clock w)).2.

(** ** A concrete runtime and concrete worlds

    Inputs on which the tools are evaluated. *)
Module Example.

Definition iso : string := "2023-11-14T22:13:20.000Z".

Definition quiet : ProcResult := {| exitCode := 0; stdout := ""; stderr := "" |}.

(** A runtime whose random generator always draws zero, whose clock
    stands still, and whose processes and downloads succeed silently. *)
Definition rt : Runtime :=
  {| Math_random := λ _, 0%N;
     Date_now := λ _, 1700000000000%N;
     toISOString := λ _, iso;
     run_process := λ _ _, quiet;
     http_get := λ _ _, {| ok := true; http_status := 200; body := "<style/>" |};
     JSON_parse_registry := λ _, None;
     JSON_stringify_registry := λ _, "{ drafts }";
     JSON_stringify_meta := λ _, "{ meta }";
     JSON_parse_authors := λ _, inl "SyntaxError: JSON Parse error";
     process_cwd := "/home/u";
     userConfigDir := "/home/u/.config/opencode";
     builtinDir := "/opt/opencode";
     error_tail_lines := 20;
     stack_depth := 64 |}.

(** The same machine with a failing converter. *)
Definition failing : ProcResult :=
  {| exitCode := 43; stdout := "page 1" +:+ Js.nl +:+ "page 2"; stderr := "" |}.

Definition rt_failing : Runtime :=
  {| Math_random := Math_random rt; Date_now := Date_now rt;
     toISOString := toISOString rt;
     run_process := λ _ _, failing;
     http_get := http_get rt;
     JSON_parse_registry := JSON_parse_registry rt;
     JSON_stringify_registry := JSON_stringify_registry rt;
     JSON_stringify_meta := JSON_stringify_meta rt;
     JSON_parse_authors := JSON_parse_authors rt;
     process_cwd := process_cwd rt; userConfigDir := userConfigDir rt;
     builtinDir := builtinDir rt; error_tail_lines := 1;
     stack_depth := stack_depth rt |}.

Definition ctx : Ctx := {| worktree := Some "/proj"; directory := "/proj" |}.

Definition registryPath : string := "/proj/.opencode/docs-registry.json".

Definition draft (t : string) : DraftInfo :=
  {| title := t; preset := "report"; created_at := iso; last_modified := iso;
     source_markdown := None; status := StDraft |}.

Definition first_id : string := "amber-apple-100".
Definition stamped_id : string := "amber-apple-100-1700000000000".

(** A registry that holds the identifier the generator keeps drawing, and
    the timestamped identifier it falls back to. *)
Definition crowded : DocRegistry :=
  {| drafts := <[first_id := draft "First"]> (<[stamped_id := draft "Second"]> ∅) |}.

(** A built-in preset that names a template, and a project preset that
    extends it. *)
Definition base_preset : PresetConfig :=
  {| name := "base"; description := Some "Base report"; extends := None;
     template_path := Some "eisvogel.latex";
     pdf_engine := Some "xelatex"; csl := None; pandoc_from := Some "markdown";
     pandoc_variables := <["fontsize" := "11pt"]> (<["geometry" := "a4paper"]> ∅);
     pandoc_extra_args := ["--listings"]; logos := ∅;
     style := <["toc" := true]> ∅;
     required_fields := None; optional_fields := None |}.

Definition report_preset : PresetConfig :=
  {| name := "report"; description := None; extends := Some "base";
     template_path := None;
     pdf_engine := Some "lualatex"; csl := None; pandoc_from := None;
     pandoc_variables := <["fontsize" := "12pt"]> ∅;
     pandoc_extra_args := ["--number-sections"]; logos := ∅;
     style := <["toc" := false]> ∅;
     required_fields := None; optional_fields := None |}.

Definition presets (sc : Scope) : gmap string PresetConfig :=
  match sc with
  | ScProject => <["report" := report_preset]> ∅
  | ScUser => ∅
  | ScBuiltin => <["base" := base_preset]> ∅
  end.

Definition world (fs : gmap string Content) : World :=
  {| files := fs; dirs := ∅; preset_defs := presets; cache := ∅;
     random_calls := 0; clock_calls := 0; log := [] |}.

(** A project without a registry file. *)
Definition fresh : World := world ∅.

(** A project whose registry file is not JSON. *)
Definition garbled : World := world (<[registryPath := Text "not json"]> ∅).

(** A project with the crowded registry and the draft files of its first
    entry. *)
Definition busy : World :=
  world (<[registryPath := RegistryJson crowded]>
           (<["/proj/.opencode/docs/amber-apple-100/draft.md" := Text "# First"]> ∅)).

(** The same project with the template installed for the user. *)
Definition installed : World :=
  world (<[registryPath := RegistryJson crowded]>
           (<["/proj/.opencode/docs/amber-apple-100/draft.md" := Text "# First"]>
              (<["/home/u/.config/opencode/templates/eisvogel.latex" := Text "%"]> ∅))).

Definition draftArgs : DraftArgs :=
  {| da_title := "Third"; da_preset := "report";
     da_initial_content := Some "# Third"; da_source_markdown := None |}.

Definition compileArgs (id : string) : CompileArgs :=
  {| doc_id := id; output_path := None; author := None; date := None;
     subtitle := None; abstract := None; keywords := None; bibliography := None;
     logo := None; course := None; project_title := None; group := None;
     authors := None; version := None; project_topic_id := None |}.

Definition createArgs : CreateArgs :=
  {| ca_input_path := "/proj/paper.md"; ca_preset := "report";
     ca_output_dir := None; ca_logo := None; ca_title := None; ca_author := None;
     ca_date := None; ca_subtitle := None; ca_abstract := None;
     ca_keywords := None; ca_bibliography := None |}.

Definition computeOutputPath (input : string) (dir : option string) (fmt : string)
    : string :=
  input +:+ "." +:+ fmt.

Definition ensureUserConfigDirs : Tool unit := ret tt.

(** The command docs_compile builds for the first draft of the project
    with the installed template. *)
Definition conversion : Builder :=
  Eval vm_compute in
    match log (docs_compile rt_failing ctx (compileArgs first_id) installed).2 with
    | EvSpawn (Pandoc b _) :: _ => b
    | _ => []
    end.

End Example.

(** ** A project with two drafts on disk *)
Module Workspace.

Definition second_id : string := "brave-river-200".

Definition registry : DocRegistry :=
  {| drafts := <[Example.first_id := Example.draft "First"]>
                 (<[second_id := Example.draft "Second"]> ∅) |}.

(** Both drafts have their directory and their draft file; the template of
    their preset is installed for the user. *)
Definition two_drafts : World :=
  {| files :=
       <[Example.registryPath := RegistryJson registry]>
         (<["/proj/.opencode/docs/amber-apple-100/draft.md" := Text "# First"]>
            (<["/proj/.opencode/docs/amber-apple-100/notes.txt" := Text "todo"]>
               (<["/proj/.opencode/docs/brave-river-200/draft.md" := Text "# Second"]>
                  (<["/home/u/.config/opencode/templates/eisvogel.latex" := Text "%"]> ∅))));
     dirs := {[ "/proj/.opencode"; "/proj/.opencode/docs";
                "/proj/.opencode/docs/amber-apple-100";
                "/proj/.opencode/docs/brave-river-200" ]};
     preset_defs := Example.presets; cache := ∅;
     random_calls := 0; clock_calls := 0; log := [] |}.

(** A machine with the IEEE journal preset built in and its template
    installed for the user. *)
Definition ieee_preset : PresetConfig :=
  {| name := "ieee-journal"; description := None; extends := None;
     template_path := Some "ieee/template.latex";
     pdf_engine := Some "pdflatex"; csl := None; pandoc_from := None;
     pandoc_variables := ∅; pandoc_extra_args := []; logos := ∅; style := ∅;
     required_fields := None; optional_fields := None |}.

Definition ieee_machine : World :=
  {| files := <["/home/u/.config/opencode/templates/ieee/template.latex" := Text "%"]> ∅;
     dirs := ∅;
     preset_defs :=
       λ sc, match sc with
             | ScBuiltin => <["ieee-journal" := ieee_preset]> ∅
             | _ => ∅
             end;
     cache := ∅; random_calls := 0; clock_calls := 0; log := [] |}.

Definition paperArgs : IeeePaperArgs :=
  {| ip_input_path := "/proj/paper.md"; ip_format := Some Journal;
     ip_title := "T"; ip_author := "A"; ip_abstract := "S";
     ip_keywords := None; ip_bibliography := None; ip_output_dir := None |}.

(** A request for a draft whose source is a directory. *)
Definition fromDirectory : DraftArgs :=
  {| da_title := "Notes"; da_preset := "report";
     da_initial_content := None;
     da_source_markdown := Some "/proj/.opencode/docs" |}.

(** A runtime whose JSON parser reads one author, whose name spans two
    lines and quotes a nickname. *)
Definition ann : Author :=
  {| author_name :=
       "Ann " +:+ String (ascii_of_nat 34) ("A" +:+ String (ascii_of_nat 34) "")
       +:+ Js.nl +:+ "Lee";
     sit_id := Some "2201234"; glasgow_id := None |}.

Definition rt_authors : Runtime :=
  {| Math_random := Math_random Example.rt; Date_now := Date_now Example.rt;
     toISOString := toISOString Example.rt;
     run_process := run_process Example.rt;
     http_get := http_get Example.rt;
     JSON_parse_registry := JSON_parse_registry Example.rt;
     JSON_stringify_registry := JSON_stringify_registry Example.rt;
     JSON_stringify_meta := JSON_stringify_meta Example.rt;
     JSON_parse_authors := λ _, inr [ann];
     process_cwd := process_cwd Example.rt; userConfigDir := userConfigDir Example.rt;
     builtinDir := builtinDir Example.rt;
     error_tail_lines := error_tail_lines Example.rt;
     stack_depth := stack_depth Example.rt |}.

Definition authorsArgs : CompileArgs :=
  {| doc_id := Example.first_id; output_path := None; author := None; date := None;
     subtitle := None; abstract := None; keywords := None; bibliography := None;
     logo := None; course := None; project_title := None; group := None;
     authors := Some "[...]"; version := None; project_topic_id := None |}.

(** A request whose title quotes a word and spans two lines. *)
Definition quotedTitle : DraftArgs :=
  {| da_title := "The " +:+ quoted "Third" +:+ Js.nl +:+ "draft";
     da_preset := "report";
     da_initial_content := Some "# Third"; da_source_markdown := None |}.
(** A context whose worktree is the root directory. *)
Definition rootCtx : Ctx := {| worktree := Some "/"; directory := "/proj" |}.

End Workspace.

(** * Theorems *)

(** ** The matcher agrees with the declarative semantics *)
Module RegexFacts.
Import Regex.

Lemma Matches_nil_inv r : Matches r [] -> nullable r = true.
Proof.
  intros H. remember [] as s eqn:Hs.
  induction H; simpl; try reflexivity; try discriminate.
  - apply app_eq_nil in Hs as [-> ->].
    rewrite IHMatches1, IHMatches2; auto.
  - rewrite IHMatches; auto.
  - rewrite IHMatches; auto. apply orb_true_r.
Qed.

Lemma nullable_Matches r : nullable r = true -> Matches r [].
Proof.
  induction r; simpl; intros H; try discriminate.
  - constructor.
  - apply andb_true_iff in H as [H1 H2].
    change (@nil ascii) with (@nil ascii ++ [])%list. constructor; auto.
  - apply orb_true_iff in H as [H|H]; [apply MAltL | apply MAltR]; auto.
  - constructor.
Qed.

(** A non-empty match of a star starts with a non-empty match of its
    body. *)
Lemma Matches_star_cons r c s :
  Matches (Star r) (c :: s) ->
  exists s1 s2, s = (s1 ++ s2)%list /\ Matches r (c :: s1) /\ Matches (Star r) s2.
Proof.
  intros H. remember (Star r) as r' eqn:Hr. remember (c :: s) as cs eqn:Hcs.
  revert c s Hcs.
  induction H; intros c0 s0 Hcs; try discriminate.
  injection Hr as ->.
  destruct s1 as [|d s1].
  - simpl in Hcs. apply IHMatches2; auto.
  - simpl in Hcs. injection Hcs as -> <-.
    exists s1, s2. auto.
Qed.

Lemma deriv_sound c r s : Matches (deriv c r) s -> Matches r (c :: s).
Proof.
  revert s. induction r as [| |p|r1 IH1 r2 IH2|r1 IH1 r2 IH2|r1 IH1];
    simpl; intros s H.
  - inversion H.
  - inversion H.
  - destruct (p c) eqn:Hp; inversion H; subst. constructor; auto.
  - assert (Hcat : forall t, Matches (Cat (deriv c r1) r2) t -> Matches (Cat r1 r2) (c :: t)).
    { intros t Ht. inversion Ht as [| |? ? t1 t2 Ht1 Ht2| | | |]; subst.
      change (c :: t1 ++ t2)%list with ((c :: t1) ++ t2)%list.
      constructor; auto. }
    destruct (nullable r1) eqn:Hn; [|auto].
    inversion H as [| | |? ? ? Hl|? ? ? Hr| |]; subst; [auto|].
    change (c :: s) with ([] ++ c :: s)%list.
    constructor; auto using nullable_Matches.
  - inversion H as [| | |? ? ? Hl|? ? ? Hr| |]; subst;
      [apply MAltL | apply MAltR]; auto.
  - inversion H as [| |? ? t1 t2 Ht1 Ht2| | | |]; subst.
    change (c :: t1 ++ t2)%list with ((c :: t1) ++ t2)%list.
    constructor; auto.
Qed.

Lemma deriv_complete c r s : Matches r (c :: s) -> Matches (deriv c r) s.
Proof.
  revert s. induction r as [| |p|r1 IH1 r2 IH2|r1 IH1 r2 IH2|r1 IH1];
    simpl; intros s H.
  - inversion H.
  - inversion H.
  - inversion H as [|? ? Hp| | | | |]; subst. rewrite Hp. constructor.
  - remember (c :: s) as cs eqn:Heq.
    inversion H as [| |? ? t1 t2 Ht1 Ht2| | | |]; subst.
    match goal with E : (t1 ++ t2)%list = _ |- _ => rename E into Heq end.
    destruct t1 as [|d t1]; simpl in Heq.
    + subst t2. rewrite (Matches_nil_inv _ Ht1). apply MAltR. auto.
    + injection Heq as -> <-.
      destruct (nullable r1); [apply MAltL|]; constructor; auto.
  - inversion H as [| | |? ? ? Hl|? ? ? Hr| |]; subst;
      [apply MAltL | apply MAltR]; auto.
  - apply Matches_star_cons in H as (s1 & s2 & -> & H1 & H2).
    constructor; auto.
Qed.

Lemma run_Matches r s : run r s = true <-> Matches r s.
Proof.
  revert r. induction s as [|c s IH]; intros r; simpl.
  - split; [apply nullable_Matches | apply Matches_nil_inv].
  - rewrite IH. split; [apply deriv_sound | apply deriv_complete].
Qed.

(** A match only contains characters of the pattern's alphabet. *)
Lemma Matches_alphabet r s :
  Matches r s -> forall c, In c s -> alphabet r c = true.
Proof.
  induction 1 as [|p d Hp|r1 r2 s1 s2 _ IH1 _ IH2|r1 r2 s _ IH|r1 r2 s _ IH
                 |r|r s1 s2 _ IH1 _ IH2]; simpl; intros c Hin.
  - destruct Hin.
  - destruct Hin as [<-|[]]. exact Hp.
  - apply orb_true_iff. apply in_app_or in Hin as [Hin|Hin]; auto.
  - apply orb_true_iff. auto.
  - apply orb_true_iff. auto.
  - destruct Hin.
  - apply in_app_or in Hin as [Hin|Hin]; [apply IH1 | apply IH2]; exact Hin.
Qed.

(** One or more characters of a class match its [Plus]. *)
Lemma Matches_plus_class p s :
  s <> [] -> forallb p s = true -> Matches (Plus (Class p)) s.
Proof.
  intros Hne Hall. destruct s as [|c s]; [congruence|]. clear Hne.
  simpl in Hall. apply andb_true_iff in Hall as [Hc Hs].
  change (c :: s) with ([c] ++ s)%list. constructor; [constructor; auto|].
  induction s as [|d s IH]; [constructor|].
  simpl in Hs. apply andb_true_iff in Hs as [Hd Hs].
  change (d :: s) with ([d] ++ s)%list. constructor; [constructor|]; auto.
Qed.

End RegexFacts.

(** ** Reasoning about tools *)

Lemma bind_Return_inv {A B} (m : Tool A) (k : A -> Tool B) w b w' :
  bind m k w = (Return b, w') ->
  exists a w1, m w = (Return a, w1) /\ k a w1 = (Return b, w').
Proof.
  unfold bind. destruct (m w) as [[a|e] w1]; intros H; [eauto | discriminate].
Qed.

Lemma bind_Return {A B} (m : Tool A) (k : A -> Tool B) w a w1 :
  m w = (Return a, w1) -> bind m k w = k a w1.
Proof. unfold bind. intros ->. reflexivity. Qed.

Lemma bind_Throw {A B} (m : Tool A) (k : A -> Tool B) w e w1 :
  m w = (Throw e, w1) -> bind m k w = (Throw e, w1).
Proof. unfold bind. intros ->. reflexivity. Qed.

(** ** Strings as character lists *)

Lemma list_ascii_app s1 s2 :
  list_ascii_of_string (s1 +:+ s2)
  = (list_ascii_of_string s1 ++ list_ascii_of_string s2)%list.
Proof. induction s1 as [|c s1 IH]; simpl; [reflexivity | now rewrite IH]. Qed.

(** ** Generated identifiers *)

Lemma word_Matches p s :
  negb (String.eqb s "") && forallb p (list_ascii_of_string s) = true ->
  Regex.Matches (Regex.Plus (Regex.Class p)) (list_ascii_of_string s).
Proof.
  intros H. apply andb_true_iff in H as [Hne Hall].
  apply RegexFacts.Matches_plus_class; [|exact Hall].
  destruct s; [discriminate | simpl; congruence].
Qed.

Lemma dash_Matches : Regex.Matches (Regex.Lit "-") (list_ascii_of_string "-").
Proof. simpl. constructor. reflexivity. Qed.

(** The normal form: adjective-noun-number. *)
Lemma isValidDocId_plain adj noun num :
  lower_word adj = true -> lower_word noun = true -> digit_word num = true ->
  isValidDocId (adj +:+ "-" +:+ noun +:+ "-" +:+ num) = true.
Proof.
  intros Ha Hn Hd. unfold isValidDocId, Regex.test.
  apply RegexFacts.run_Matches. rewrite !list_ascii_app. unfold docIdPattern.
  repeat (constructor; [first [apply word_Matches; assumption | apply dash_Matches]|]).
  rewrite <- (app_nil_r (list_ascii_of_string num)).
  constructor; [apply word_Matches; assumption|].
  apply Regex.MAltL. constructor.
Qed.

(** The collision fallback: adjective-noun-number-timestamp. *)
Lemma isValidDocId_stamped adj noun num ts :
  lower_word adj = true -> lower_word noun = true -> digit_word num = true ->
  digit_word ts = true ->
  isValidDocId ((adj +:+ "-" +:+ noun +:+ "-" +:+ num) +:+ "-" +:+ ts) = true.
Proof.
  intros Ha Hn Hd Ht. unfold isValidDocId, Regex.test.
  apply RegexFacts.run_Matches. rewrite !list_ascii_app, <- !app_assoc.
  unfold docIdPattern.
  repeat (constructor; [first [apply word_Matches; assumption | apply dash_Matches]|]).
  apply Regex.MAltR.
  constructor; [apply dash_Matches | apply word_Matches; assumption].
Qed.

Lemma string_of_uint_digits d :
  forallb Js.is_digit (list_ascii_of_string (NilEmpty.string_of_uint d)) = true.
Proof. induction d; simpl; auto. Qed.

Lemma Number_toString_digits n : digit_word (Js.Number_toString n) = true.
Proof.
  unfold digit_word, Js.Number_toString, NilZero.string_of_uint.
  destruct (N.to_uint n) eqn:E; try reflexivity;
    rewrite string_of_uint_digits; reflexivity.
Qed.

Lemma scaled_random_lt k n : (0 < n)%N -> ((k mod 2 ^ 53) * n / 2 ^ 53 < n)%N.
Proof.
  intros Hn. apply N.Div0.div_lt_upper_bound.
  apply N.mul_lt_mono_pos_r; [exact Hn|]. apply N.mod_lt. discriminate.
Qed.

Lemma at_index_lower (arr : list string) i :
  forallb lower_word arr = true -> (i < N.of_nat (length arr))%N ->
  lower_word (at_index arr i) = true.
Proof.
  intros Hall Hi. unfold at_index.
  rewrite forallb_forall in Hall. apply Hall. apply nth_In. lia.
Qed.

Lemma ADJECTIVES_lower : forallb lower_word ADJECTIVES = true.
Proof. vm_compute. reflexivity. Qed.

Lemma NOUNS_lower : forallb lower_word NOUNS = true.
Proof. vm_compute. reflexivity. Qed.

(** [generateDocId] always returns, consumes three random numbers, and its
    result has the adjective-noun-number shape. *)
Lemma generateDocId_shape rt w :
  exists adj noun num,
    generateDocId rt w
    = (Return (adj +:+ "-" +:+ noun +:+ "-" +:+ num),
       tick_random (tick_random (tick_random w)))
    /\ lower_word adj = true /\ lower_word noun = true /\ digit_word num = true.
Proof.
  unfold generateDocId, bind, Math_floor_random, ret. simpl.
  eexists _, _, _. split; [reflexivity|]. repeat split.
  - apply at_index_lower; [apply ADJECTIVES_lower|]. apply scaled_random_lt. reflexivity.
  - apply at_index_lower; [apply NOUNS_lower|]. apply scaled_random_lt. reflexivity.
  - apply Number_toString_digits.
Qed.

Lemma PlainId_valid id : PlainId id -> isValidDocId id = true.
Proof. intros (a & n & d & -> & Ha & Hn & Hd). now apply isValidDocId_plain. Qed.

Lemma generateDocId_plain rt w :
  exists id,
    generateDocId rt w = (Return id, Nat.iter 3 tick_random w) /\ PlainId id.
Proof.
  destruct (generateDocId_shape rt w) as (a & n & d & E & H).
  eexists. split; [exact E|]. exists a, n, d. auto.
Qed.

Lemma iter_tick_random_add j k w :
  Nat.iter j tick_random (Nat.iter k tick_random w) = Nat.iter (j + k) tick_random w.
Proof. induction j as [|j IH]; simpl; [reflexivity | now rewrite IH]. Qed.

Lemma docIdLoop_unfold rt registry fuel attempts :
  docIdLoop rt registry fuel attempts
  = (let* id := generateDocId rt in
     if bool_decide (is_Some (drafts registry !! id)) && (S attempts <? 100)%nat
     then match fuel with
          | O => ret (id, S attempts)
          | S fuel' => docIdLoop rt registry fuel' (S attempts)
          end
     else ret (id, S attempts)).
Proof. destruct fuel; reflexivity. Qed.

(** The fuel of the loop never runs out: with 99 or more iterations left
    in all, more fuel changes nothing. *)
Lemma docIdLoop_fuel rt registry fuel attempts w :
  99 <= fuel + attempts ->
  docIdLoop rt registry (S fuel) attempts w = docIdLoop rt registry fuel attempts w.
Proof.
  revert attempts w. induction fuel as [|fuel IH]; intros attempts w Hfuel.
  - rewrite (docIdLoop_unfold rt registry 1 attempts),
      (docIdLoop_unfold rt registry 0 attempts).
    unfold bind. destruct (generateDocId rt w) as [[id|e] w1]; [|reflexivity].
    assert (Hlt : (S attempts <? 100)%nat = false) by (apply Nat.ltb_ge; lia).
    rewrite Hlt, andb_false_r. reflexivity.
  - rewrite (docIdLoop_unfold rt registry (S (S fuel)) attempts),
      (docIdLoop_unfold rt registry (S fuel) attempts).
    unfold bind. destruct (generateDocId rt w) as [[id|e] w1]; [|reflexivity].
    destruct (_ && _); [|reflexivity]. apply IH. lia.
Qed.

(** The identifier loop always returns; it only consumes random numbers;
    the identifier it returns is freshly drawn, and is absent from the
    registry unless all hundred attempts were used. *)
Lemma docIdLoop_spec rt registry fuel attempts w :
  99 <= fuel + attempts ->
  exists id n k,
    docIdLoop rt registry fuel attempts w = (Return (id, n), Nat.iter k tick_random w)
    /\ PlainId id
    /\ attempts < n
    /\ (n < 100 -> drafts registry !! id = None).
Proof.
  revert attempts w. induction fuel as [|fuel IH]; intros attempts w Hfuel.
  - destruct (generateDocId_plain rt w) as (id & E & Hid).
    rewrite docIdLoop_unfold, (bind_Return _ _ _ _ _ E).
    assert (Hlt : (S attempts <? 100)%nat = false) by (apply Nat.ltb_ge; lia).
    rewrite Hlt.
    exists id, (S attempts), 3.
    destruct (bool_decide _); simpl; (split; [reflexivity|]);
      (split; [exact Hid|]); (split; [lia|]); lia.
  - destruct (generateDocId_plain rt w) as (id & E & Hid).
    rewrite docIdLoop_unfold, (bind_Return _ _ _ _ _ E).
    destruct (bool_decide (is_Some (drafts registry !! id))) eqn:Hin; cbn [andb].
    + destruct (S attempts <? 100)%nat eqn:Hlt.
      * destruct (IH (S attempts) (Nat.iter 3 tick_random w)) as (id' & n & k & E' & H1 & H2 & H3);
          [lia|].
        exists id', n, (k + 3). rewrite E', iter_tick_random_add.
        repeat split; auto. lia.
      * apply Nat.ltb_ge in Hlt.
        exists id, (S attempts), 3. repeat split; auto. lia.
    + exists id, (S attempts), 3. repeat split; auto.
      intros _. apply bool_decide_eq_false in Hin.
      destruct (drafts registry !! id) eqn:E'; [|reflexivity].
      exfalso. apply Hin. eauto.
Qed.

(** ** The registry on disk *)

Lemma only_ticks_refl w : only_ticks w w.
Proof. repeat split. Qed.

Lemma only_ticks_trans w1 w2 w3 :
  only_ticks w1 w2 -> only_ticks w2 w3 -> only_ticks w1 w3.
Proof.
  intros (a1 & a2 & a3 & a4 & a5) (b1 & b2 & b3 & b4 & b5).
  repeat split; congruence.
Qed.

Lemma only_ticks_random k w : only_ticks w (Nat.iter k tick_random w).
Proof.
  induction k as [|k IH]; [apply only_ticks_refl|].
  eapply only_ticks_trans; [exact IH|]. repeat split.
Qed.

Lemma only_ticks_clock w : only_ticks w (tick_clock w).
Proof. repeat split. Qed.

Lemma getRegistryPath_pure rt ctx :
  exists c,
    (forall w, getRegistryPath rt ctx w = (c, w))
    /\ (c = Throw no_project_directory
        \/ c = Return (path_join [projectBase rt ctx; ".opencode"; "docs-registry.json"])).
Proof.
  unfold getRegistryPath, throw, ret.
  destruct (_ || _); eexists; split; eauto.
Qed.

Lemma getDocsBasePath_pure rt ctx :
  exists c,
    (forall w, getDocsBasePath rt ctx w = (c, w))
    /\ (c = Throw no_project_directory
        \/ c = Return (path_join [projectBase rt ctx; ".opencode"; "docs"])).
Proof.
  unfold getDocsBasePath, throw, ret.
  destruct (_ || _); eexists; split; eauto.
Qed.

Lemma readRegistry_view rt ctx w :
  readRegistry rt ctx w = (registryView rt ctx (files w) (dirs w), w).
Proof.
  unfold readRegistry, registryView, getRegistryPath.
  destruct (_ || _); [reflexivity|].
  unfold bind, existsSync, try_catch, parseRegistryFile, bind, readFileSync, ret, throw.
  cbv beta zeta iota.
  destruct (negb _) eqn:Hn.
  - apply negb_true_iff, orb_false_iff in Hn as [Hn _].
    apply bool_decide_eq_false in Hn.
    destruct (files w !! _); [exfalso; apply Hn; eauto | reflexivity].
  - destruct (files w !! _) as [text|]; [|reflexivity].
    destruct (JSON_parse rt text); reflexivity.
Qed.

(** [generateUniqueDocId] returns whenever the registry can be read; the
    identifier is valid; it is absent from the registry unless it is the
    timestamped fallback. *)
Lemma generateUniqueDocId_spec rt ctx w registry :
  readRegistry rt ctx w = (Return registry, w) ->
  exists id w',
    generateUniqueDocId rt ctx w = (Return id, w')
    /\ only_ticks w w'
    /\ clock_calls w <= clock_calls w' <= S (clock_calls w)
    /\ isValidDocId id = true
    /\ (drafts registry !! id = None
        \/ exists plain, PlainId plain
             /\ id = plain +:+ "-" +:+ Js.Number_toString (Date_now rt (clock_calls w))).
Proof.
  intros Hreg. unfold generateUniqueDocId.
  rewrite (bind_Return _ _ _ _ _ Hreg).
  destruct (docIdLoop_spec rt registry 100 0 w) as (id & n & k & E & Hid & Hn & Hfree); [lia|].
  rewrite (bind_Return _ _ _ _ _ E).
  assert (Hc : forall j v, clock_calls (Nat.iter j tick_random v) = clock_calls v).
  { induction j as [|j IH]; intros v; [reflexivity|]. simpl. apply IH. }
  destruct (100 <=? n)%nat eqn:Hfull.
  - destruct (generateDocId_plain rt (Nat.iter k tick_random w)) as (id' & E' & Hid').
    rewrite (bind_Return _ _ _ _ _ E'). unfold bind, Date_now_, ret.
    eexists _, _. split; [reflexivity|]. split; [|split; [|split]].
    + eapply only_ticks_trans; [|apply only_ticks_clock].
      rewrite iter_tick_random_add. apply only_ticks_random.
    + rewrite iter_tick_random_add. cbn [clock_calls tick_clock]. rewrite Hc. lia.
    + destruct Hid' as (a & b & d & -> & Ha & Hb & Hd).
      apply isValidDocId_stamped; auto using Number_toString_digits.
    + right. exists id'. split; [exact Hid'|].
      rewrite iter_tick_random_add. now rewrite Hc.
  - apply Nat.leb_gt in Hfull.
    exists id, (Nat.iter k tick_random w). split; [reflexivity|].
    split; [apply only_ticks_random|]. split; [rewrite Hc; lia|].
    split; [apply PlainId_valid; exact Hid|].
    left. auto.
Qed.

Lemma docIdPattern_alphabet c :
  Regex.alphabet docIdPattern c = true -> id_char c = true.
Proof.
  unfold docIdPattern, id_char, Regex.Plus, Regex.Opt, Regex.Lit.
  cbn [Regex.alphabet]. rewrite (Ascii.eqb_sym c "-").
  destruct (Js.is_lower c), (Js.is_digit c), (Ascii.eqb "-" c); cbn; auto.
Qed.

Lemma isValidDocId_chars s c :
  isValidDocId s = true -> In c (list_ascii_of_string s) -> id_char c = true.
Proof.
  intros Hv Hin. apply docIdPattern_alphabet.
  eapply RegexFacts.Matches_alphabet; [|exact Hin].
  apply RegexFacts.run_Matches. exact Hv.
Qed.

Lemma id_char_safe c :
  id_char c = true -> c <> "/"%char /\ c <> "."%char.
Proof. intros H. split; intros ->; discriminate H. Qed.

(** C9. Every identifier [generateUniqueDocId] returns, the normal
    adjective-noun-number form as well as the timestamp-suffixed collision
    fallback, matches the pattern of [isValidDocId]; so the format check of
    docs_compile and docs_delete_draft, which is that test, does not reject
    a freshly generated identifier.  Every identifier the test accepts
    consists of lower-case letters, digits and dashes only: it contains no
    path separator and no dot, hence no [..] segment. *)
Theorem generated_doc_id_is_valid rt ctx w id w' :
  generateUniqueDocId rt ctx w = (Return id, w') ->
  isValidDocId id = true
  /\ (forall s c,
        isValidDocId s = true -> In c (list_ascii_of_string s) ->
        id_char c = true /\ c <> "/"%char /\ c <> "."%char).
Proof.
  intros Hgen. split.
  - pose proof (readRegistry_view rt ctx w) as Hread.
    destruct (registryView rt ctx (files w) (dirs w)) as [registry|e].
    + destruct (generateUniqueDocId_spec rt ctx w registry Hread)
        as (id' & w2 & E & _ & _ & Hvalid & _).
      rewrite E in Hgen. injection Hgen as <- _. exact Hvalid.
    + unfold generateUniqueDocId in Hgen.
      rewrite (bind_Throw _ _ _ _ _ Hread) in Hgen. discriminate.
  - intros s c Hs Hin.
    pose proof (isValidDocId_chars s c Hs Hin) as Hc.
    split; [exact Hc | apply id_char_safe; exact Hc].
Qed.

Lemma generated_doc_id_is_valid_witness :
  generateUniqueDocId Example.rt Example.ctx Example.busy
  = (Return Example.stamped_id,
     tick_clock (Nat.iter 303 tick_random Example.busy))
  /\ isValidDocId Example.stamped_id = true.
Proof.
  assert (H : generateUniqueDocId Example.rt Example.ctx Example.busy
              = (Return Example.stamped_id,
                 tick_clock (Nat.iter 303 tick_random Example.busy)))
    by (vm_compute; reflexivity).
  split; [exact H|].
  exact (proj1 (generated_doc_id_is_valid _ _ _ _ _ H)).
Defined.

(** ** Invalid identifiers *)

(** C2, as stated, fails: for an identifier that does not match the format
    docs_compile and docs_delete_draft complete normally. *)
Lemma invalid_doc_id_not_thrown :
  isValidDocId "../etc" = false
  /\ ~ throws (docs_compile Example.rt Example.ctx (Example.compileArgs "../etc") Example.busy)
  /\ ~ throws (docs_delete_draft Example.rt Example.ctx "../etc" Example.busy).
Proof.
  split; [reflexivity|]. split; intros [msg H]; vm_compute in H; discriminate H.
Qed.

(** C2, amended. For every docs_compile or docs_delete_draft invocation
    whose doc_id does not match the identifier format, the tool completes
    normally and its result is the human-readable text "Invalid document ID
    format: " followed by the identifier; no exception is thrown and the
    world is left as it was. *)
Theorem invalid_doc_id_is_returned rt ctx args w :
  isValidDocId (doc_id args) = false ->
  docs_compile rt ctx args w
  = (Return ("Invalid document ID format: " +:+ doc_id args), w)
  /\ docs_delete_draft rt ctx (doc_id args) w
     = (Return ("Invalid document ID format: " +:+ doc_id args), w).
Proof.
  intros H. unfold docs_compile, docs_delete_draft. rewrite H. split; reflexivity.
Qed.

Lemma invalid_doc_id_is_returned_witness :
  docs_compile Example.rt Example.ctx (Example.compileArgs "../etc") Example.busy
  = (Return "Invalid document ID format: ../etc", Example.busy)
  /\ docs_delete_draft Example.rt Example.ctx "../etc" Example.busy
     = (Return "Invalid document ID format: ../etc", Example.busy).
Proof.
  apply (invalid_doc_id_is_returned Example.rt Example.ctx
           (Example.compileArgs "../etc") Example.busy).
  reflexivity.
Defined.

(** ** Paths of the project *)

Lemma append_String x (a b : string) : String x a +:+ b = String x (a +:+ b).
Proof. reflexivity. Qed.

Lemma append_assoc (a b c : string) : (a +:+ b) +:+ c = a +:+ (b +:+ c).
Proof.
  induction a as [|x a IH]; [reflexivity|].
  rewrite !append_String. f_equal. exact IH.
Qed.

Lemma append_inv_head (s a b : string) : s +:+ a = s +:+ b -> a = b.
Proof.
  induction s as [|x s IH]; [intros H; exact H|].
  rewrite !append_String. intros H. injection H. exact IH.
Qed.

Lemma getRegistryPath_ok rt ctx w :
  project_ok rt ctx -> getRegistryPath rt ctx w = (Return (registryPathOf rt ctx), w).
Proof. unfold project_ok, getRegistryPath. intros ->. reflexivity. Qed.

Lemma getDocsBasePath_ok rt ctx w :
  project_ok rt ctx -> getDocsBasePath rt ctx w = (Return (docsBaseOf rt ctx), w).
Proof. unfold project_ok, getDocsBasePath. intros ->. reflexivity. Qed.

(** Nothing in a draft's directory is the registry file. *)
Lemma draft_file_ne_registry rt ctx id file :
  path_join [draftDirOf rt ctx id; file] <> registryPathOf rt ctx.
Proof.
  unfold draftDirOf, docsBaseOf, registryPathOf, path_join. simpl.
  rewrite !append_assoc. intros H. apply append_inv_head in H.
  vm_compute in H. discriminate H.
Qed.

(** ** Reading and writing the registry *)

Lemma readRegistry_ok rt ctx w :
  project_ok rt ctx ->
  readRegistry rt ctx w = (Return (registryOf rt ctx (files w)), w).
Proof.
  intros Hok. rewrite readRegistry_view. unfold registryView, registryOf, registryPathOf.
  unfold project_ok in Hok. rewrite Hok.
  destruct (files w !! _) as [text|]; [|reflexivity].
  destruct (JSON_parse rt text); reflexivity.
Qed.

Lemma registryOf_insert rt ctx fs registry :
  registryOf rt ctx (<[registryPathOf rt ctx := RegistryJson registry]> fs) = registry.
Proof. unfold registryOf. now rewrite lookup_insert_eq. Qed.

Lemma registryOf_insert_ne rt ctx fs p c :
  p <> registryPathOf rt ctx -> registryOf rt ctx (<[p := c]> fs) = registryOf rt ctx fs.
Proof. intros H. unfold registryOf. now rewrite lookup_insert_ne. Qed.

Lemma registryOf_delete_ne rt ctx fs p :
  p <> registryPathOf rt ctx -> registryOf rt ctx (delete p fs) = registryOf rt ctx fs.
Proof. intros H. unfold registryOf. now rewrite lookup_delete_ne. Qed.

Lemma quiet_step_trans w1 w2 w3 :
  quiet_step w1 w2 -> quiet_step w2 w3 -> quiet_step w1 w3.
Proof. intros (a & b & c) (d & e & f). repeat split; congruence. Qed.

(** [writeRegistry] replaces the registry file and nothing else among the
    files; it may create the directory of the registry. *)
Lemma writeRegistry_ok rt ctx registry w :
  project_ok rt ctx ->
  exists w',
    writeRegistry rt ctx registry w = (Return tt, w')
    /\ files w' = <[registryPathOf rt ctx := RegistryJson registry]> (files w)
    /\ quiet_step w w'
    /\ clock_calls w' = clock_calls w.
Proof.
  intros Hok. unfold writeRegistry.
  rewrite (bind_Return _ _ _ _ _ (getRegistryPath_ok rt ctx w Hok)).
  unfold bind, existsSync, when, mkdirSync, writeFileSync, modify, ret.
  destruct (negb _); eexists; (split; [reflexivity|]); repeat split.
Qed.

(** ** The steps of docs_compile *)

Lemma loadPreset_frame rt ctx nm lg w c w' :
  loadPreset rt ctx nm lg w = (c, w') ->
  files w' = files w /\ dirs w' = dirs w /\ log w' = log w
  /\ preset_defs w' = preset_defs w /\ clock_calls w' = clock_calls w.
Proof.
  unfold loadPreset, bind, get, ret, throw, modify.
  destruct (cache w !! (nm, lg)); [intros [= <- <-]; repeat split|].
  destruct (loadConfig _ w nm) as [[sc cfg]|e]; intros [= <- <-]; repeat split.
Qed.

(** The outcomes of the authors table: nothing to do, an invalid JSON
    text, or a metadata file written into the draft's directory. *)
Lemma authorsTable_cases rt args dir b w c w' :
  authorsTable rt args dir b w = (c, w') ->
  (c = Return (b, None) /\ w' = w)
  \/ (exists e, c = Throw ("Invalid authors JSON: " +:+ e) /\ w' = w)
  \/ (exists file text,
        c = Return (call (BMetadataFile (path_join [dir; file])) b,
                    Some (path_join [dir; file]))
        /\ w' = set_files <[path_join [dir; file] := Text text]> (tick_clock w)).
Proof.
  unfold authorsTable. destruct (Js.truthy (authors args)).
  - unfold try_catch, parseAuthors, bind, Date_now_, writeFileSync, modify, ret, throw.
    destruct (JSON_parse_authors rt _) as [e|l]; intros [= <- <-].
    + right. left. eauto.
    + right. right. eauto.
  - intros [= <- <-]. left. auto.
Qed.

(** [builder.execute] runs one process and always returns a result. *)
Lemma execute_spec rt b cwd w :
  let r := run_process rt (length (log w)) (Pandoc b cwd) in
  execute rt b cwd w
  = (Return (if (exitCode r =? 0)%Z
             then {| success := true; output := Some (stdout r); error := None |}
             else {| success := false; output := None;
                     error := Some (failureReason rt r) |}),
     record (EvSpawn (Pandoc b cwd)) w).
Proof.
  intros r. unfold execute, bind, spawn, ret. fold r.
  destruct (exitCode r =? 0)%Z; reflexivity.
Qed.

Lemma cleanupMetaFile_cases rt metaFile w :
  exists w',
    cleanupMetaFile rt metaFile w = (Return tt, w')
    /\ (w' = w
        \/ exists f, metaFile = Some f
             /\ w' = set_files (delete f) (record (EvSpawn (Argv ["rm"; "-f"; f])) w)).
Proof.
  unfold cleanupMetaFile. destruct metaFile as [f|]; [|eexists; split; [reflexivity | auto]].
  unfold bind, existsSync, when, try_catch, spawn, ret.
  destruct (_ || _); eexists; (split; [reflexivity|]); [right; eauto | left; auto].
Qed.

(** From the written registry on, docs_compile leaves the registry file as
    it is, whatever its outcome. *)
Lemma compileDraft_registry rt ctx args d draftPath w c w' :
  compileDraft rt ctx args d (draftDirOf rt ctx (doc_id args)) draftPath w = (c, w') ->
  registryOf rt ctx (files w') = registryOf rt ctx (files w).
Proof.
  unfold compileDraft.
  destruct (loadPreset rt ctx (preset d) (logo args) w) as [[p|e] w1] eqn:Hload;
    destruct (loadPreset_frame _ _ _ _ _ _ _ Hload) as (Hf1 & _);
    [rewrite (bind_Return _ _ _ _ _ Hload) | rewrite (bind_Throw _ _ _ _ _ Hload)];
    [|intros [= <- <-]; now rewrite Hf1].
  destruct (template_missing p); [intros [= <- <-]; now rewrite Hf1|].
  set (b := compileBuilder _ _ _ _).
  destruct (authorsTable rt args (draftDirOf rt ctx (doc_id args)) b w1)
    as [c2 w2] eqn:Htbl.
  assert (Hreg2 : registryOf rt ctx (files w2) = registryOf rt ctx (files w)).
  { destruct (authorsTable_cases _ _ _ _ _ _ _ Htbl)
      as [[_ ->]|[(e & _ & ->)|(file & text & _ & ->)]]; try now rewrite Hf1.
    simpl. rewrite registryOf_insert_ne by apply draft_file_ne_registry.
    now rewrite Hf1. }
  unfold bind at 1. rewrite Htbl.
  destruct (authorsTable_cases _ _ _ _ _ _ _ Htbl)
    as [[-> _]|[(e & -> & _)|(file & text & -> & _)]];
    [ | intros [= <- <-]; exact Hreg2 | ].
  - rewrite (bind_Return _ _ _ _ _ (execute_spec rt b None w2)).
    destruct (cleanupMetaFile_cases rt None (record (EvSpawn (Pandoc b None)) w2))
      as (w3 & E3 & [->|(f & [=] & _)]).
    rewrite (bind_Return _ _ _ _ _ E3).
    destruct (negb _); intros [= <- <-]; exact Hreg2.
  - set (mf := path_join [draftDirOf rt ctx (doc_id args); file]).
    set (b' := call (BMetadataFile mf) b).
    rewrite (bind_Return _ _ _ _ _ (execute_spec rt b' None w2)).
    destruct (cleanupMetaFile_cases rt (Some mf) (record (EvSpawn (Pandoc b' None)) w2))
      as (w3 & E3 & [->|(f & [= <-] & ->)]);
      rewrite (bind_Return _ _ _ _ _ E3);
      destruct (negb _); intros [= <- <-]; try exact Hreg2.
    all: simpl; rewrite registryOf_delete_ne by apply draft_file_ne_registry;
      exact Hreg2.
Qed.

(** docs_compile up to the written registry: for a valid identifier of a
    registered draft whose file exists, the entry is marked compiled at the
    current time, the registry is written, and only then does the
    compilation proper start. *)
Lemma docs_compile_writes_first rt ctx args w d :
  project_ok rt ctx ->
  isValidDocId (doc_id args) = true ->
  drafts (registryOf rt ctx (files w)) !! doc_id args = Some d ->
  fileExists w (path_join [draftDirOf rt ctx (doc_id args); "draft.md"]) = true ->
  let now := toISOString rt (Date_now rt (clock_calls w)) in
  let d' := markCompiled now d in
  exists w1,
    docs_compile rt ctx args w
    = compileDraft rt ctx args d' (draftDirOf rt ctx (doc_id args))
        (path_join [draftDirOf rt ctx (doc_id args); "draft.md"]) w1
    /\ files w1
       = <[registryPathOf rt ctx :=
             RegistryJson
               {| drafts := <[doc_id args := d']> (drafts (registryOf rt ctx (files w))) |}]>
           (files w)
    /\ quiet_step w w1.
Proof.
  intros Hok Hvalid Hd Hex now d'. unfold docs_compile.
  rewrite Hvalid. cbn [negb].
  rewrite (bind_Return _ _ _ _ _ (readRegistry_ok rt ctx w Hok)), Hd.
  rewrite (bind_Return _ _ _ _ _ (getDocsBasePath_ok rt ctx w Hok)).
  fold (draftDirOf rt ctx (doc_id args)).
  unfold bind at 1. unfold existsSync at 1. unfold fileExists in Hex. rewrite Hex.
  cbn [negb].
  unfold bind at 1. unfold new_Date_toISOString, bind, Date_now_, ret. cbn beta iota.
  fold now. fold d'.
  set (r' := {| drafts := <[doc_id args := d']> _ |}).
  destruct (writeRegistry_ok rt ctx r' (tick_clock w) Hok) as (w1 & E & Hf & Hq & _).
  rewrite E. exists w1. split; [reflexivity|]. split; [exact Hf|].
  eapply quiet_step_trans; [|exact Hq]. repeat split.
Qed.

(** The registry mutation of docs_compile is on disk before the
    compilation proper and survives it, whatever the outcome. *)
Lemma docs_compile_keeps_mutation rt ctx args w d c w' :
  project_ok rt ctx ->
  isValidDocId (doc_id args) = true ->
  drafts (registryOf rt ctx (files w)) !! doc_id args = Some d ->
  fileExists w (path_join [draftDirOf rt ctx (doc_id args); "draft.md"]) = true ->
  docs_compile rt ctx args w = (c, w') ->
  let d' := markCompiled (toISOString rt (Date_now rt (clock_calls w))) d in
  let written :=
    {| drafts := <[doc_id args := d']> (drafts (registryOf rt ctx (files w))) |} in
  (exists w1,
      registryOf rt ctx (files w1) = written
      /\ cache w1 = cache w /\ log w1 = log w
      /\ compileDraft rt ctx args d' (draftDirOf rt ctx (doc_id args))
           (path_join [draftDirOf rt ctx (doc_id args); "draft.md"]) w1 = (c, w'))
  /\ registryOf rt ctx (files w') = written.
Proof.
  intros Hok Hvalid Hd Hex Hrun d' written.
  destruct (docs_compile_writes_first rt ctx args w d Hok Hvalid Hd Hex)
    as (w1 & E & Hf & (_ & Hc & Hl)).
  rewrite E in Hrun.
  assert (Hw1 : registryOf rt ctx (files w1) = written)
    by (rewrite Hf; apply registryOf_insert).
  split; [exists w1; auto|].
  rewrite (compileDraft_registry _ _ _ _ _ _ _ _ Hrun). exact Hw1.
Qed.

(** C8. docs_compile sets the entry's status to compiled and its
    last_modified to the current time and writes the registry before it
    loads the preset and executes the conversion (the cache and the log of
    outside events are still untouched at that point); whatever happens
    afterwards, in particular when the preset load, the template check or
    the conversion fails with a thrown exception, the registry on disk
    keeps the mutation. *)
Theorem docs_compile_not_atomic rt ctx args w d c w' :
  project_ok rt ctx ->
  isValidDocId (doc_id args) = true ->
  drafts (registryOf rt ctx (files w)) !! doc_id args = Some d ->
  fileExists w (path_join [draftDirOf rt ctx (doc_id args); "draft.md"]) = true ->
  docs_compile rt ctx args w = (c, w') ->
  let d' := markCompiled (toISOString rt (Date_now rt (clock_calls w))) d in
  let written :=
    {| drafts := <[doc_id args := d']> (drafts (registryOf rt ctx (files w))) |} in
  (exists w1,
      registryOf rt ctx (files w1) = written
      /\ cache w1 = cache w /\ log w1 = log w
      /\ compileDraft rt ctx args d' (draftDirOf rt ctx (doc_id args))
           (path_join [draftDirOf rt ctx (doc_id args); "draft.md"]) w1 = (c, w'))
  /\ registryOf rt ctx (files w') = written
  /\ status d' = StCompiled
  /\ last_modified d' = toISOString rt (Date_now rt (clock_calls w)).
Proof.
  intros Hok Hvalid Hd Hex Hrun d' written.
  destruct (docs_compile_keeps_mutation rt ctx args w d c w' Hok Hvalid Hd Hex Hrun)
    as [H1 H2].
  split; [exact H1|]. split; [exact H2|]. split; reflexivity.
Qed.

Lemma docs_compile_not_atomic_witness :
  (docs_compile Example.rt Example.ctx (Example.compileArgs Example.first_id)
     Example.busy).1
  = Throw "Template 'eisvogel.latex' not found. Use docs_templates_install."
  /\ (status <$>
        drafts (registryOf Example.rt Example.ctx
                  (files (docs_compile Example.rt Example.ctx
                            (Example.compileArgs Example.first_id) Example.busy).2))
        !! Example.first_id)
     = Some StCompiled.
Proof.
  set (args := Example.compileArgs Example.first_id).
  set (r := docs_compile Example.rt Example.ctx args Example.busy).
  split; [vm_compute; reflexivity|].
  assert (Hok : project_ok Example.rt Example.ctx) by reflexivity.
  assert (Hvalid : isValidDocId (doc_id args) = true) by reflexivity.
  assert (Hd : drafts (registryOf Example.rt Example.ctx (files Example.busy)) !! doc_id args
               = Some (Example.draft "First")) by (vm_compute; reflexivity).
  assert (Hex : fileExists Example.busy
                  (path_join [draftDirOf Example.rt Example.ctx (doc_id args); "draft.md"])
                = true) by (vm_compute; reflexivity).
  destruct (docs_compile_not_atomic Example.rt Example.ctx args Example.busy
              (Example.draft "First") r.1 r.2 Hok Hvalid Hd Hex)
    as (_ & Hreg & _); [symmetry; apply surjective_pairing|].
  rewrite Hreg. cbn [drafts]. rewrite lookup_insert_eq. reflexivity.
Defined.

(** ** Missing templates *)

Lemma template_missing_true p path :
  template_path (config p) = Some path -> path <> "" ->
  resolved_template_path p = None ->
  template_missing p = true
  /\ template_not_found p
     = "Template '" +:+ path +:+ "' not found. Use docs_templates_install.".
Proof.
  intros Hp Hne Hr. unfold template_missing, template_not_found. rewrite Hp, Hr.
  split; [|reflexivity]. simpl.
  apply String.eqb_neq in Hne. rewrite Hne. reflexivity.
Qed.

(** docs_compile on a registered draft whose file exists continues, from
    the world in which the registry has been written, with the loading of
    the preset. *)
Lemma docs_compile_at_marked rt ctx args w d :
  project_ok rt ctx ->
  isValidDocId (doc_id args) = true ->
  drafts (registryOf rt ctx (files w)) !! doc_id args = Some d ->
  fileExists w (path_join [draftDirOf rt ctx (doc_id args); "draft.md"]) = true ->
  docs_compile rt ctx args w
  = compileDraft rt ctx args
      (markCompiled (toISOString rt (Date_now rt (clock_calls w))) d)
      (draftDirOf rt ctx (doc_id args))
      (path_join [draftDirOf rt ctx (doc_id args); "draft.md"])
      (registryMarked rt ctx args d w)
  /\ log (registryMarked rt ctx args d w) = log w
  /\ cache (registryMarked rt ctx args d w) = cache w
  /\ preset_defs (registryMarked rt ctx args d w) = preset_defs w
  /\ clock_calls (registryMarked rt ctx args d w) = S (clock_calls w)
  /\ files (registryMarked rt ctx args d w)
     = <[registryPathOf rt ctx :=
           RegistryJson
             {| drafts :=
                  <[doc_id args :=
                      markCompiled (toISOString rt (Date_now rt (clock_calls w))) d]>
                    (drafts (registryOf rt ctx (files w))) |}]>
         (files w).
Proof.
  intros Hok Hvalid Hd Hex. unfold docs_compile, registryMarked.
  rewrite Hvalid. cbn [negb].
  rewrite (bind_Return _ _ _ _ _ (readRegistry_ok rt ctx w Hok)), Hd.
  rewrite (bind_Return _ _ _ _ _ (getDocsBasePath_ok rt ctx w Hok)).
  fold (draftDirOf rt ctx (doc_id args)).
  unfold bind at 1. unfold existsSync at 1. unfold fileExists in Hex. rewrite Hex.
  cbn [negb].
  unfold bind at 1. unfold new_Date_toISOString, bind, Date_now_, ret. cbn beta iota.
  set (r' := {| drafts := <[doc_id args := _]> _ |}).
  destruct (writeRegistry_ok rt ctx r' (tick_clock w) Hok)
    as (w1 & E & Hf & (Hp & Hc & Hl) & Hk).
  rewrite E. cbn [snd]. repeat split; assumption.
Qed.

(** C7. When the preset that docs_create or docs_compile loads declares a
    template path and has no resolved template path, the tool throws an
    exception whose text names the template path, and no process has been
    started by then: the log of outside events is the one the invocation
    began with.  docs_create loads the preset in the world it is invoked
    in; docs_compile, for a registered draft whose file exists, loads it in
    the world in which the registry has just been written. *)
Theorem missing_template_is_thrown rt ctx computeOutputPath p path :
  template_path (config p) = Some path -> path <> "" ->
  resolved_template_path p = None ->
  let message := "Template '" +:+ path +:+ "' not found. Use docs_templates_install." in
  (forall args w w1,
      loadPreset rt ctx (ca_preset args) (ca_logo args) w = (Return p, w1) ->
      docs_create rt ctx computeOutputPath args w = (Throw message, w1)
      /\ log w1 = log w)
  /\ (forall args w d w2,
        project_ok rt ctx ->
        isValidDocId (doc_id args) = true ->
        drafts (registryOf rt ctx (files w)) !! doc_id args = Some d ->
        fileExists w (path_join [draftDirOf rt ctx (doc_id args); "draft.md"]) = true ->
        loadPreset rt ctx (preset d) (logo args) (registryMarked rt ctx args d w)
        = (Return p, w2) ->
        docs_compile rt ctx args w = (Throw message, w2)
        /\ log w2 = log w).
Proof.
  intros Hp Hne Hr message.
  destruct (template_missing_true p path Hp Hne Hr) as [Hmiss Hmsg].
  fold message in Hmsg. split.
  - intros args w w1 Hload. unfold docs_create.
    rewrite (bind_Return _ _ _ _ _ Hload), Hmiss, Hmsg.
    split; [reflexivity|].
    now destruct (loadPreset_frame _ _ _ _ _ _ _ Hload) as (_ & _ & Hl & _).
  - intros args w d w2 Hok Hvalid Hd Hex Hload.
    destruct (docs_compile_at_marked rt ctx args w d Hok Hvalid Hd Hex)
      as (E & Hl1 & _).
    rewrite E. unfold compileDraft.
    change (preset (markCompiled _ d)) with (preset d).
    rewrite (bind_Return _ _ _ _ _ Hload), Hmiss, Hmsg.
    split; [reflexivity|].
    destruct (loadPreset_frame _ _ _ _ _ _ _ Hload) as (_ & _ & Hl & _).
    congruence.
Qed.

Lemma missing_template_is_thrown_witness :
  (docs_create Example.rt Example.ctx Example.computeOutputPath Example.createArgs
     Example.busy
   = (Throw "Template 'eisvogel.latex' not found. Use docs_templates_install.",
      (loadPreset Example.rt Example.ctx "report" None Example.busy).2)
   /\ log (loadPreset Example.rt Example.ctx "report" None Example.busy).2 = [])
  /\ (docs_compile Example.rt Example.ctx (Example.compileArgs Example.first_id)
        Example.busy).1
     = Throw "Template 'eisvogel.latex' not found. Use docs_templates_install.".
Proof.
  pose proof (missing_template_is_thrown Example.rt Example.ctx
                Example.computeOutputPath
                (resolvePreset Example.rt Example.ctx Example.busy ScProject
                   (mergePresets Example.base_preset Example.report_preset) None)
                "eisvogel.latex" eq_refl) as H.
  destruct H as (Hcreate & Hcompile); [discriminate|vm_compute; reflexivity|].
  split.
  - apply (Hcreate Example.createArgs Example.busy). vm_compute. reflexivity.
  - destruct (Hcompile (Example.compileArgs Example.first_id) Example.busy
                (Example.draft "First")
                (loadPreset Example.rt Example.ctx "report" None
                   (registryMarked Example.rt Example.ctx
                      (Example.compileArgs Example.first_id) (Example.draft "First")
                      Example.busy)).2) as (Hrun & _).
    + reflexivity.
    + vm_compute. reflexivity.
    + vm_compute. reflexivity.
    + vm_compute. reflexivity.
    + vm_compute. reflexivity.
    + rewrite Hrun. reflexivity.
Defined.

(** ** Execution of the conversion *)

(** The ways compileDraft ends: before any process is started, or after
    the conversion was executed on a log that was still the initial one,
    with the completion the execution result dictates. *)
Lemma compileDraft_outcomes rt ctx args d dir draftPath w c w' :
  compileDraft rt ctx args d dir draftPath w = (c, w') ->
  (log w' = log w /\ exists e, c = Throw e)
  \/ exists b cleanup,
       (cleanup = [] \/ exists f, cleanup = [EvSpawn (Argv ["rm"; "-f"; f])])
       /\ log w' = (cleanup ++ EvSpawn (Pandoc b None) :: log w)%list
       /\ let r := run_process rt (length (log w)) (Pandoc b None) in
          c = if (exitCode r =? 0)%Z
              then Return ("Compiled: "
                           +:+ Js.or_else (output_path args)
                                 (path_join [dir; doc_id args +:+ ".pdf"])
                           +:+ Js.nl +:+ "Document: " +:+ title d +:+ Js.nl
                           +:+ "Preset: " +:+ preset d)
              else Throw ("Compilation failed:" +:+ Js.nl +:+ failureReason rt r).
Proof.
  unfold compileDraft.
  destruct (loadPreset rt ctx (preset d) (logo args) w) as [[p|e] w1] eqn:Hload;
    destruct (loadPreset_frame _ _ _ _ _ _ _ Hload) as (_ & _ & Hl1 & _);
    [rewrite (bind_Return _ _ _ _ _ Hload) | rewrite (bind_Throw _ _ _ _ _ Hload)];
    [|intros [= <- <-]; left; eauto].
  destruct (template_missing p); [intros [= <- <-]; left; eauto|].
  set (b := compileBuilder _ _ _ _).
  destruct (authorsTable rt args dir b w1) as [c2 w2] eqn:Htbl.
  unfold bind at 1. rewrite Htbl.
  destruct (authorsTable_cases _ _ _ _ _ _ _ Htbl)
    as [[-> ->]|[(e & -> & ->)|(file & text & -> & ->)]];
    [ | intros [= <- <-]; left; eauto | ].
  - rewrite (bind_Return _ _ _ _ _ (execute_spec rt b None w1)).
    destruct (cleanupMetaFile_cases rt None (record (EvSpawn (Pandoc b None)) w1))
      as (w3 & E3 & [->|(f & [=] & _)]).
    rewrite (bind_Return _ _ _ _ _ E3). intros H. right. exists b, [].
    split; [auto|]. rewrite <- Hl1.
    destruct (exitCode _ =? 0)%Z; injection H as <- <-; split; reflexivity.
  - set (mf := path_join [dir; file]). set (b' := call (BMetadataFile mf) b).
    set (w2 := set_files _ _).
    assert (Hl2 : log w2 = log w) by (rewrite <- Hl1; reflexivity).
    rewrite (bind_Return _ _ _ _ _ (execute_spec rt b' None w2)).
    destruct (cleanupMetaFile_cases rt (Some mf) (record (EvSpawn (Pandoc b' None)) w2))
      as (w3 & E3 & [->|(f & [= <-] & ->)]);
      rewrite (bind_Return _ _ _ _ _ E3); intros H; right.
    + exists b', []. split; [auto|]. rewrite <- Hl2.
      destruct (exitCode _ =? 0)%Z; injection H as <- <-; split; reflexivity.
    + exists b', [EvSpawn (Argv ["rm"; "-f"; mf])]. split; [eauto|]. rewrite <- Hl2.
      destruct (exitCode _ =? 0)%Z; injection H as <- <-; split; reflexivity.
Qed.

(** docs_compile either ends without touching the log, or continues as
    compileDraft from a world with the same log. *)
Lemma docs_compile_cases rt ctx args w c w' :
  docs_compile rt ctx args w = (c, w') ->
  log w' = log w
  \/ exists d draftPath w1,
       log w1 = log w
       /\ compileDraft rt ctx args d (draftDirOf rt ctx (doc_id args)) draftPath w1 = (c, w').
Proof.
  unfold docs_compile.
  destruct (negb _); [intros [= <- <-]; auto|].
  pose proof (readRegistry_view rt ctx w) as Hv.
  destruct (registryView rt ctx (files w) (dirs w)) as [registry|e];
    [rewrite (bind_Return _ _ _ _ _ Hv)
    |rewrite (bind_Throw _ _ _ _ _ Hv); intros [= <- <-]; auto].
  destruct (drafts registry !! doc_id args) as [d|]; [|intros [= <- <-]; auto].
  destruct (getDocsBasePath_pure rt ctx) as (cb & Eb & [->| ->]);
    [rewrite (bind_Throw _ _ _ _ _ (Eb w)); intros [= <- <-]; auto|].
  rewrite (bind_Return _ _ _ _ _ (Eb w)).
  fold (docsBaseOf rt ctx). fold (draftDirOf rt ctx (doc_id args)).
  unfold bind at 1. unfold existsSync at 1.
  destruct (negb _); [intros [= <- <-]; auto|].
  unfold bind at 1. unfold new_Date_toISOString, bind, Date_now_, ret. cbn beta iota.
  set (d' := markCompiled _ d). set (r' := {| drafts := _ |}).
  unfold writeRegistry.
  destruct (getRegistryPath_pure rt ctx) as (cr & Er & [->| ->]).
  - rewrite (bind_Throw _ _ _ _ _ (Er _)). intros [= <- <-]. auto.
  - rewrite (bind_Return _ _ _ _ _ (Er _)).
    unfold bind, existsSync, when, mkdirSync, writeFileSync, modify, ret.
    destruct (negb _); intros H; right; eexists d', _, _; (split; [|exact H]); reflexivity.
Qed.

Lemma log_extension_absurd (l : list Event) e (l0 : list Event) :
  l0 <> (l ++ e :: l0)%list.
Proof.
  intros H. apply (f_equal (@length Event)) in H.
  rewrite length_app in H. simpl in H. lia.
Qed.

(** C6, as stated, fails for docs_compile_latex, one of the two tools it
    names.  The LaTeX compiler exits non-zero with an empty standard error
    and two lines of standard output; the failure reason, with the fallback
    to the last line of standard output, is that line, but the tool throws
    the prefix with nothing after it. *)
Lemma latex_failure_has_no_fallback :
  let command :=
    Argv ["pdflatex"; "-output-directory"; "/proj"; "-interaction=nonstopmode";
          "/proj/a.tex"] in
  let r := run_process Example.rt_failing 0 command in
  exitCode r <> 0%Z
  /\ stderr r = ""
  /\ failureReason Example.rt_failing r = "page 2"
  /\ docs_compile_latex Example.rt_failing "/proj/a.tex" None Example.fresh
     = (Throw ("Compilation failed:" +:+ Js.nl), record (EvSpawn command) Example.fresh)
  /\ (docs_compile_latex Example.rt_failing "/proj/a.tex" None Example.fresh).1
     <> Throw ("Compilation failed:" +:+ Js.nl
               +:+ failureReason Example.rt_failing r).
Proof.
  cbv zeta. split; [vm_compute; discriminate|]. split; [reflexivity|].
  split; [vm_compute; reflexivity|]. split; [vm_compute; reflexivity|].
  vm_compute. discriminate.
Qed.

(** C6, amended. Every execution of the command a builder has accumulated runs one
    process; when the process exits non-zero the result is a failure whose
    reason is the captured standard error, or the last N lines of the
    captured standard output when standard error is empty; when it exits
    zero the result is a success carrying the captured standard output.
    The calling tool surfaces the reason in a thrown exception: whenever
    docs_compile has executed a conversion and the process exited non-zero,
    docs_compile throws "Compilation failed:", a newline and the reason,
    and when the process exited zero docs_compile returns normally.
    docs_compile_latex, which runs the LaTeX compiler itself and not a
    command of the builder, throws the same prefix followed by the captured
    standard error alone on a non-zero exit, without the fallback to
    standard output. *)
Theorem conversion_outcome_is_surfaced rt :
  (forall b cwd w,
      let r := run_process rt (length (log w)) (Pandoc b cwd) in
      let reason :=
        if String.eqb (stderr r) ""
        then Js.join Js.nl
               (Js.slice_last (error_tail_lines rt) (Js.split (ascii_of_nat 10) (stdout r)))
        else stderr r in
      (exitCode r <> 0%Z ->
       (execute rt b cwd w).1
       = Return {| success := false; output := None; error := Some reason |})
      /\ (exitCode r = 0%Z ->
          (execute rt b cwd w).1
          = Return {| success := true; output := Some (stdout r); error := None |})
      /\ log (execute rt b cwd w).2 = EvSpawn (Pandoc b cwd) :: log w)
  /\ (forall ctx args w c w' cleanup b cwd,
        docs_compile rt ctx args w = (c, w') ->
        log w' = (cleanup ++ EvSpawn (Pandoc b cwd) :: log w)%list ->
        let r := run_process rt (length (log w)) (Pandoc b cwd) in
        (exitCode r <> 0%Z ->
         c = Throw ("Compilation failed:" +:+ Js.nl +:+ failureReason rt r))
        /\ (exitCode r = 0%Z -> is_return c = true))
  /\ (forall file_path output_dir w,
        Js.endsWith file_path ".tex" = true ->
        let r :=
          run_process rt (length (log w))
            (Argv ["pdflatex"; "-output-directory";
                   Js.or_else output_dir (Js.parentDir file_path);
                   "-interaction=nonstopmode"; file_path]) in
        (exitCode r <> 0%Z ->
         (docs_compile_latex rt file_path output_dir w).1
         = Throw ("Compilation failed:" +:+ Js.nl +:+ stderr r))
        /\ (exitCode r = 0%Z ->
            (docs_compile_latex rt file_path output_dir w).1
            = Return ("Compiled " +:+ file_path +:+ " to PDF."))).
Proof.
  split; [|split].
  - intros b cwd w r reason. rewrite execute_spec. fold r. cbn [fst snd].
    split; [|split; [|reflexivity]].
    + intros Hne. apply Z.eqb_neq in Hne. rewrite Hne. reflexivity.
    + intros ->. reflexivity.
  - intros ctx args w c w' cleanup b cwd Hrun Hlog.
    destruct (docs_compile_cases _ _ _ _ _ _ Hrun) as [Hsame|(d & p & w1 & Hl1 & Hcd)].
    { exfalso. rewrite Hsame in Hlog. exact (log_extension_absurd _ _ _ Hlog). }
    destruct (compileDraft_outcomes _ _ _ _ _ _ _ _ _ Hcd)
      as [[Hsame _]|(b0 & cl0 & _ & Hlog0 & Hc)].
    { exfalso. rewrite Hsame, Hl1 in Hlog. exact (log_extension_absurd _ _ _ Hlog). }
    rewrite Hl1 in Hlog0, Hc. rewrite Hlog0 in Hlog.
    change (cl0 ++ EvSpawn (Pandoc b0 None) :: log w)%list
      with (cl0 ++ [EvSpawn (Pandoc b0 None)] ++ log w)%list in Hlog.
    change (cleanup ++ EvSpawn (Pandoc b cwd) :: log w)%list
      with (cleanup ++ [EvSpawn (Pandoc b cwd)] ++ log w)%list in Hlog.
    rewrite !app_assoc in Hlog. apply app_inv_tail in Hlog.
    apply app_inj_tail in Hlog as [_ Heq].
    assert (Hb : b0 = b) by congruence.
    assert (Hcwd : cwd = None) by congruence.
    subst b0 cwd. intros r. cbv zeta in Hc. fold r in Hc. split.
    + intros Hne. apply Z.eqb_neq in Hne. rewrite Hne in Hc. exact Hc.
    + intros Hz. rewrite Hz in Hc. rewrite Hc. reflexivity.
  - intros file_path output_dir w Htex r.
    unfold docs_compile_latex. rewrite Htex. cbn [negb].
    unfold bind, spawn, ret, throw. fold r. cbn [fst].
    split.
    + intros Hne. apply Z.eqb_neq in Hne. rewrite Hne. reflexivity.
    + intros ->. reflexivity.
Qed.

Lemma conversion_outcome_is_surfaced_witness :
  (docs_compile Example.rt_failing Example.ctx (Example.compileArgs Example.first_id)
     Example.installed).1
  = Throw ("Compilation failed:" +:+ Js.nl +:+ "page 2").
Proof.
  set (r := docs_compile Example.rt_failing Example.ctx
              (Example.compileArgs Example.first_id) Example.installed).
  destruct (proj1 (proj2 (conversion_outcome_is_surfaced Example.rt_failing))
              Example.ctx (Example.compileArgs Example.first_id) Example.installed
              r.1 r.2 [] Example.conversion None) as [H _].
  - symmetry. apply surjective_pairing.
  - vm_compute. reflexivity.
  - rewrite H; [vm_compute; reflexivity | vm_compute; discriminate].
Defined.

(** ** Installing templates *)

Ltac install_cases :=
  repeat match goal with
    | |- context [if negb ?b then _ else _] => destruct (negb b)
    end;
  intros H; first [discriminate H | injection H as <- <-; split; [reflexivity | eauto]].

Lemma installEisvogel_clears rt userDir w msg w' :
  installEisvogel rt userDir w = (Return msg, w') ->
  cache w' = ∅ /\ exists l, log w' = EvClearCache :: l.
Proof.
  unfold installEisvogel, bind, spawn, clearCache, modify, ret, throw.
  cbv beta iota zeta. install_cases.
Qed.

Lemma installEisvogel_legacy_clears rt userDir w msg w' :
  installEisvogel_legacy rt userDir w = (Return msg, w') ->
  cache w' = ∅ /\ exists l, log w' = EvClearCache :: l.
Proof.
  unfold installEisvogel_legacy, bind, spawn, clearCache, modify, ret, throw.
  cbv beta iota zeta. install_cases.
Qed.

Lemma installIeee_clears rt userDir w msg w' :
  installIeee rt userDir w = (Return msg, w') ->
  cache w' = ∅ /\ exists l, log w' = EvClearCache :: l.
Proof.
  unfold installIeee, bind, spawn, fetch, Bun_write, writeFileSync, clearCache,
    modify, ret, throw.
  cbv beta iota zeta. install_cases.
Qed.

Lemma installDirect_clears rt userDir src w msg w' :
  installDirect rt userDir src w = (Return msg, w') ->
  cache w' = ∅ /\ exists l, log w' = EvClearCache :: l.
Proof.
  unfold installDirect.
  destruct (directDownload userDir src) as [[url dest]|]; [|discriminate].
  unfold bind, spawn, fetch, Bun_write, writeFileSync, clearCache, modify, ret, throw.
  cbv beta iota zeta. install_cases.
Qed.

(** C4. Every docs_templates_install invocation that completes
    successfully, for each of the five sources and in both copies of the
    plugin, has called [presetManager.clearCache()] as its last action
    before returning: the cache of resolved presets is empty in the final
    world and the clearing is the newest event of the log. *)
Theorem install_clears_cache rt ensureUserConfigDirs src w msg w' :
  docs_templates_install rt ensureUserConfigDirs src w = (Return msg, w')
  \/ docs_templates_install_legacy rt ensureUserConfigDirs src w = (Return msg, w') ->
  cache w' = ∅ /\ exists l, log w' = EvClearCache :: l.
Proof.
  unfold docs_templates_install, docs_templates_install_legacy.
  intros [H|H]; apply bind_Return_inv in H as ([] & w1 & _ & H);
    destruct src;
    eauto using installEisvogel_clears, installEisvogel_legacy_clears,
      installIeee_clears, installDirect_clears.
Qed.

Lemma install_clears_cache_witness :
  (docs_templates_install Example.rt Example.ensureUserConfigDirs CslApa Example.busy).1
  = Return "Installed csl-apa to /home/u/.config/opencode/csl/apa.csl"
  /\ cache (docs_templates_install Example.rt Example.ensureUserConfigDirs CslApa
             Example.busy).2 = ∅.
Proof.
  split; [vm_compute; reflexivity|].
  refine (proj1 (install_clears_cache Example.rt Example.ensureUserConfigDirs CslApa
                   Example.busy
                   "Installed csl-apa to /home/u/.config/opencode/csl/apa.csl" _
                   (or_introl _))).
  vm_compute. reflexivity.
Defined.

(** ** docs_draft *)

Lemma ensureDocsDir_ok rt ctx w :
  project_ok rt ctx ->
  exists w0,
    ensureDocsDir rt ctx w = (Return tt, w0)
    /\ files w0 = files w /\ clock_calls w0 = clock_calls w /\ quiet_step w w0.
Proof.
  intros Hok. unfold ensureDocsDir.
  rewrite (bind_Return _ _ _ _ _ (getDocsBasePath_ok rt ctx w Hok)).
  unfold bind, existsSync, when, mkdirSync, modify, ret.
  destruct (negb _); eexists; (split; [reflexivity|]); repeat split.
Qed.

Lemma initialContent_cases rt args w c w' :
  initialContent rt args w = (c, w') ->
  w' = w
  /\ ((exists e, c = Throw e /\ source_unreadable args (files w))
      \/ c = Return (draftContent rt args (files w))).
Proof.
  unfold initialContent, draftContent, source_unreadable.
  destruct (Js.truthy (da_initial_content args)); [intros [= <- <-]; auto|].
  destruct (Js.truthy (da_source_markdown args)); [|intros [= <- <-]; auto].
  unfold bind, existsSync, readFileSync, ret.
  destruct (files w !! _) as [text|] eqn:E.
  - assert (Hex : bool_decide (is_Some (Some text)) = true)
      by (apply bool_decide_eq_true; eauto).
    rewrite Hex. cbn [orb]. cbv beta iota zeta. rewrite E.
    intros [= <- <-]. auto.
  - destruct (_ || _); cbv beta iota zeta; rewrite ?E; intros [= <- <-]; eauto 7.
Qed.

Lemma withFrontmatter_eq rt ttl content w :
  withFrontmatter rt ttl content w
  = (Return (if Js.startsWith content "---" then content
             else frontmatter ttl
                    (Js.before "T" (toISOString rt (Date_now rt (clock_calls w))))
                  +:+ content),
     if Js.startsWith content "---" then w else tick_clock w).
Proof. unfold withFrontmatter. destruct (Js.startsWith content "---"); reflexivity. Qed.

Lemma mkdirSync_eq p w :
  mkdirSync p w = (Return tt, set_dirs (λ d, {[p]} ∪ d) w).
Proof. reflexivity. Qed.

Lemma writeFileSync_eq p c w :
  writeFileSync p c w = (Return tt, set_files <[p := c]> w).
Proof. reflexivity. Qed.

Lemma new_Date_toISOString_eq rt w :
  new_Date_toISOString rt w
  = (Return (toISOString rt (Date_now rt (clock_calls w))), tick_clock w).
Proof. reflexivity. Qed.

(** docs_draft, when the project directory can be determined: it generates
    a valid identifier, which is absent from the registry unless it is the
    timestamped fallback; then it either throws while reading the source
    file, leaving the files as they were, or it writes the draft, its
    metadata and the registry with the one entry set. *)
Lemma docs_draft_spec rt ctx args w c w' :
  project_ok rt ctx ->
  docs_draft rt ctx args w = (c, w') ->
  exists id,
    isValidDocId id = true
    /\ (drafts (registryOf rt ctx (files w)) !! id = None
        \/ exists plain, PlainId plain
             /\ id = plain +:+ "-" +:+ Js.Number_toString (Date_now rt (clock_calls w)))
    /\ ((exists e, c = Throw e /\ files w' = files w /\ source_unreadable args (files w))
        \/ exists k1 k2 k3,
             clock_calls w <= k1 <= S (clock_calls w) /\
             let content := draftContent rt args (files w) in
             let stored :=
               if Js.startsWith content "---" then content
               else frontmatter (da_title args)
                      (Js.before "T" (toISOString rt (Date_now rt k1))) +:+ content in
             let entry :=
               draftEntry args (toISOString rt (Date_now rt k2))
                 (toISOString rt (Date_now rt k3)) in
             is_return c = true
             /\ files w'
                = <[registryPathOf rt ctx :=
                      RegistryJson
                        {| drafts := <[id := entry]> (drafts (registryOf rt ctx (files w))) |}]>
                    (<[path_join [draftDirOf rt ctx id; "meta.json"] := MetaJson entry]>
                       (<[path_join [draftDirOf rt ctx id; "draft.md"] := Text stored]>
                          (files w)))).
Proof.
  intros Hok Hrun. unfold docs_draft in Hrun.
  destruct (ensureDocsDir_ok rt ctx w Hok) as (w0 & E0 & Hf0 & Hc0 & _).
  rewrite (bind_Return _ _ _ _ _ E0) in Hrun.
  pose proof (readRegistry_ok rt ctx w0 Hok) as Hr0. rewrite Hf0 in Hr0.
  destruct (generateUniqueDocId_spec rt ctx w0 _ Hr0)
    as (id & w1 & E1 & (Hf1 & _) & Hclock & Hvalid & Hfresh).
  rewrite Hc0 in Hfresh, Hclock.
  rewrite (bind_Return _ _ _ _ _ E1) in Hrun.
  rewrite (bind_Return _ _ _ _ _ (getDocsBasePath_ok rt ctx w1 Hok)) in Hrun.
  fold (draftDirOf rt ctx id) in Hrun.
  rewrite (bind_Return _ _ _ _ _ (mkdirSync_eq _ w1)) in Hrun.
  set (w2 := set_dirs _ w1) in Hrun.
  assert (Hf2 : files w2 = files w) by (unfold w2; simpl; congruence).
  exists id. split; [exact Hvalid|]. split; [exact Hfresh|].
  destruct (initialContent rt args w2) as [c3 w3] eqn:E3.
  destruct (initialContent_cases _ _ _ _ _ E3) as [-> [(e & -> & Hsrc)| ->]].
  - rewrite (bind_Throw _ _ _ _ _ E3) in Hrun. injection Hrun as <- <-.
    rewrite Hf2 in Hsrc. left. eauto.
  - rewrite (bind_Return _ _ _ _ _ E3) in Hrun. rewrite Hf2 in Hrun.
    rewrite (bind_Return _ _ _ _ _ (withFrontmatter_eq _ _ _ _)) in Hrun.
    set (stored := if Js.startsWith _ _ then _ else _) in Hrun.
    set (w4 := if Js.startsWith _ _ then _ else _) in Hrun.
    assert (Hf4 : files w4 = files w) by (unfold w4; destruct (Js.startsWith _ _); exact Hf2).
    rewrite (bind_Return _ _ _ _ _ (writeFileSync_eq _ _ _)) in Hrun.
    rewrite (bind_Return _ _ _ _ _ (new_Date_toISOString_eq _ _)) in Hrun.
    rewrite (bind_Return _ _ _ _ _ (new_Date_toISOString_eq _ _)) in Hrun.
    rewrite (bind_Return _ _ _ _ _ (writeFileSync_eq _ _ _)) in Hrun.
    cbv zeta in Hrun. cbn [created_at last_modified] in Hrun.
    match type of Hrun with
    | bind _ _ ?w6 = _ =>
        pose proof (readRegistry_ok rt ctx w6 Hok) as Hr6;
        rewrite (bind_Return _ _ _ _ _ Hr6) in Hrun; clear Hr6;
        match type of Hrun with
        | bind (writeRegistry _ _ ?r) _ _ = _ =>
            destruct (writeRegistry_ok rt ctx r w6 Hok) as (w7 & E7 & Hf7 & _)
        end
    end.
    rewrite (bind_Return _ _ _ _ _ E7) in Hrun. injection Hrun as <- <-.
    right. exists (clock_calls w1). eexists _, _. cbv zeta.
    split; [exact Hclock|]. split; [reflexivity|].
    rewrite Hf7. simpl files. rewrite Hf4.
    rewrite !registryOf_insert_ne by apply draft_file_ne_registry.
    reflexivity.
Qed.

Lemma docs_draft_needs_project rt ctx args w :
  ~ project_ok rt ctx -> docs_draft rt ctx args w = (Throw no_project_directory, w).
Proof.
  intros Hbad. unfold docs_draft, ensureDocsDir, getDocsBasePath.
  unfold project_ok in Hbad. destruct (_ || _); [reflexivity | congruence].
Qed.

Lemma project_ok_dec rt ctx : project_ok rt ctx \/ ~ project_ok rt ctx.
Proof. unfold project_ok. destruct (_ || _); auto. Qed.

Lemma draft_md_ne_meta_json dir : path_join [dir; "draft.md"] <> path_join [dir; "meta.json"].
Proof.
  unfold path_join. simpl. intros H. apply append_inv_head in H. discriminate H.
Qed.

Lemma replaceAll_removes c by_ s :
  ~ In c (list_ascii_of_string by_) ->
  ~ In c (list_ascii_of_string (Js.replaceAll c by_ s)).
Proof.
  intros Hby. induction s as [|d s IH]; simpl; [auto|].
  destruct (Ascii.eqb d c) eqn:E.
  - rewrite list_ascii_app. intros H. apply in_app_or in H as [H|H]; auto.
  - simpl. intros [->|H]; [|auto]. rewrite Ascii.eqb_refl in E. discriminate.
Qed.

(** The escaped title stays on one line. *)
Lemma escapeYaml_no_newline s :
  ~ In (ascii_of_nat 10) (list_ascii_of_string (escapeYaml s)).
Proof.
  unfold escapeYaml. apply replaceAll_removes. simpl. intros [H|[]]. discriminate H.
Qed.

(** What [escapeYaml] computes in two passes is the escaping of the
    claim, made in one. *)
Lemma escapeYaml_spec s : escapeYaml s = quotesEscapedNewlinesSpaced s.
Proof.
  unfold escapeYaml. induction s as [|c s IH]; [reflexivity|].
  cbn [Js.replaceAll quotesEscapedNewlinesSpaced].
  destruct (Ascii.eqb c (ascii_of_nat 34)) eqn:Eq.
  - rewrite !append_String.
    change (Js.replaceAll (ascii_of_nat 10) " "
              (String (ascii_of_nat 92) (String (ascii_of_nat 34)
                 ("" +:+ Js.replaceAll (ascii_of_nat 34)
                           (String (ascii_of_nat 92) (String (ascii_of_nat 34) "")) s))))
      with (String (ascii_of_nat 92) (String (ascii_of_nat 34)
              (Js.replaceAll (ascii_of_nat 10) " "
                 (Js.replaceAll (ascii_of_nat 34)
                    (String (ascii_of_nat 92) (String (ascii_of_nat 34) "")) s)))).
    rewrite IH. reflexivity.
  - cbn [Js.replaceAll]. destruct (Ascii.eqb c (ascii_of_nat 10)).
    + rewrite append_String. change ("" +:+ ?x) with x. rewrite IH. reflexivity.
    + rewrite IH. reflexivity.
Qed.

(** C10. Whenever docs_draft stores a draft, the stored draft.md begins
    with three dashes.  The initial content is [initial_content] when
    given, else the text of the [source_markdown] file when it exists, else
    empty; when it does not start with three dashes, the stored text is a
    YAML frontmatter block (three dashes; the title in double quotes with
    its double quotes escaped and its newlines replaced by spaces; the date
    part of a clock reading taken during the invocation in double quotes;
    three dashes; each on a line of its own) followed by the content;
    otherwise the content is stored unchanged.  The escaping is stated
    character by character: what [escapeYaml] makes of the title is the
    title with a backslash put before each double quote and a space in place
    of each newline. *)
Theorem draft_begins_with_frontmatter rt ctx args w :
  is_return (docs_draft rt ctx args w).1 = true ->
  exists id k,
    clock_calls w <= k <= S (clock_calls w) /\
    let content := draftContent rt args (files w) in
    let today := Js.before "T" (toISOString rt (Date_now rt k)) in
    let block :=
      "---" +:+ Js.nl
      +:+ "title: " +:+ quoted (quotesEscapedNewlinesSpaced (da_title args)) +:+ Js.nl
      +:+ "date: " +:+ quoted today +:+ Js.nl
      +:+ "---" +:+ Js.nl in
    let stored := if Js.startsWith content "---" then content else block +:+ content in
    files (docs_draft rt ctx args w).2 !! path_join [draftDirOf rt ctx id; "draft.md"]
    = Some (Text stored)
    /\ Js.startsWith stored "---" = true
    /\ escapeYaml (da_title args) = quotesEscapedNewlinesSpaced (da_title args)
    /\ ~ In (ascii_of_nat 10) (list_ascii_of_string (escapeYaml (da_title args))).
Proof.
  intros Hret.
  destruct (project_ok_dec rt ctx) as [Hok|Hbad];
    [|rewrite (docs_draft_needs_project rt ctx args w Hbad) in Hret; discriminate].
  destruct (docs_draft rt ctx args w) as [c w'] eqn:Hrun. cbn [fst snd] in *.
  destruct (docs_draft_spec rt ctx args w c w' Hok Hrun)
    as (id & _ & _ & [(e & -> & _)|(k1 & k2 & k3 & Hk & _ & Hfiles)]); [discriminate|].
  exists id, k1. cbv zeta. split; [exact Hk|]. split; [|split; [|split]].
  - rewrite Hfiles.
    rewrite lookup_insert_ne by (apply not_eq_sym, draft_file_ne_registry).
    rewrite lookup_insert_ne by (apply not_eq_sym, draft_md_ne_meta_json).
    rewrite lookup_insert_eq. rewrite <- escapeYaml_spec.
    destruct (Js.startsWith _ _); reflexivity.
  - destruct (Js.startsWith (draftContent rt args (files w)) "---") eqn:E;
      [exact E | reflexivity].
  - apply escapeYaml_spec.
  - apply escapeYaml_no_newline.
Qed.

Lemma draft_begins_with_frontmatter_witness :
  exists id k,
    files (docs_draft Example.rt Example.ctx Workspace.quotedTitle Example.fresh).2
      !! path_join [draftDirOf Example.rt Example.ctx id; "draft.md"]
    = Some (Text ("---" +:+ Js.nl
                  +:+ "title: "
                  +:+ quoted ("The "
                              +:+ String (ascii_of_nat 92) (String (ascii_of_nat 34)
                                    ("Third"
                                     +:+ String (ascii_of_nat 92)
                                           (String (ascii_of_nat 34) " draft"))))
                  +:+ Js.nl
                  +:+ "date: " +:+ quoted (Js.before "T" (toISOString Example.rt (Date_now Example.rt k)))
                  +:+ Js.nl +:+ "---" +:+ Js.nl +:+ "# Third")).
Proof.
  destruct (draft_begins_with_frontmatter Example.rt Example.ctx Workspace.quotedTitle
              Example.fresh) as (id & k & _ & H & _).
  - vm_compute. reflexivity.
  - exists id, k. rewrite H. vm_compute. reflexivity.
Defined.

(** ** Tolerating an unreadable registry *)

Lemma registryOf_unreadable rt ctx w :
  registry_unreadable rt ctx w -> registryOf rt ctx (files w) = emptyRegistry.
Proof.
  unfold registryOf. intros [->|(text & -> & ->)]; reflexivity.
Qed.

(** C3. When the registry file is absent or its contents are not valid
    JSON, [readRegistry] returns the empty registry and no tool fails on
    that account; each proceeds as if no drafts existed: docs_list_drafts
    reports that there are no active drafts, docs_compile and
    docs_delete_draft report that the draft is not found (or that the
    identifier is malformed), each leaving the world as it was, and docs_draft, unless the source file it is asked to
    read cannot be read, completes normally and writes a registry whose
    only entry is the new draft. *)
Theorem unreadable_registry_is_empty rt ctx w :
  project_ok rt ctx ->
  registry_unreadable rt ctx w ->
  readRegistry rt ctx w = (Return emptyRegistry, w)
  /\ docs_list_drafts rt ctx w
     = (Return "No active drafts. Create one with docs_draft.", w)
  /\ (forall args,
        docs_compile rt ctx args w
        = (Return (if isValidDocId (doc_id args)
                   then "Draft not found: " +:+ doc_id args
                        +:+ ". Use docs_list_drafts to see available drafts."
                   else "Invalid document ID format: " +:+ doc_id args), w))
  /\ (forall id,
        docs_delete_draft rt ctx id w
        = (Return (if isValidDocId id
                   then "Draft not found: " +:+ id
                   else "Invalid document ID format: " +:+ id), w))
  /\ (forall args,
        (exists e, (docs_draft rt ctx args w).1 = Throw e
                   /\ source_unreadable args (files w))
        \/ (is_return (docs_draft rt ctx args w).1 = true
            /\ exists id entry,
                 status entry = StDraft
                 /\ title entry = da_title args
                 /\ registryOf rt ctx (files (docs_draft rt ctx args w).2)
                    = {| drafts := {[id := entry]} |})).
Proof.
  intros Hok Hbad.
  pose proof (readRegistry_ok rt ctx w Hok) as Hread.
  rewrite (registryOf_unreadable rt ctx w Hbad) in Hread.
  split; [exact Hread|]. split; [|split; [|split]].
  - unfold docs_list_drafts. rewrite (bind_Return _ _ _ _ _ Hread).
    reflexivity.
  - intros args. unfold docs_compile.
    destruct (isValidDocId (doc_id args)); cbn [negb]; [|reflexivity].
    rewrite (bind_Return _ _ _ _ _ Hread). reflexivity.
  - intros id. unfold docs_delete_draft.
    destruct (isValidDocId id); cbn [negb]; [|reflexivity].
    rewrite (bind_Return _ _ _ _ _ Hread). reflexivity.
  - intros args.
    destruct (docs_draft rt ctx args w) as [c w'] eqn:Hrun. cbn [fst snd].
    destruct (docs_draft_spec rt ctx args w c w' Hok Hrun)
      as (id & _ & _ & [(e & -> & _ & Hsrc)|(k1 & k2 & k3 & _ & Hret & Hfiles)]).
    + left. eauto.
    + right. split; [exact Hret|].
      eexists id, _. split; [|split]; [| |rewrite Hfiles, registryOf_insert;
        rewrite (registryOf_unreadable rt ctx w Hbad); cbn [drafts emptyRegistry];
        rewrite insert_empty; reflexivity]; reflexivity.
Qed.

Lemma unreadable_registry_is_empty_witness :
  readRegistry Example.rt Example.ctx Example.garbled
  = (Return emptyRegistry, Example.garbled)
  /\ docs_list_drafts Example.rt Example.ctx Example.garbled
     = (Return "No active drafts. Create one with docs_draft.", Example.garbled).
Proof.
  assert (Hok : project_ok Example.rt Example.ctx) by reflexivity.
  assert (Hbad : registry_unreadable Example.rt Example.ctx Example.garbled).
  { right. exists (Text "not json"). split; reflexivity. }
  destruct (unreadable_registry_is_empty Example.rt Example.ctx Example.garbled Hok Hbad)
    as (H1 & H2 & _).
  split; [exact H1 | exact H2].
Defined.

(** ** The registry under the lifecycle operations *)

(** docs_delete_draft leaves the registry as it is, or removes exactly the
    named entry. *)
Lemma docs_delete_draft_frame rt ctx id w c w' :
  project_ok rt ctx ->
  docs_delete_draft rt ctx id w = (c, w') ->
  let registry := registryOf rt ctx (files w) in
  (w' = w /\ (isValidDocId id = false \/ drafts registry !! id = None))
  \/ (is_Some (drafts registry !! id)
      /\ c = Return ("Deleted draft: " +:+ id)
      /\ registryOf rt ctx (files w') = {| drafts := delete id (drafts registry) |}).
Proof.
  intros Hok. unfold docs_delete_draft.
  destruct (isValidDocId id); cbn [negb]; [|intros [= <- <-]; auto].
  rewrite (bind_Return _ _ _ _ _ (readRegistry_ok rt ctx w Hok)).
  destruct (drafts (registryOf rt ctx (files w)) !! id) as [d|] eqn:Hd;
    [|intros [= <- <-]; auto].
  rewrite (bind_Return _ _ _ _ _ (getDocsBasePath_ok rt ctx w Hok)).
  unfold bind at 1. unfold existsSync at 1.
  unfold bind at 1.
  destruct (when _ _ w) as [[[]|e] w2] eqn:Hrm.
  - match goal with
    | |- bind (writeRegistry _ _ ?r) _ _ = _ -> _ =>
        destruct (writeRegistry_ok rt ctx r w2 Hok) as (w3 & E3 & Hf3 & _)
    end.
    rewrite (bind_Return _ _ _ _ _ E3). intros [= <- <-].
    right. split; [eauto|]. split; [reflexivity|].
    rewrite Hf3. apply registryOf_insert.
  - exfalso. revert Hrm. unfold when, bind, spawn, ret.
    destruct (_ || _); discriminate.
Qed.

(** docs_compile leaves the registry as it is, or rewrites exactly the
    status and last_modified of the named entry. *)
Lemma docs_compile_frame rt ctx args w c w' :
  project_ok rt ctx ->
  docs_compile rt ctx args w = (c, w') ->
  let registry := registryOf rt ctx (files w) in
  w' = w
  \/ exists d,
       drafts registry !! doc_id args = Some d
       /\ registryOf rt ctx (files w')
          = {| drafts :=
                 <[doc_id args :=
                     markCompiled (toISOString rt (Date_now rt (clock_calls w))) d]>
                   (drafts registry) |}.
Proof.
  intros Hok Hrun registry.
  destruct (isValidDocId (doc_id args)) eqn:Hvalid;
    [|left; unfold docs_compile in Hrun; rewrite Hvalid in Hrun; now injection Hrun].
  destruct (drafts registry !! doc_id args) as [d|] eqn:Hd.
  - destruct (fileExists w (path_join [draftDirOf rt ctx (doc_id args); "draft.md"]))
      eqn:Hex.
    + right. exists d. split; [reflexivity|].
      now destruct (docs_compile_keeps_mutation rt ctx args w d c w' Hok Hvalid Hd Hex Hrun)
        as (_ & H).
    + left. revert Hrun. unfold docs_compile. rewrite Hvalid. cbn [negb].
      rewrite (bind_Return _ _ _ _ _ (readRegistry_ok rt ctx w Hok)).
      fold registry. rewrite Hd.
      rewrite (bind_Return _ _ _ _ _ (getDocsBasePath_ok rt ctx w Hok)).
      unfold bind at 1. unfold existsSync at 1.
      unfold fileExists, draftDirOf in Hex. rewrite Hex. cbn [negb].
      now intros [= <- <-].
  - left. revert Hrun. unfold docs_compile. rewrite Hvalid. cbn [negb].
    rewrite (bind_Return _ _ _ _ _ (readRegistry_ok rt ctx w Hok)).
    fold registry. rewrite Hd. now intros [= <- <-].
Qed.

(** docs_draft, when it completes normally, sets exactly the entry of the
    generated identifier, to a record with status draft; the entry is new
    whenever the generator found a free identifier within its hundred
    attempts. *)
Lemma docs_draft_frame rt ctx args w c w' :
  project_ok rt ctx ->
  docs_draft rt ctx args w = (c, w') ->
  is_return c = true ->
  let registry := registryOf rt ctx (files w) in
  exists id entry,
    status entry = StDraft
    /\ registryOf rt ctx (files w') = {| drafts := <[id := entry]> (drafts registry) |}
    /\ (drafts registry !! id = None
        \/ exists plain, PlainId plain
             /\ id = plain +:+ "-" +:+ Js.Number_toString (Date_now rt (clock_calls w))).
Proof.
  intros Hok Hrun Hret registry.
  destruct (docs_draft_spec rt ctx args w c w' Hok Hrun)
    as (id & _ & Hfresh & [(e & -> & _)|(k1 & k2 & k3 & _ & _ & Hfiles)]);
    [discriminate|].
  eexists id, _. split; [|split; [|exact Hfresh]];
    [|rewrite Hfiles; apply registryOf_insert]; reflexivity.
Qed.

(** C5, at the failing input.  The registry holds the identifier the
    generator keeps drawing and the timestamped identifier it then falls
    back to; docs_draft completes normally, adds no entry, and replaces the
    existing entry of the timestamped identifier by the new draft. *)
Theorem docs_draft_overwrites_entry :
  is_return (docs_draft Example.rt Example.ctx Example.draftArgs Example.busy).1 = true
  /\ drafts (registryOf Example.rt Example.ctx (files Example.busy)) !! Example.stamped_id
     = Some (Example.draft "Second")
  /\ (title <$>
        drafts (registryOf Example.rt Example.ctx
                  (files (docs_draft Example.rt Example.ctx Example.draftArgs
                            Example.busy).2))
        !! Example.stamped_id)
     = Some "Third"
  /\ dom (drafts (registryOf Example.rt Example.ctx
                    (files (docs_draft Example.rt Example.ctx Example.draftArgs
                              Example.busy).2)))
     = dom (drafts (registryOf Example.rt Example.ctx (files Example.busy))).
Proof.
  repeat split; vm_compute; reflexivity.
Qed.

(** ** Preset inheritance *)




(** * Further properties of the code *)

(** ** escapeYaml *)





(** ** isValidDocId *)

Lemma Matches_cat_inv r1 r2 l :
  Regex.Matches (Regex.Cat r1 r2) l ->
  exists l1 l2, l = (l1 ++ l2)%list /\ Regex.Matches r1 l1 /\ Regex.Matches r2 l2.
Proof. intros H. inversion H; subst. eauto. Qed.

Lemma Matches_class_inv p l :
  Regex.Matches (Regex.Class p) l -> exists c, l = [c] /\ p c = true.
Proof. intros H. inversion H; subst. eauto. Qed.

Lemma Matches_star_class_inv p l :
  Regex.Matches (Regex.Star (Regex.Class p)) l -> forallb p l = true.
Proof.
  intros H. remember (Regex.Star (Regex.Class p)) as r eqn:Hr.
  induction H as [| | | | | |r0 s1 s2 H1 _ H2 IH2]; try discriminate; [reflexivity|].
  injection Hr as ->. apply Matches_class_inv in H1 as (c & -> & Hc).
  simpl. rewrite Hc. apply IH2. reflexivity.
Qed.

Lemma Matches_plus_class_inv p l :
  Regex.Matches (Regex.Plus (Regex.Class p)) l -> l <> [] /\ forallb p l = true.
Proof.
  intros H. apply Matches_cat_inv in H as (l1 & l2 & -> & H1 & H2).
  apply Matches_class_inv in H1 as (c & -> & Hc).
  apply Matches_star_class_inv in H2. simpl. rewrite Hc, H2. split; [discriminate | reflexivity].
Qed.

Lemma string_of_list_ascii_app l1 l2 :
  string_of_list_ascii (l1 ++ l2)
  = string_of_list_ascii l1 +:+ string_of_list_ascii l2.
Proof.
  induction l1 as [|c l1 IH]; [reflexivity|].
  cbn [app string_of_list_ascii]. rewrite append_String, IH. reflexivity.
Qed.

Lemma word_of_list p l :
  l <> [] -> forallb p l = true ->
  negb (String.eqb (string_of_list_ascii l) "")
  && forallb p (list_ascii_of_string (string_of_list_ascii l)) = true.
Proof.
  intros Hne Hall. rewrite list_ascii_of_string_of_list_ascii, Hall.
  destruct l; [congruence | reflexivity].
Qed.

(** X2. [isValidDocId] accepts exactly the identifiers made of two
    non-empty lower-case words and a non-empty run of digits joined by
    dashes, optionally followed by one more dash and a non-empty run of
    digits. *)
Theorem isValidDocId_exactly s :
  isValidDocId s = true
  <-> exists adj noun num,
        lower_word adj = true /\ lower_word noun = true /\ digit_word num = true
        /\ (s = adj +:+ "-" +:+ noun +:+ "-" +:+ num
            \/ exists stamp,
                 digit_word stamp = true
                 /\ s = (adj +:+ "-" +:+ noun +:+ "-" +:+ num) +:+ "-" +:+ stamp).
Proof.
  split.
  - intros H. apply RegexFacts.run_Matches in H. unfold docIdPattern in H.
    apply Matches_cat_inv in H as (la & r1 & E1 & Ha & H).
    apply Matches_cat_inv in H as (d1 & r2 & E2 & Hd1 & H).
    apply Matches_cat_inv in H as (lb & r3 & E3 & Hb & H).
    apply Matches_cat_inv in H as (d2 & r4 & E4 & Hd2 & H).
    apply Matches_cat_inv in H as (ln & r5 & E5 & Hn & H).
    apply Matches_class_inv in Hd1 as (c1 & -> & Hc1).
    apply Matches_class_inv in Hd2 as (c2 & -> & Hc2).
    apply Ascii.eqb_eq in Hc1, Hc2. subst c1 c2.
    apply Matches_plus_class_inv in Ha as [Ha1 Ha2].
    apply Matches_plus_class_inv in Hb as [Hb1 Hb2].
    apply Matches_plus_class_inv in Hn as [Hn1 Hn2].
    exists (string_of_list_ascii la), (string_of_list_ascii lb), (string_of_list_ascii ln).
    split; [apply word_of_list; assumption|].
    split; [apply word_of_list; assumption|].
    split; [apply word_of_list; assumption|].
    rewrite <- (string_of_list_ascii_of_string s).
    subst r4 r3 r2 r1. rewrite E1.
    inversion H as [| | |? ? ? Hl|? ? ? Hr| |]; subst.
    + left. inversion Hl; subst. rewrite app_nil_r.
      rewrite !string_of_list_ascii_app. reflexivity.
    + right. apply Matches_cat_inv in Hr as (d3 & lt & -> & Hd3 & Ht).
      apply Matches_class_inv in Hd3 as (c3 & -> & Hc3).
      apply Ascii.eqb_eq in Hc3. subst c3.
      apply Matches_plus_class_inv in Ht as [Ht1 Ht2].
      exists (string_of_list_ascii lt). split; [apply word_of_list; assumption|].
      rewrite !string_of_list_ascii_app, !append_assoc. reflexivity.
  - intros (adj & noun & num & Ha & Hb & Hn & [->|(stamp & Ht & ->)]).
    + apply isValidDocId_plain; assumption.
    + apply isValidDocId_stamped; assumption.
Qed.

(** ** The identifier generator *)

Lemma random_calls_iter k w :
  random_calls (Nat.iter k tick_random w) = k + random_calls w.
Proof. induction k as [|k IH]; [reflexivity|]. simpl. now rewrite IH. Qed.

Lemma clock_calls_iter k w :
  clock_calls (Nat.iter k tick_random w) = clock_calls w.
Proof. induction k as [|k IH]; [reflexivity|]. simpl. exact IH. Qed.

(** X3. [generateDocId] always returns an adjective of the list, a noun of
    the list and a number between 100 and 999, joined by dashes; it
    consumes exactly three random numbers and changes nothing else. *)
Theorem generateDocId_draws rt w :
  exists adj noun num,
    generateDocId rt w
    = (Return (adj +:+ "-" +:+ noun +:+ "-" +:+ Js.Number_toString num),
       Nat.iter 3 tick_random w)
    /\ In adj ADJECTIVES /\ In noun NOUNS /\ (100 <= num <= 999)%N.
Proof.
  unfold generateDocId, bind, Math_floor_random, ret. cbn beta iota.
  eexists _, _, _. split; [reflexivity|].
  assert (Hidx : forall (arr : list string) k,
             (0 < N.of_nat (length arr))%N ->
             In (at_index arr ((k mod 2 ^ 53) * N.of_nat (length arr) / 2 ^ 53)%N) arr).
  { intros arr k Hpos. unfold at_index. apply nth_In.
    pose proof (scaled_random_lt k _ Hpos) as Hlt.
    revert Hlt. generalize ((k mod 2 ^ 53) * N.of_nat (length arr) / 2 ^ 53)%N.
    intros x Hlt. lia. }
  split; [apply Hidx; reflexivity|]. split; [apply Hidx; reflexivity|].
  match goal with
  | |- (100 <= ?r + 100 <= 999)%N =>
      assert (Hlt : (r < 900)%N) by (apply scaled_random_lt; reflexivity);
      revert Hlt; generalize r; intros x Hlt; lia
  end.
Qed.

Lemma docIdLoop_count rt registry fuel attempts w :
  99 <= fuel + attempts -> attempts <= 99 ->
  exists id n,
    docIdLoop rt registry fuel attempts w
    = (Return (id, n), Nat.iter (3 * (n - attempts)) tick_random w)
    /\ attempts < n <= 100
    /\ (n < 100 -> drafts registry !! id = None).
Proof.
  revert attempts w. induction fuel as [|fuel IH]; intros attempts w Hfuel Hle.
  - destruct (generateDocId_plain rt w) as (id & E & _).
    rewrite docIdLoop_unfold, (bind_Return _ _ _ _ _ E).
    assert (Hlt : (S attempts <? 100)%nat = false) by (apply Nat.ltb_ge; lia).
    rewrite Hlt, andb_false_r.
    exists id, (S attempts). replace (3 * (S attempts - attempts)) with 3 by lia.
    split; [reflexivity|]. lia.
  - destruct (generateDocId_plain rt w) as (id & E & _).
    rewrite docIdLoop_unfold, (bind_Return _ _ _ _ _ E).
    destruct (bool_decide (is_Some (drafts registry !! id))) eqn:Hin; cbn [andb].
    + destruct (S attempts <? 100)%nat eqn:Hlt.
      * apply Nat.ltb_lt in Hlt.
        destruct (IH (S attempts) (Nat.iter 3 tick_random w)) as (id' & n & E' & Hn & Hfree);
          [lia | lia |].
        exists id', n. rewrite E', iter_tick_random_add.
        replace (3 * (n - S attempts) + 3) with (3 * (n - attempts)) by lia.
        split; [reflexivity|]. split; [lia | exact Hfree].
      * apply Nat.ltb_ge in Hlt.
        exists id, (S attempts). replace (3 * (S attempts - attempts)) with 3 by lia.
        split; [reflexivity|]. lia.
    + exists id, (S attempts). replace (3 * (S attempts - attempts)) with 3 by lia.
      split; [reflexivity|]. split; [lia|].
      intros _. apply bool_decide_eq_false in Hin.
      destruct (drafts registry !! id) eqn:E'; [|reflexivity].
      exfalso. apply Hin. eauto.
Qed.

Lemma random_calls_tick_clock w : random_calls (tick_clock w) = random_calls w.
Proof. reflexivity. Qed.

Lemma clock_calls_tick_clock w : clock_calls (tick_clock w) = S (clock_calls w).
Proof. reflexivity. Qed.

(** X4. When the project directory can be determined and the registry
    file is absent or as the plugin wrote it,
    [generateUniqueDocId] always returns; it changes nothing but the count
    of random numbers and clock readings consumed; it draws at least three
    and at most 303 random numbers; and either it does not read the clock
    and the identifier is absent from the registry, or it has used all its
    attempts (303 random numbers) and read the clock exactly once. *)
Theorem generateUniqueDocId_bounded rt ctx w :
  project_ok rt ctx ->
  registry_intact rt ctx w ->
  exists id w',
    generateUniqueDocId rt ctx w = (Return id, w')
    /\ only_ticks w w'
    /\ random_calls w + 3 <= random_calls w' <= random_calls w + 303
    /\ ((clock_calls w' = clock_calls w
         /\ drafts (registryOf rt ctx (files w)) !! id = None)
        \/ (clock_calls w' = S (clock_calls w)
            /\ random_calls w' = random_calls w + 303)).
Proof.
  intros Hok _. unfold generateUniqueDocId.
  rewrite (bind_Return _ _ _ _ _ (readRegistry_ok rt ctx w Hok)).
  destruct (docIdLoop_count rt (registryOf rt ctx (files w)) 100 0 w)
    as (id & n & E & Hn & Hfree); [lia | lia |].
  rewrite Nat.sub_0_r in E. rewrite (bind_Return _ _ _ _ _ E).
  destruct (100 <=? n)%nat eqn:Hfull.
  - apply Nat.leb_le in Hfull.
    destruct (generateDocId_plain rt (Nat.iter (3 * n) tick_random w)) as (id' & E' & _).
    rewrite (bind_Return _ _ _ _ _ E'). rewrite iter_tick_random_add.
    unfold bind, Date_now_, ret.
    eexists _, _. split; [reflexivity|].
    split; [|split].
    + eapply only_ticks_trans; [apply only_ticks_random | apply only_ticks_clock].
    + rewrite random_calls_tick_clock, random_calls_iter. lia.
    + right. rewrite random_calls_tick_clock, clock_calls_tick_clock,
        random_calls_iter, clock_calls_iter. lia.
  - apply Nat.leb_gt in Hfull.
    exists id, (Nat.iter (3 * n) tick_random w). split; [reflexivity|].
    split; [apply only_ticks_random|].
    rewrite random_calls_iter, clock_calls_iter.
    split; [lia|]. left. split; [reflexivity | apply Hfree; exact Hfull].
Qed.

Lemma generateUniqueDocId_bounded_witness :
  exists id w',
    generateUniqueDocId Example.rt Example.ctx Example.fresh = (Return id, w')
    /\ random_calls w' <= 303.
Proof.
  destruct (generateUniqueDocId_bounded Example.rt Example.ctx Example.fresh)
    as (id & w' & E & _ & Hr & _); [reflexivity|left; reflexivity|].
  exists id, w'. split; [exact E|]. apply (proj2 Hr).
Defined.

(** ** Paths *)

Lemma append_nil_r (s : string) : s +:+ "" = s.
Proof.
  induction s as [|x s IH]; [reflexivity|].
  rewrite append_String. f_equal. exact IH.
Qed.

Lemma prefix_append_cancel (a x y : string) :
  String.prefix (a +:+ x) (a +:+ y) = String.prefix x y.
Proof.
  induction a as [|c a IH]; [reflexivity|].
  rewrite !append_String. cbn [String.prefix].
  destruct (Ascii.ascii_dec c c) as [_|Hne]; [exact IH|now elim Hne].
Qed.

Lemma eqb_append_cancel (a x y : string) :
  String.eqb (a +:+ x) (a +:+ y) = String.eqb x y.
Proof.
  induction a as [|c a IH]; [reflexivity|].
  rewrite !append_String. cbn [String.eqb]. rewrite Ascii.eqb_refl. exact IH.
Qed.

Lemma no_slash_tail x s : no_slash (String x s) -> no_slash s.
Proof. intros H c Hc. apply H. right. exact Hc. Qed.

Lemma no_slash_head x s : no_slash (String x s) -> x <> "/"%char.
Proof. intros H. apply H. left. reflexivity. Qed.

(** A segment followed by a slash is a prefix of another segment followed
    by a slash only when the two segments are equal. *)
Lemma prefix_segment (a b r : string) :
  no_slash a -> no_slash b ->
  String.prefix (a +:+ "/") (b +:+ String "/" r) = true -> a = b.
Proof.
  revert b. induction a as [|x a IH]; intros b Ha Hb.
  - destruct b as [|y b]; [reflexivity|].
    rewrite append_String. change ("" +:+ "/") with "/". cbn [String.prefix].
    destruct (Ascii.ascii_dec "/" y) as [<-|]; [|discriminate].
    now elim (no_slash_head _ _ Hb).
  - rewrite append_String. destruct b as [|y b].
    + change ("" +:+ String "/" r) with (String "/" r). cbn [String.prefix].
      destruct (Ascii.ascii_dec x "/") as [->|]; [|discriminate].
      now elim (no_slash_head _ _ Ha).
    + rewrite append_String. cbn [String.prefix].
      destruct (Ascii.ascii_dec x y) as [<-|]; [|discriminate].
      intros H. f_equal. apply IH; eauto using no_slash_tail.
Qed.

Lemma prefix_segment_end (a b : string) :
  no_slash b -> String.prefix (a +:+ "/") b = false.
Proof.
  revert b. induction a as [|x a IH]; intros b Hb.
  - change ("" +:+ "/") with "/". destruct b as [|y b]; [reflexivity|].
    cbn [String.prefix].
    destruct (Ascii.ascii_dec "/" y) as [<-|]; [|reflexivity].
    now elim (no_slash_head _ _ Hb).
  - rewrite append_String. destruct b as [|y b]; [reflexivity|].
    cbn [String.prefix]. destruct (Ascii.ascii_dec x y); [|reflexivity].
    apply IH. eauto using no_slash_tail.
Qed.

Lemma no_slash_append_slash (b r : string) : ~ no_slash (b +:+ String "/" r).
Proof.
  intros H. apply (H "/"%char); [|reflexivity].
  rewrite list_ascii_app. apply in_or_app. right. left. reflexivity.
Qed.

Lemma isValidDocId_no_slash id : isValidDocId id = true -> no_slash id.
Proof.
  intros Hv c Hc. exact (proj1 (id_char_safe c (isValidDocId_chars id c Hv Hc))).
Qed.

Lemma draftDirOf_eq rt ctx id :
  draftDirOf rt ctx id = docsBaseOf rt ctx +:+ String "/" id.
Proof. reflexivity. Qed.

Lemma draft_file_eq rt ctx id name :
  path_join [draftDirOf rt ctx id; name]
  = docsBaseOf rt ctx +:+ String "/" (id +:+ String "/" name).
Proof.
  unfold path_join. cbn [Js.join]. rewrite draftDirOf_eq.
  rewrite append_assoc, append_String. reflexivity.
Qed.

Lemma draftDirOf_slash rt ctx id :
  draftDirOf rt ctx id +:+ "/" = docsBaseOf rt ctx +:+ String "/" (id +:+ "/").
Proof. rewrite draftDirOf_eq, append_assoc, append_String. reflexivity. Qed.

(** The directory of a draft holds neither the directory nor the files of
    a draft with another well-formed identifier. *)
Lemma under_other_draft rt ctx id other :
  isValidDocId id = true -> isValidDocId other = true -> other <> id ->
  under (draftDirOf rt ctx id) (draftDirOf rt ctx other) = false
  /\ forall name,
       under (draftDirOf rt ctx id) (path_join [draftDirOf rt ctx other; name]) = false.
Proof.
  intros Hid Hother Hne.
  pose proof (isValidDocId_no_slash id Hid) as Hs.
  pose proof (isValidDocId_no_slash other Hother) as Hs'.
  unfold under. split; [|intros name]; apply orb_false_intro.
  - rewrite !draftDirOf_eq, eqb_append_cancel. cbn [String.eqb].
    rewrite Ascii.eqb_refl. apply String.eqb_neq. congruence.
  - rewrite draftDirOf_slash, draftDirOf_eq, prefix_append_cancel.
    cbn [String.prefix]. destruct (Ascii.ascii_dec "/" "/"); [|reflexivity].
    apply prefix_segment_end. exact Hs'.
  - rewrite draft_file_eq, draftDirOf_eq, eqb_append_cancel. cbn [String.eqb].
    rewrite Ascii.eqb_refl. apply String.eqb_neq. intros ->.
    exact (no_slash_append_slash _ _ Hs).
  - rewrite draftDirOf_slash, draft_file_eq, prefix_append_cancel.
    cbn [String.prefix]. destruct (Ascii.ascii_dec "/" "/"); [|reflexivity].
    destruct (String.prefix (id +:+ "/") (other +:+ String "/" name)) eqn:E;
      [|reflexivity].
    elim Hne. symmetry. exact (prefix_segment _ _ _ Hs Hs' E).
Qed.

(** The registry file lies in no draft directory. *)
Lemma registry_not_under_draft rt ctx id :
  under (draftDirOf rt ctx id) (registryPathOf rt ctx) = false.
Proof.
  unfold under. apply orb_false_intro.
  - rewrite draftDirOf_eq. unfold docsBaseOf, registryPathOf, path_join.
    cbn [Js.join]. rewrite !append_assoc, eqb_append_cancel. reflexivity.
  - rewrite draftDirOf_slash. unfold docsBaseOf, registryPathOf, path_join.
    cbn [Js.join]. rewrite !append_assoc, prefix_append_cancel. reflexivity.
Qed.

(** ** Directory names *)

Lemma split_acc_nonempty c cur s : Js.split_acc c cur s <> [].
Proof.
  revert cur. induction s as [|d s IH]; intros cur; cbn [Js.split_acc];
    [discriminate|].
  destruct (Ascii.eqb d c); [discriminate|apply IH].
Qed.

Lemma removelast_cons {A} (x : A) l : l <> [] -> removelast (x :: l) = x :: removelast l.
Proof. destruct l; [congruence|reflexivity]. Qed.

Lemma split_acc_no_sep c cur t :
  (forall d, In d (list_ascii_of_string t) -> d <> c) ->
  exists x, Js.split_acc c cur t = [x].
Proof.
  revert cur. induction t as [|d t IH]; intros cur Ht; cbn [Js.split_acc];
    [eauto|].
  destruct (Ascii.eqb d c) eqn:E.
  - apply Ascii.eqb_eq in E. elim (Ht d); [left; reflexivity|exact E].
  - apply IH. intros d' Hd'. apply Ht. right. exact Hd'.
Qed.

(** Dropping the last segment of a path drops its last separator and what
    follows it. *)
Lemma removelast_split_acc c cur a t :
  (forall d, In d (list_ascii_of_string t) -> d <> c) ->
  removelast (Js.split_acc c cur (a +:+ String c t)) = Js.split_acc c cur a.
Proof.
  intros Ht. revert cur. induction a as [|d a IH]; intros cur.
  - change ("" +:+ String c t) with (String c t). cbn [Js.split_acc].
    rewrite Ascii.eqb_refl.
    destruct (split_acc_no_sep c "" t Ht) as (x & ->). reflexivity.
  - rewrite append_String. cbn [Js.split_acc].
    destruct (Ascii.eqb d c); [|apply IH].
    rewrite removelast_cons by apply split_acc_nonempty. f_equal. apply IH.
Qed.

Lemma join_cons sep x l : l <> [] -> Js.join sep (x :: l) = x +:+ sep +:+ Js.join sep l.
Proof. destruct l; [congruence|reflexivity]. Qed.

Lemma rev_app_append (s t a : string) :
  String.rev_app s t +:+ a = String.rev_app s (t +:+ a).
Proof.
  revert t. induction s as [|x s IH]; intros t; [reflexivity|].
  cbn [String.rev_app]. rewrite IH, append_String. reflexivity.
Qed.

Lemma join_split_acc c cur a :
  Js.join (String c "") (Js.split_acc c cur a) = String.rev cur +:+ a.
Proof.
  unfold String.rev.
  revert cur. induction a as [|d a IH]; intros cur; cbn [Js.split_acc].
  - cbn [Js.join]. symmetry. apply append_nil_r.
  - destruct (Ascii.eqb d c) eqn:E.
    + apply Ascii.eqb_eq in E. subst d.
      rewrite join_cons by apply split_acc_nonempty. rewrite IH. reflexivity.
    + rewrite IH. cbn [String.rev_app]. rewrite !rev_app_append. reflexivity.
Qed.

(** [dirname] of a path whose last segment is not empty of slashes. *)
Lemma dirname_append a t :
  (forall d, In d (list_ascii_of_string t) -> d <> "/"%char) ->
  dirname (a +:+ String "/" t) = a.
Proof.
  intros Ht. unfold dirname, Js.split. rewrite (removelast_split_acc _ _ _ _ Ht).
  pose proof (join_split_acc "/" "" a) as Hj.
  destruct (Js.split_acc "/" "" a) eqn:E; [now elim (split_acc_nonempty "/" "" a)|].
  exact Hj.
Qed.

Lemma dirname_registryPath rt ctx :
  dirname (registryPathOf rt ctx) = path_join [projectBase rt ctx; ".opencode"].
Proof.
  unfold registryPathOf, path_join. cbn [Js.join].
  replace (projectBase rt ctx +:+ "/" +:+ ".opencode" +:+ "/" +:+ "docs-registry.json")
    with ((projectBase rt ctx +:+ "/" +:+ ".opencode") +:+ String "/" "docs-registry.json")
    by (rewrite !append_assoc; reflexivity).
  apply dirname_append.
  intros d Hd. vm_compute in Hd. intros ->.
  repeat (destruct Hd as [Hd|Hd]; [discriminate Hd|]). exact Hd.
Qed.

(** ** Deleting a draft *)

Lemma writeRegistry_dirs rt ctx registry w w' :
  project_ok rt ctx ->
  writeRegistry rt ctx registry w = (Return tt, w') ->
  dirs w' = dirs w
  \/ dirs w' = {[path_join [projectBase rt ctx; ".opencode"]]} ∪ dirs w.
Proof.
  intros Hok. unfold writeRegistry.
  rewrite (bind_Return _ _ _ _ _ (getRegistryPath_ok rt ctx w Hok)).
  rewrite dirname_registryPath.
  unfold bind, existsSync, when, mkdirSync, writeFileSync, modify, ret.
  destruct (negb _); intros [= <-]; [right|left]; reflexivity.
Qed.

(** The world after the removal of a draft directory. *)
Lemma rm_rf_world rt d w :
  (spawn rt (Argv ["rm"; "-rf"; d]) w).2
  = set_dirs (filter (λ p, under d p = false))
      (set_files (filter (λ kv, under d kv.1 = false))
         (record (EvSpawn (Argv ["rm"; "-rf"; d])) w)).
Proof. reflexivity. Qed.

(** docs_delete_draft on a registered draft: the directory is removed when
    it exists, then the registry is written without the entry. *)
Lemma docs_delete_draft_steps rt ctx id w d :
  project_ok rt ctx ->
  isValidDocId id = true ->
  drafts (registryOf rt ctx (files w)) !! id = Some d ->
  let dir := draftDirOf rt ctx id in
  let w1 := if fileExists w dir then (spawn rt (Argv ["rm"; "-rf"; dir]) w).2 else w in
  exists w2,
    writeRegistry rt ctx {| drafts := delete id (drafts (registryOf rt ctx (files w))) |} w1
    = (Return tt, w2)
    /\ files w2
       = <[registryPathOf rt ctx :=
             RegistryJson {| drafts := delete id (drafts (registryOf rt ctx (files w))) |}]>
           (files w1)
    /\ docs_delete_draft rt ctx id w = (Return ("Deleted draft: " +:+ id), w2).
Proof.
  intros Hok Hv Hd dir w1.
  destruct (writeRegistry_ok rt ctx
              {| drafts := delete id (drafts (registryOf rt ctx (files w))) |} w1 Hok)
    as (w2 & E2 & Hf2 & _).
  exists w2. split; [exact E2|]. split; [exact Hf2|].
  unfold docs_delete_draft. rewrite Hv. cbn [negb].
  rewrite (bind_Return _ _ _ _ _ (readRegistry_ok rt ctx w Hok)), Hd.
  rewrite (bind_Return _ _ _ _ _ (getDocsBasePath_ok rt ctx w Hok)).
  unfold bind at 1. unfold existsSync at 1.
  fold (draftDirOf rt ctx id). fold dir. fold (fileExists w dir).
  unfold bind at 1.
  assert (Hw : when (fileExists w dir)
                 (let* _ := spawn rt (Argv ["rm"; "-rf"; dir]) in ret tt) w
               = (Return tt, w1)).
  { unfold w1. destruct (fileExists w dir); reflexivity. }
  rewrite Hw. rewrite (bind_Return _ _ _ _ _ E2). reflexivity.
Qed.

(** X6. docs_delete_draft is confined to the directory of the draft it
    names: the registry file apart, no file outside that directory is
    created, changed or removed, and no directory outside it is removed.
    In particular the directory and the files of every draft with another
    well-formed identifier are kept. *)
Theorem docs_delete_draft_confined rt ctx id w c w' :
  project_ok rt ctx ->
  docs_delete_draft rt ctx id w = (c, w') ->
  (forall p, under (draftDirOf rt ctx id) p = false ->
             p <> registryPathOf rt ctx -> files w' !! p = files w !! p)
  /\ (forall p, under (draftDirOf rt ctx id) p = false -> p ∈ dirs w -> p ∈ dirs w')
  /\ (forall other name,
        isValidDocId other = true -> other <> id ->
        files w' !! path_join [draftDirOf rt ctx other; name]
        = files w !! path_join [draftDirOf rt ctx other; name]
        /\ (draftDirOf rt ctx other ∈ dirs w -> draftDirOf rt ctx other ∈ dirs w')).
Proof.
  intros Hok Hrun.
  assert (Hframe :
    (forall p, under (draftDirOf rt ctx id) p = false ->
               p <> registryPathOf rt ctx -> files w' !! p = files w !! p)
    /\ (forall p, under (draftDirOf rt ctx id) p = false -> p ∈ dirs w -> p ∈ dirs w')).
  { destruct (isValidDocId id) eqn:Hv;
      [|unfold docs_delete_draft in Hrun; rewrite Hv in Hrun;
        injection Hrun as <- <-; split; auto].
    destruct (drafts (registryOf rt ctx (files w)) !! id) as [d|] eqn:Hd.
    - destruct (docs_delete_draft_steps rt ctx id w d Hok Hv Hd)
        as (w2 & E2 & Hf & Hdel).
      rewrite Hdel in Hrun. injection Hrun as <- <-.
      pose proof (writeRegistry_dirs rt ctx _ _ _ Hok E2) as Hdirs.
      split.
      + intros p Hp Hne. rewrite Hf, lookup_insert_ne by congruence.
        destruct (fileExists w (draftDirOf rt ctx id)); [|reflexivity].
        rewrite rm_rf_world. cbn [files set_dirs set_files record].
        destruct (files w !! p) as [x|] eqn:E.
        * apply map_lookup_filter_Some. split; [exact E|exact Hp].
        * apply map_lookup_filter_None. left. exact E.
      + intros p Hp Hin.
        assert (Hin1 : p ∈ dirs (if fileExists w (draftDirOf rt ctx id)
                                 then (spawn rt (Argv ["rm"; "-rf"; draftDirOf rt ctx id]) w).2
                                 else w)).
        { destruct (fileExists w (draftDirOf rt ctx id)); [|exact Hin].
          rewrite rm_rf_world. cbn [dirs set_dirs set_files record].
          apply elem_of_filter. split; [exact Hp|exact Hin]. }
        destruct Hdirs as [->| ->]; [exact Hin1|].
        apply elem_of_union. right. exact Hin1.
    - unfold docs_delete_draft in Hrun. rewrite Hv in Hrun. cbn [negb] in Hrun.
      rewrite (bind_Return _ _ _ _ _ (readRegistry_ok rt ctx w Hok)), Hd in Hrun.
      injection Hrun as <- <-. split; auto. }
  destruct Hframe as (Hfiles & Hdirs). split; [exact Hfiles|]. split; [exact Hdirs|].
  intros other name Hother Hne.
  destruct (isValidDocId id) eqn:Hv.
  - destruct (under_other_draft rt ctx id other Hv Hother Hne) as (Hu1 & Hu2).
    split.
    + apply Hfiles; [apply Hu2|apply draft_file_ne_registry].
    + apply Hdirs. exact Hu1.
  - unfold docs_delete_draft in Hrun. rewrite Hv in Hrun.
    injection Hrun as <- <-. split; auto.
Qed.

Lemma docs_delete_draft_confined_witness :
  files (docs_delete_draft Example.rt Example.ctx Example.first_id
           Workspace.two_drafts).2
    !! path_join [draftDirOf Example.rt Example.ctx Workspace.second_id; "draft.md"]
  = Some (Text "# Second").
Proof.
  refine (eq_trans (proj1 (proj2 (proj2
    (docs_delete_draft_confined Example.rt Example.ctx Example.first_id
       Workspace.two_drafts _ _ _
       (surjective_pairing
          (docs_delete_draft Example.rt Example.ctx Example.first_id
             Workspace.two_drafts))))
    Workspace.second_id "draft.md" _ _)) _).
  - reflexivity.
  - vm_compute; reflexivity.
  - vm_compute; discriminate.
  - vm_compute; reflexivity.
Defined.

(** X7. Deleting a registered draft with a well-formed identifier
    completes normally.  Afterwards the registry has no entry for the
    identifier and every other entry is as before; when the directory of the
    draft existed, neither it nor any file below it is left; a second
    deletion and a compilation report that the draft is not found and change
    nothing. *)
Theorem docs_delete_draft_removes rt ctx id w d :
  project_ok rt ctx ->
  isValidDocId id = true ->
  drafts (registryOf rt ctx (files w)) !! id = Some d ->
  exists w',
    docs_delete_draft rt ctx id w = (Return ("Deleted draft: " +:+ id), w')
    /\ drafts (registryOf rt ctx (files w')) = delete id (drafts (registryOf rt ctx (files w)))
    /\ (fileExists w (draftDirOf rt ctx id) = true ->
        fileExists w' (draftDirOf rt ctx id) = false
        /\ forall p, under (draftDirOf rt ctx id) p = true -> files w' !! p = None)
    /\ docs_delete_draft rt ctx id w' = (Return ("Draft not found: " +:+ id), w')
    /\ forall args,
         doc_id args = id ->
         docs_compile rt ctx args w'
         = (Return ("Draft not found: " +:+ id
                    +:+ ". Use docs_list_drafts to see available drafts."), w').
Proof.
  intros Hok Hv Hd.
  destruct (docs_delete_draft_steps rt ctx id w d Hok Hv Hd) as (w' & E & Hf & Hdel).
  pose proof (writeRegistry_dirs rt ctx _ _ _ Hok E) as Hdirs.
  assert (Hreg : registryOf rt ctx (files w')
                 = {| drafts := delete id (drafts (registryOf rt ctx (files w))) |})
    by (rewrite Hf; apply registryOf_insert).
  assert (Hnone : drafts (registryOf rt ctx (files w')) !! id = None)
    by (rewrite Hreg; apply lookup_delete_eq).
  exists w'. split; [exact Hdel|]. split; [rewrite Hreg; reflexivity|].
  split; [|split].
  - intros Hex. rewrite Hex in Hf, Hdirs.
    assert (Hgone : forall p, under (draftDirOf rt ctx id) p = true -> files w' !! p = None).
    { intros p Hp. rewrite Hf, lookup_insert_ne.
      - rewrite rm_rf_world. cbn [files set_dirs set_files record].
        apply map_lookup_filter_None. right. intros x _. cbn [fst]. rewrite Hp.
        discriminate.
      - intros <-. rewrite registry_not_under_draft in Hp. discriminate Hp. }
    split; [|exact Hgone].
    unfold fileExists. apply orb_false_intro.
    + apply bool_decide_eq_false. rewrite Hgone; [apply is_Some_None|].
      unfold under. rewrite String.eqb_refl. reflexivity.
    + apply bool_decide_eq_false.
      assert (Hrm : draftDirOf rt ctx id
                    ∉ dirs (spawn rt (Argv ["rm"; "-rf"; draftDirOf rt ctx id]) w).2).
      { rewrite rm_rf_world. cbn [dirs set_dirs set_files record].
        intros [Hu _]%elem_of_filter. unfold under in Hu.
        rewrite String.eqb_refl in Hu. discriminate Hu. }
      destruct Hdirs as [-> | ->]; [exact Hrm|].
      intros [Heq%elem_of_singleton|Hin]%elem_of_union; [|exact (Hrm Hin)].
      revert Heq. rewrite draftDirOf_eq. unfold docsBaseOf, path_join. cbn [Js.join].
      rewrite !append_assoc. intros Heq%append_inv_head. vm_compute in Heq.
      discriminate Heq.
  - unfold docs_delete_draft. rewrite Hv. cbn [negb].
    rewrite (bind_Return _ _ _ _ _ (readRegistry_ok rt ctx w' Hok)), Hnone.
    reflexivity.
  - intros args <-. unfold docs_compile. rewrite Hv. cbn [negb].
    rewrite (bind_Return _ _ _ _ _ (readRegistry_ok rt ctx w' Hok)), Hnone.
    reflexivity.
Qed.

Lemma docs_delete_draft_removes_witness :
  exists w',
    docs_delete_draft Example.rt Example.ctx Example.first_id Workspace.two_drafts
    = (Return "Deleted draft: amber-apple-100", w')
    /\ files w' !! "/proj/.opencode/docs/amber-apple-100/notes.txt" = None
    /\ docs_delete_draft Example.rt Example.ctx Example.first_id w'
       = (Return "Draft not found: amber-apple-100", w').
Proof.
  destruct (docs_delete_draft_removes Example.rt Example.ctx Example.first_id
              Workspace.two_drafts (Example.draft "First"))
    as (w' & Hdel & _ & Hdir & Hagain & _).
  - reflexivity.
  - vm_compute. reflexivity.
  - vm_compute. reflexivity.
  - exists w'. split; [exact Hdel|]. split; [|exact Hagain].
    apply Hdir; vm_compute; reflexivity.
Defined.

(** ** Drafting, then compiling *)

(** X8. A draft that docs_draft has created can be compiled: for the
    identifier it registered, docs_compile on the resulting project finds
    the entry and the draft file, marks the entry compiled while keeping the
    title and the preset given to docs_draft, and either throws or reports
    the compiled document under that title and preset. *)
Theorem docs_draft_then_compile rt ctx dargs w c w1 :
  project_ok rt ctx ->
  docs_draft rt ctx dargs w = (c, w1) ->
  is_return c = true ->
  exists id,
    isValidDocId id = true
    /\ (status <$> drafts (registryOf rt ctx (files w1)) !! id) = Some StDraft
    /\ is_Some (files w1 !! path_join [draftDirOf rt ctx id; "draft.md"])
    /\ forall cargs c2 w2,
         doc_id cargs = id ->
         docs_compile rt ctx cargs w1 = (c2, w2) ->
         exists entry,
           drafts (registryOf rt ctx (files w2)) !! id = Some entry
           /\ status entry = StCompiled
           /\ title entry = da_title dargs
           /\ preset entry = da_preset dargs
           /\ ((exists e, c2 = Throw e)
               \/ exists out,
                    c2 = Return ("Compiled: " +:+ out +:+ Js.nl
                                 +:+ "Document: " +:+ da_title dargs +:+ Js.nl
                                 +:+ "Preset: " +:+ da_preset dargs)).
Proof.
  intros Hok Hrun Hret.
  destruct (docs_draft_spec rt ctx dargs w c w1 Hok Hrun)
    as (id & Hv & _ & [(e & -> & _)|(k1 & k2 & k3 & _ & _ & Hfiles)]);
    [discriminate|].
  cbv zeta in Hfiles.
  set (entry := draftEntry dargs (toISOString rt (Date_now rt k2))
                  (toISOString rt (Date_now rt k3))) in *.
  assert (Hreg : drafts (registryOf rt ctx (files w1)) !! id = Some entry).
  { rewrite Hfiles, registryOf_insert. cbn [drafts]. apply lookup_insert_eq. }
  assert (Hfile : is_Some (files w1 !! path_join [draftDirOf rt ctx id; "draft.md"])).
  { rewrite Hfiles, lookup_insert_ne by (apply not_eq_sym, draft_file_ne_registry).
    rewrite lookup_insert_ne by (apply not_eq_sym, draft_md_ne_meta_json).
    rewrite lookup_insert_eq. eauto. }
  exists id. split; [exact Hv|]. split; [rewrite Hreg; reflexivity|].
  split; [exact Hfile|].
  intros cargs c2 w2 <- Hcompile.
  assert (Hex : fileExists w1 (path_join [draftDirOf rt ctx (doc_id cargs); "draft.md"])
                = true).
  { unfold fileExists. apply orb_true_intro. left. apply bool_decide_eq_true.
    exact Hfile. }
  destruct (docs_compile_keeps_mutation rt ctx cargs w1 entry c2 w2 Hok Hv Hreg Hex Hcompile)
    as ((w' & _ & _ & _ & Hdraft) & Hafter).
  eexists. split; [rewrite Hafter; cbn [drafts]; apply lookup_insert_eq|].
  split; [reflexivity|]. split; [reflexivity|]. split; [reflexivity|].
  destruct (compileDraft_outcomes _ _ _ _ _ _ _ _ _ Hdraft)
    as [(_ & e & ->)|(b & cleanup & _ & _ & Hc)]; [left; eauto|].
  cbv zeta in Hc. rewrite Hc.
  destruct (exitCode _ =? 0)%Z; [right|left]; eauto.
Qed.

Lemma docs_draft_then_compile_witness :
  exists id,
    isValidDocId id = true
    /\ (status <$>
          drafts (registryOf Example.rt Example.ctx
                    (files (docs_draft Example.rt Example.ctx Example.draftArgs
                              Example.installed).2)) !! id)
       = Some StDraft.
Proof.
  destruct (docs_draft_then_compile Example.rt Example.ctx Example.draftArgs
              Example.installed _ _ eq_refl
              (surjective_pairing
                 (docs_draft Example.rt Example.ctx Example.draftArgs Example.installed)))
    as (id & Hv & Hst & _).
  - vm_compute. reflexivity.
  - exists id. split; [exact Hv|exact Hst].
Defined.

(** ** Listing the drafts *)

Lemma path_join3 a b c : path_join [a; b; c] = path_join [path_join [a; b]; c].
Proof. unfold path_join. cbn [Js.join]. rewrite !append_assoc. reflexivity. Qed.

Lemma listDraftLines_ok rt ctx entries w :
  project_ok rt ctx ->
  listDraftLines rt ctx entries w
  = (Return
       (concat
          (map (λ e, draftListing e.1 e.2
                       (fileExists w (path_join [draftDirOf rt ctx e.1; "draft.md"]))
                       (path_join [draftDirOf rt ctx e.1; "draft.md"]))
             entries)),
     w).
Proof.
  intros Hok. induction entries as [|[id info] rest IH]; [reflexivity|].
  cbn [listDraftLines].
  rewrite (bind_Return _ _ _ _ _ (getDocsBasePath_ok rt ctx w Hok)).
  unfold bind at 1. unfold existsSync at 1.
  rewrite (bind_Return _ _ _ _ _ IH).
  cbn [map concat fst snd]. unfold ret, draftListing, fileExists, draftDirOf.
  rewrite <- path_join3. reflexivity.
Qed.

(** X9. docs_list_drafts only reads: when the project directory can be
    determined and the registry file is absent or as the plugin wrote it,
    it completes normally and leaves the world as it was.  It
    reports that there are no active drafts exactly when the registry has no
    entry; otherwise every registered draft is listed with its title, preset,
    date and path, and with the status missing, instead of its recorded
    status, when its draft file does not exist. *)
Theorem docs_list_drafts_reads_only rt ctx w :
  project_ok rt ctx ->
  registry_intact rt ctx w ->
  exists text,
    docs_list_drafts rt ctx w = (Return text, w)
    /\ (text = "No active drafts. Create one with docs_draft."
        <-> drafts (registryOf rt ctx (files w)) = ∅)
    /\ forall id info,
         drafts (registryOf rt ctx (files w)) !! id = Some info ->
         let draftPath := path_join [draftDirOf rt ctx id; "draft.md"] in
         exists above below,
           text
           = Js.join Js.nl
               (["Active document drafts:"; ""] ++ above
                ++ draftListing id info (fileExists w draftPath) draftPath
                ++ below)%list.
Proof.
  intros Hok _. unfold docs_list_drafts.
  rewrite (bind_Return _ _ _ _ _ (readRegistry_ok rt ctx w Hok)).
  set (ds := drafts (registryOf rt ctx (files w))).
  destruct (map_to_list ds) as [|e rest] eqn:E.
  - apply map_to_list_empty_iff in E. eexists. split; [reflexivity|].
    split; [tauto|]. intros id info Hin. rewrite E in Hin.
    rewrite lookup_empty in Hin. discriminate Hin.
  - cbn [length Nat.eqb].
    rewrite (bind_Return _ _ _ _ _ (listDraftLines_ok rt ctx (e :: rest) w Hok)).
    eexists. split; [reflexivity|]. split.
    + split.
      * intros H. exfalso. revert H.
        match goal with |- context [concat ?l] => generalize (concat l) end.
        intros lines. cbn [app Js.join]. rewrite append_String. discriminate.
      * intros Hempty. apply map_to_list_empty_iff in Hempty. congruence.
    + intros id info Hin. cbv zeta.
      apply elem_of_map_to_list in Hin. rewrite E in Hin.
      apply list_elem_of_split in Hin. destruct Hin as (l1 & l2 & ->).
      eexists _, _. rewrite map_app, concat_app. cbn [map concat fst snd].
      rewrite <- app_assoc. reflexivity.
Qed.

Lemma docs_list_drafts_reads_only_witness :
  exists text,
    docs_list_drafts Example.rt Example.ctx Workspace.two_drafts
    = (Return text, Workspace.two_drafts)
    /\ (text = "No active drafts. Create one with docs_draft."
        <-> drafts (registryOf Example.rt Example.ctx (files Workspace.two_drafts)) = ∅).
Proof.
  destruct (docs_list_drafts_reads_only Example.rt Example.ctx Workspace.two_drafts)
    as (text & Hrun & Hnone & _).
  - reflexivity.
  - right. eexists. vm_compute. reflexivity.
  - exists text. split; [exact Hrun|exact Hnone].
Defined.

(** ** The steps of docs_compile *)

(** The authors table, with the name of the file it writes. *)
Lemma authorsTable_file rt args dir b w c w' :
  authorsTable rt args dir b w = (c, w') ->
  let tmp :=
    path_join [dir; "authors-" +:+ Js.Number_toString (Date_now rt (clock_calls w))
                    +:+ ".yaml"] in
  (files w' = files w /\ log w' = log w
   /\ (c = Return (b, None) \/ exists e, c = Throw e))
  \/ (Js.truthy (authors args) = true
      /\ c = Return (call (BMetadataFile tmp) b, Some tmp)
      /\ exists text, w' = set_files <[tmp := Text text]> (tick_clock w)).
Proof.
  unfold authorsTable. destruct (Js.truthy (authors args)).
  - unfold try_catch, parseAuthors, bind, Date_now_, writeFileSync, modify, ret, throw.
    destruct (JSON_parse_authors rt _) as [e|l]; intros [= <- <-].
    + left. eauto.
    + right. eauto.
  - intros [= <- <-]. left. auto.
Qed.

(** The metadata file, once written, is always removed again. *)
Lemma cleanupMetaFile_written rt f text w :
  files w !! f = Some text ->
  cleanupMetaFile rt (Some f) w
  = (Return tt, set_files (delete f) (record (EvSpawn (Argv ["rm"; "-f"; f])) w)).
Proof.
  intros Hf. unfold cleanupMetaFile, bind, existsSync, when, try_catch, spawn, ret.
  rewrite Hf. rewrite bool_decide_eq_true_2 by eauto. reflexivity.
Qed.

(** docs_compile up to the point where the registry has been written,
    with the clock reading consumed there. *)
Lemma docs_compile_enters rt ctx args w d :
  project_ok rt ctx ->
  isValidDocId (doc_id args) = true ->
  drafts (registryOf rt ctx (files w)) !! doc_id args = Some d ->
  fileExists w (path_join [draftDirOf rt ctx (doc_id args); "draft.md"]) = true ->
  let d' := markCompiled (toISOString rt (Date_now rt (clock_calls w))) d in
  exists w1,
    docs_compile rt ctx args w
    = compileDraft rt ctx args d' (draftDirOf rt ctx (doc_id args))
        (path_join [draftDirOf rt ctx (doc_id args); "draft.md"]) w1
    /\ files w1
       = <[registryPathOf rt ctx :=
             RegistryJson
               {| drafts := <[doc_id args := d']> (drafts (registryOf rt ctx (files w))) |}]>
           (files w)
    /\ clock_calls w1 = S (clock_calls w)
    /\ log w1 = log w.
Proof.
  intros Hok Hvalid Hd Hex d'. unfold docs_compile.
  rewrite Hvalid. cbn [negb].
  rewrite (bind_Return _ _ _ _ _ (readRegistry_ok rt ctx w Hok)), Hd.
  rewrite (bind_Return _ _ _ _ _ (getDocsBasePath_ok rt ctx w Hok)).
  fold (draftDirOf rt ctx (doc_id args)).
  unfold bind at 1. unfold existsSync at 1. unfold fileExists in Hex. rewrite Hex.
  cbn [negb].
  unfold bind at 1. unfold new_Date_toISOString, bind, Date_now_, ret. cbn beta iota.
  fold d'.
  set (r' := {| drafts := <[doc_id args := d']> _ |}).
  destruct (writeRegistry_ok rt ctx r' (tick_clock w) Hok) as (w1 & E & Hf & Hq & Hc).
  rewrite E. exists w1. split; [reflexivity|]. split; [exact Hf|].
  split; [exact Hc|]. destruct Hq as (_ & _ & Hl). exact Hl.
Qed.

(** docs_compile before it writes: the three reports that leave the world
    as it was. *)
Lemma docs_compile_early rt ctx args w :
  project_ok rt ctx ->
  (isValidDocId (doc_id args) = false
   \/ drafts (registryOf rt ctx (files w)) !! doc_id args = None
   \/ fileExists w (path_join [draftDirOf rt ctx (doc_id args); "draft.md"]) = false) ->
  exists text, docs_compile rt ctx args w = (Return text, w).
Proof.
  intros Hok Hcase. unfold docs_compile.
  destruct (isValidDocId (doc_id args)); cbn [negb]; [|eauto].
  rewrite (bind_Return _ _ _ _ _ (readRegistry_ok rt ctx w Hok)).
  destruct (drafts (registryOf rt ctx (files w)) !! doc_id args) as [d|]; [|eauto].
  destruct Hcase as [Hc|[Hc|Hc]]; try discriminate Hc.
  rewrite (bind_Return _ _ _ _ _ (getDocsBasePath_ok rt ctx w Hok)).
  unfold bind at 1. unfold existsSync at 1.
  unfold fileExists, draftDirOf in Hc. rewrite Hc. cbn [negb]. eauto.
Qed.

(** The three ways of the authors table. *)
Lemma authorsTable_absent rt args dir b w :
  Js.truthy (authors args) = false ->
  authorsTable rt args dir b w = (Return (b, None), w).
Proof. unfold authorsTable. intros ->. reflexivity. Qed.

Lemma authorsTable_invalid rt args dir b w e :
  Js.truthy (authors args) = true ->
  JSON_parse_authors rt (Js.render (authors args)) = inl e ->
  authorsTable rt args dir b w = (Throw ("Invalid authors JSON: " +:+ e), w).
Proof.
  unfold authorsTable, try_catch, bind, parseAuthors. intros -> ->. reflexivity.
Qed.

Lemma authorsTable_parsed rt args dir b w authorsArray :
  Js.truthy (authors args) = true ->
  JSON_parse_authors rt (Js.render (authors args)) = inr authorsArray ->
  let tmp :=
    path_join [dir; "authors-" +:+ Js.Number_toString (Date_now rt (clock_calls w))
                    +:+ ".yaml"] in
  authorsTable rt args dir b w
  = (Return (call (BMetadataFile tmp) b, Some tmp),
     set_files
       <[tmp := Text (Js.join Js.nl ("authors:" :: concat (map authorYaml authorsArray)))]>
       (tick_clock w)).
Proof.
  unfold authorsTable, try_catch, bind, parseAuthors. intros -> ->. reflexivity.
Qed.

(** X10. The authors table of docs_compile, for a registered draft whose
    preset has been loaded with its template resolved.  Without an authors
    argument the tool starts the conversion and nothing else.  With one that
    cannot be read as the array of authors it throws the error of the
    attempt behind the words Invalid authors JSON, having started no process.
    Otherwise it names a file after the clock in the directory of the draft,
    hands it to the conversion as the metadata file, the last call on the
    builder, and after the conversion starts the removal of exactly that
    file, whether the conversion succeeded or not. *)
Theorem docs_compile_authors rt ctx args w d p w1 :
  project_ok rt ctx ->
  isValidDocId (doc_id args) = true ->
  drafts (registryOf rt ctx (files w)) !! doc_id args = Some d ->
  fileExists w (path_join [draftDirOf rt ctx (doc_id args); "draft.md"]) = true ->
  loadPreset rt ctx (preset d) (logo args) (registryMarked rt ctx args d w)
  = (Return p, w1) ->
  template_missing p = false ->
  let tmp :=
    path_join [draftDirOf rt ctx (doc_id args);
               "authors-" +:+ Js.Number_toString (Date_now rt (S (clock_calls w)))
               +:+ ".yaml"] in
  let run := docs_compile rt ctx args w in
  if Js.truthy (authors args) then
    match JSON_parse_authors rt (Js.render (authors args)) with
    | inl e => run = (Throw ("Invalid authors JSON: " +:+ e), w1) /\ log w1 = log w
    | inr authorsArray =>
        exists b,
          log run.2
          = EvSpawn (Argv ["rm"; "-f"; tmp])
            :: EvSpawn (Pandoc (call (BMetadataFile tmp) b) None) :: log w
    end
  else exists b, log run.2 = EvSpawn (Pandoc b None) :: log w.
Proof.
  intros Hok Hvalid Hd Hex Hload Hmiss tmp run.
  destruct (docs_compile_at_marked rt ctx args w d Hok Hvalid Hd Hex)
    as (E & Hl0 & _ & _ & Hc0 & _).
  destruct (loadPreset_frame _ _ _ _ _ _ _ Hload) as (_ & _ & Hl1 & _ & Hc1).
  assert (Hlog : log w1 = log w) by congruence.
  assert (Hclock : clock_calls w1 = S (clock_calls w)) by congruence.
  unfold run. rewrite E. unfold compileDraft.
  change (preset (markCompiled _ d)) with (preset d).
  rewrite (bind_Return _ _ _ _ _ Hload), Hmiss.
  set (b := compileBuilder _ _ _ _).
  destruct (Js.truthy (authors args)) eqn:Hauth.
  - destruct (JSON_parse_authors rt (Js.render (authors args))) as [e|l] eqn:Hparse.
    + unfold bind at 1. rewrite (authorsTable_invalid _ _ _ _ _ _ Hauth Hparse).
      split; [reflexivity|exact Hlog].
    + unfold bind at 1. rewrite (authorsTable_parsed _ _ _ _ _ _ Hauth Hparse). cbv zeta.
      rewrite Hclock. fold tmp.
      set (w2 := set_files _ _).
      rewrite (bind_Return _ _ _ _ _ (execute_spec rt (call (BMetadataFile tmp) b) None w2)).
      rewrite (bind_Return _ _ _ _ _
                 (cleanupMetaFile_written rt tmp _ _ (lookup_insert_eq _ _ _))).
      exists b. destruct (negb _); unfold throw, ret;
        cbn [snd log set_files record tick_clock w2]; rewrite Hlog; reflexivity.
  - unfold bind at 1. rewrite (authorsTable_absent _ _ _ _ _ Hauth).
    rewrite (bind_Return _ _ _ _ _ (execute_spec rt b None w1)).
    cbn [cleanupMetaFile]. unfold bind, ret.
    exists b. destruct (negb _); unfold throw; cbn [snd log record]; rewrite Hlog;
      reflexivity.
Qed.

Lemma docs_compile_authors_witness :
  exists b,
    log (docs_compile Workspace.rt_authors Example.ctx Workspace.authorsArgs
           Workspace.two_drafts).2
    = [EvSpawn (Argv ["rm"; "-f";
                      "/proj/.opencode/docs/amber-apple-100/authors-1700000000000.yaml"]);
       EvSpawn
         (Pandoc
            (call (BMetadataFile
                     "/proj/.opencode/docs/amber-apple-100/authors-1700000000000.yaml") b)
            None)].
Proof.
  pose proof (docs_compile_authors Workspace.rt_authors Example.ctx Workspace.authorsArgs
                Workspace.two_drafts (Example.draft "First")
                (resolvePreset Workspace.rt_authors Example.ctx Workspace.two_drafts
                   ScProject (mergePresets Example.base_preset Example.report_preset) None)
                (loadPreset Workspace.rt_authors Example.ctx "report" None
                   (registryMarked Workspace.rt_authors Example.ctx Workspace.authorsArgs
                      (Example.draft "First") Workspace.two_drafts)).2
                eq_refl) as H.
  apply H; vm_compute; reflexivity.
Defined.

(** ** The command docs_compile runs *)

Lemma call_if_appends x c b : exists l, call_if x c b = (b ++ l)%list.
Proof.
  unfold call_if, call. destruct x as [s|]; [destruct (String.eqb s "")|];
    eauto using app_nil_r.
  all: exists []; symmetry; apply app_nil_r.
Qed.

Lemma logoVariables_appends rt lg b : exists l, logoVariables rt lg b = (b ++ l)%list.
Proof.
  unfold logoVariables, call.
  repeat match goal with |- context [if ?c then _ else _] => destruct c end;
    rewrite <- ?app_assoc; eauto.
  all: exists []; symmetry; apply app_nil_r.
Qed.

Lemma compileBuilder_appends rt args p b :
  exists more,
    compileBuilder rt args p b = (b ++ BApplyPreset p :: BListings :: more)%list.
Proof.
  unfold compileBuilder. cbv zeta.
  set (b1 := call BListings (call (BApplyPreset p) b)).
  assert (H1 : b1 = (b ++ [BApplyPreset p; BListings] ++ [])%list)
    by (unfold b1, call; rewrite <- app_assoc; reflexivity).
  revert H1. generalize (@nil BuilderCall) at 1. generalize b1. clear b1.
  intros b1 l1 ->.
  set (b2 := if (0 <? _)%nat then _ else _).
  assert (H2 : exists l, b2 = (b ++ [BApplyPreset p; BListings] ++ l)%list).
  { unfold b2, call. destruct (0 <? _)%nat; [|eauto].
    rewrite <- !app_assoc. eauto. }
  clearbody b2. destruct H2 as (l2 & ->).
  repeat match goal with
  | |- context [call_if ?x ?c ?b0] =>
      let l := fresh "l" in let E := fresh "E" in
      destruct (call_if_appends x c b0) as (l & E); rewrite E; clear E;
      rewrite <- ?app_assoc
  | |- context [logoVariables rt ?x ?b0] =>
      let l := fresh "l" in let E := fresh "E" in
      destruct (logoVariables_appends rt x b0) as (l & E); rewrite E; clear E;
      rewrite <- ?app_assoc
  end.
  cbn [app]. eauto.
Qed.

Lemma compileDraft_command rt ctx args d dir draftPath w c w' :
  compileDraft rt ctx args d dir draftPath w = (c, w') ->
  log w' = log w
  \/ exists p more cleanup,
       template_missing p = false
       /\ (cleanup = [] \/ exists f, cleanup = [EvSpawn (Argv ["rm"; "-f"; f])])
       /\ log w'
          = (cleanup
             ++ EvSpawn
                  (Pandoc
                     (BInput draftPath
                      :: BOutput (Js.or_else (output_path args)
                                    (path_join [dir; doc_id args +:+ ".pdf"]))
                      :: BApplyPreset p :: BListings :: more) None)
             :: log w)%list.
Proof.
  unfold compileDraft.
  destruct (loadPreset rt ctx (preset d) (logo args) w) as [[p|e] w1] eqn:Hload;
    destruct (loadPreset_frame _ _ _ _ _ _ _ Hload) as (_ & _ & Hl1 & _);
    [rewrite (bind_Return _ _ _ _ _ Hload) | rewrite (bind_Throw _ _ _ _ _ Hload)];
    [|intros [= <- <-]; left; exact Hl1].
  destruct (template_missing p) eqn:Hmiss; [intros [= <- <-]; left; exact Hl1|].
  destruct (compileBuilder_appends rt args p
              (call (BOutput (Js.or_else (output_path args)
                                (path_join [dir; doc_id args +:+ ".pdf"])))
                 (call (BInput draftPath) pandoc))) as (more & Hb).
  rewrite Hb. unfold call at 1 2. unfold pandoc. cbn [app].
  set (b := (_ :: _ :: _ :: _ :: more)).
  destruct (authorsTable rt args dir b w1) as [c2 w2] eqn:Htbl.
  unfold bind at 1. rewrite Htbl.
  destruct (authorsTable_file _ _ _ _ _ _ _ Htbl)
    as [(_ & Hl2 & [->|(e & ->)])|(_ & -> & text & ->)].
  - rewrite (bind_Return _ _ _ _ _ (execute_spec rt b None w2)).
    cbn [cleanupMetaFile]. unfold bind, ret.
    intros H. right. exists p, more, []. split; [exact Hmiss|]. split; [auto|].
    destruct (negb _); injection H as <- <-; cbn [log record app];
      rewrite Hl2, Hl1; reflexivity.
  - intros [= <- <-]. left. congruence.
  - set (tmp := path_join [dir; _]). set (w2 := set_files _ _).
    rewrite (bind_Return _ _ _ _ _ (execute_spec rt (call (BMetadataFile tmp) b) None w2)).
    rewrite (bind_Return _ _ _ _ _
               (cleanupMetaFile_written rt tmp (Text text) _ (lookup_insert_eq _ _ _))).
    intros H. right. exists p, (more ++ [BMetadataFile tmp])%list,
      [EvSpawn (Argv ["rm"; "-f"; tmp])].
    split; [exact Hmiss|]. split; [eauto|].
    destruct (negb _); injection H as <- <-;
      cbn [log set_files record tick_clock w2 app]; rewrite Hl1; reflexivity.
Qed.

(** X11. docs_compile starts at most one conversion, and only for a
    registered draft whose preset names no template that cannot be found.
    The conversion reads the draft file of the named draft, writes to the
    given output path or else to the PDF named after the draft in its
    directory, applies the preset first and listings next, and runs in no
    working directory of its own; the only process after it is the removal
    of the temporary authors file. *)
Theorem docs_compile_command rt ctx args w c w' :
  project_ok rt ctx ->
  docs_compile rt ctx args w = (c, w') ->
  let dir := draftDirOf rt ctx (doc_id args) in
  log w' = log w
  \/ exists p more cleanup,
       is_Some (drafts (registryOf rt ctx (files w)) !! doc_id args)
       /\ template_missing p = false
       /\ (cleanup = [] \/ exists f, cleanup = [EvSpawn (Argv ["rm"; "-f"; f])])
       /\ log w'
          = (cleanup
             ++ EvSpawn
                  (Pandoc
                     (BInput (path_join [dir; "draft.md"])
                      :: BOutput (Js.or_else (output_path args)
                                    (path_join [dir; doc_id args +:+ ".pdf"]))
                      :: BApplyPreset p :: BListings :: more) None)
             :: log w)%list.
Proof.
  intros Hok Hrun dir.
  destruct (isValidDocId (doc_id args)) eqn:Hv;
    [|destruct (docs_compile_early rt ctx args w Hok) as (t & E); [auto|];
      rewrite E in Hrun; injection Hrun as <- <-; auto].
  destruct (drafts (registryOf rt ctx (files w)) !! doc_id args) as [d|] eqn:Hd;
    [|destruct (docs_compile_early rt ctx args w Hok) as (t & E); [auto|];
      rewrite E in Hrun; injection Hrun as <- <-; auto].
  destruct (fileExists w (path_join [dir; "draft.md"])) eqn:Hex;
    [|destruct (docs_compile_early rt ctx args w Hok) as (t & E); [auto|];
      rewrite E in Hrun; injection Hrun as <- <-; auto].
  destruct (docs_compile_enters rt ctx args w d Hok Hv Hd Hex)
    as (w1 & E & _ & _ & Hl).
  rewrite E in Hrun.
  destruct (compileDraft_command _ _ _ _ _ _ _ _ _ Hrun)
    as [Hsame|(p & more & cleanup & Hmiss & Hclean & Hlog)].
  - left. congruence.
  - right. exists p, more, cleanup. split; [eauto|]. split; [exact Hmiss|].
    split; [exact Hclean|]. rewrite Hlog, Hl. reflexivity.
Qed.

Lemma docs_compile_command_witness :
  exists p more,
    log (docs_compile Example.rt Example.ctx (Example.compileArgs Example.first_id)
           Workspace.two_drafts).2
    = [EvSpawn
         (Pandoc
            (BInput "/proj/.opencode/docs/amber-apple-100/draft.md"
             :: BOutput "/proj/.opencode/docs/amber-apple-100/amber-apple-100.pdf"
             :: BApplyPreset p :: BListings :: more) None)].
Proof.
  destruct (docs_compile_command Example.rt Example.ctx
              (Example.compileArgs Example.first_id) Workspace.two_drafts _ _ eq_refl
              (surjective_pairing
                 (docs_compile Example.rt Example.ctx
                    (Example.compileArgs Example.first_id) Workspace.two_drafts)))
    as [Hsame|(p & more & cleanup & _ & _ & Hclean & Hlog)].
  - vm_compute in Hsame. discriminate Hsame.
  - exists p, more. rewrite Hlog.
    destruct Hclean as [->|(f & ->)]; [reflexivity|].
    vm_compute in Hlog. discriminate Hlog.
Defined.

(** ** Installations that fail *)

Lemma process_effect_mkdir d w : process_effect (Argv ["mkdir"; "-p"; d]) w = w.
Proof. reflexivity. Qed.

Lemma process_effect_class d w : process_effect (ieeeClassCommand d) w = w.
Proof. reflexivity. Qed.

(** X12. The IEEE installation is not atomic.  When the template is
    downloaded but fetching the class file fails, the tool throws, the
    downloaded template stays written in the user's template directory, and
    the cache of resolved presets is neither cleared nor otherwise
    changed. *)
Theorem installIeee_not_atomic rt userDir w :
  let ieeeDir := userDir +:+ "/templates/ieee" in
  let tplRes := http_get rt (S (length (log w))) ieeeTemplateUrl in
  let clsProc := run_process rt (S (S (length (log w)))) (ieeeClassCommand ieeeDir) in
  ok tplRes = true ->
  exitCode clsProc <> 0%Z ->
  exists w',
    installIeee rt userDir w = (Throw "Failed to download IEEEtran.cls from CTAN", w')
    /\ files w' = <[ieeeDir +:+ "/template.latex" := Text (body tplRes)]> (files w)
    /\ cache w' = cache w
    /\ log w'
       = EvSpawn (ieeeClassCommand ieeeDir) :: EvFetch ieeeTemplateUrl
         :: EvSpawn (Argv ["mkdir"; "-p"; ieeeDir]) :: log w.
Proof.
  intros ieeeDir tplRes clsProc Hok Hexit.
  unfold installIeee. fold ieeeDir.
  unfold bind at 1. unfold spawn at 1. rewrite process_effect_mkdir.
  unfold bind at 1. unfold fetch at 1. cbn [log record length].
  fold ieeeTemplateUrl. fold tplRes. rewrite Hok. cbn [negb].
  unfold bind at 1. unfold Bun_write, writeFileSync, modify.
  unfold bind at 1. unfold spawn at 1. fold (ieeeClassCommand ieeeDir).
  rewrite process_effect_class.
  cbn [log record set_files length]. fold clsProc.
  apply Z.eqb_neq in Hexit. rewrite Hexit. cbn [negb]. unfold throw.
  eexists. split; [reflexivity|]. repeat split.
Qed.

Lemma installIeee_not_atomic_witness :
  exists w',
    installIeee Example.rt_failing "/home/u/.config/opencode" Example.fresh
    = (Throw "Failed to download IEEEtran.cls from CTAN", w')
    /\ files w' !! "/home/u/.config/opencode/templates/ieee/template.latex"
       = Some (Text "<style/>").
Proof.
  destruct (installIeee_not_atomic Example.rt_failing "/home/u/.config/opencode"
              Example.fresh) as (w' & Hrun & Hfiles & _).
  - reflexivity.
  - vm_compute. discriminate.
  - exists w'. split; [exact Hrun|]. rewrite Hfiles. vm_compute. reflexivity.
Defined.

Lemma parentDir_append a t :
  (forall d, In d (list_ascii_of_string t) -> d <> "/"%char) ->
  Js.parentDir (a +:+ String "/" t) = a.
Proof.
  intros Ht. unfold Js.parentDir, Js.split.
  rewrite (removelast_split_acc _ _ _ _ Ht). exact (join_split_acc "/" "" a).
Qed.

Lemma parentDir_csl userDir file :
  (forall c, In c (list_ascii_of_string file) -> c <> "/"%char) ->
  Js.parentDir (userDir +:+ "/csl/" +:+ file) = userDir +:+ "/csl".
Proof.
  intros Hfile.
  replace (userDir +:+ "/csl/" +:+ file) with ((userDir +:+ "/csl") +:+ String "/" file)
    by (rewrite !append_assoc; reflexivity).
  exact (parentDir_append _ _ Hfile).
Qed.

Lemma directDownload_csl userDir src url dest :
  directDownload userDir src = Some (url, dest) ->
  exists file,
    dest = userDir +:+ "/csl/" +:+ file
    /\ Js.parentDir dest = userDir +:+ "/csl".
Proof.
  destruct src; intros [= <- <-]; eexists; (split; [reflexivity|]);
    apply parentDir_csl; intros c Hc; vm_compute in Hc; intros ->;
    repeat (destruct Hc as [Hc|Hc]; [discriminate Hc|]); exact Hc.
Qed.

(** X13. Installing a citation style asks for the csl directory of the
    user's configuration to be made and fetches the style once.  If the response is
    not ok the tool throws the HTTP status, writes no file and leaves the
    cache alone; otherwise it writes the body of the response to a file of
    that directory and clears the cache. *)
Theorem installDirect_csl rt userDir src url dest w :
  directDownload userDir src = Some (url, dest) ->
  let res := http_get rt (S (length (log w))) url in
  exists w',
    installDirect rt userDir src w
    = (if ok res then Return ("Installed " +:+ source_name src +:+ " to " +:+ dest)
       else Throw ("HTTP " +:+ Js.Number_toString (http_status res)), w')
    /\ under (userDir +:+ "/csl") dest = true
    /\ files w' = (if ok res then <[dest := Text (body res)]> (files w) else files w)
    /\ cache w' = (if ok res then ∅ else cache w)
    /\ log w'
       = ((if ok res then [EvClearCache] else [])
          ++ EvFetch url :: EvSpawn (Argv ["mkdir"; "-p"; userDir +:+ "/csl"]) :: log w)%list.
Proof.
  intros Hsrc res.
  destruct (directDownload_csl userDir src url dest Hsrc) as (file & Hdest & Hparent).
  unfold installDirect. rewrite Hsrc, Hparent.
  unfold bind at 1. unfold spawn at 1. rewrite process_effect_mkdir.
  unfold bind at 1. unfold fetch at 1. cbn [log record length]. fold res.
  assert (Hunder : under (userDir +:+ "/csl") dest = true).
  { unfold under. apply orb_true_intro. right. rewrite Hdest.
    replace (userDir +:+ "/csl/" +:+ file) with ((userDir +:+ "/csl") +:+ "/" +:+ file)
      by (rewrite !append_assoc; reflexivity).
    rewrite prefix_append_cancel. change ("/" +:+ file) with (String "/" file).
    cbn [String.prefix].
    destruct (Ascii.ascii_dec "/" "/"); [now destruct file|congruence]. }
  destruct (ok res); cbn [negb].
  - unfold bind, Bun_write, writeFileSync, clearCache, modify, ret.
    eexists. split; [reflexivity|]. repeat split. exact Hunder.
  - unfold throw. eexists. split; [reflexivity|]. repeat split. exact Hunder.
Qed.

Lemma installDirect_csl_witness :
  exists w',
    installDirect Example.rt "/home/u/.config/opencode" CslApa Example.fresh
    = (Return "Installed csl-apa to /home/u/.config/opencode/csl/apa.csl", w')
    /\ files w' !! "/home/u/.config/opencode/csl/apa.csl" = Some (Text "<style/>").
Proof.
  destruct (installDirect_csl Example.rt "/home/u/.config/opencode" CslApa _ _
              Example.fresh eq_refl) as (w' & Hrun & _ & Hfiles & _).
  exists w'. split; [exact Hrun|]. rewrite Hfiles. vm_compute. reflexivity.
Defined.

(** ** The conversion tools *)

(** Running a builder and turning a failure into an exception. *)
Lemma execute_then rt b cwd failed (msg : string) w :
  (let* result := execute rt b cwd in
   if negb (success result)
   then throw (failed +:+ Js.nl +:+ Js.render (error result))
   else ret msg) w
  = (let p := run_process rt (length (log w)) (Pandoc b cwd) in
     if (exitCode p =? 0)%Z then Return msg
     else Throw (failed +:+ Js.nl +:+ failureReason rt p),
     record (EvSpawn (Pandoc b cwd)) w).
Proof.
  rewrite (bind_Return _ _ _ _ _ (execute_spec rt b cwd w)). cbv zeta.
  destruct (exitCode _ =? 0)%Z; reflexivity.
Qed.

Lemma surfaces_execute rt b cwd failed msg w w1 :
  log w1 = log w ->
  surfaces rt failed w
    ((let* result := execute rt b cwd in
      if negb (success result)
      then throw (failed +:+ Js.nl +:+ Js.render (error result))
      else ret msg) w1).
Proof.
  intros Hl. rewrite execute_then. right. exists b, cwd. cbn [fst snd log record].
  rewrite Hl. split; [reflexivity|]. cbv zeta. split.
  - intros ->. reflexivity.
  - intros Hexit%Z.eqb_neq. rewrite Hexit. reflexivity.
Qed.

Lemma surfaces_throw rt failed w w1 e :
  log w1 = log w -> surfaces rt failed w (Throw e, w1).
Proof. intros Hl. left. split; [exact Hl|eauto]. Qed.

(** X14. The remaining conversion tools (docs_convert, docs_create in
    both copies of the plugin, docs_create_ieee_paper, docs_generate_latex)
    start at most one process, the conversion.  When they start it, they
    complete normally if it exits with zero and otherwise throw their
    failure prefix followed by the failure reason of the execution; they
    never report success for a failed conversion. *)
Theorem conversion_tools_surface rt ctx computeOutputPath w :
  (forall args,
     surfaces rt "Pandoc failed:" w (docs_convert rt computeOutputPath args w))
  /\ (forall args,
        surfaces rt "Failed:" w (docs_create rt ctx computeOutputPath args w)
        /\ surfaces rt "Failed:" w (docs_create_legacy rt ctx computeOutputPath args w))
  /\ (forall args,
        surfaces rt "Failed:" w (docs_create_ieee_paper rt ctx computeOutputPath args w))
  /\ (forall args,
        surfaces rt "Failed:" w (docs_generate_latex rt ctx computeOutputPath args w)).
Proof.
  split; [|split; [|split]]; intros args.
  - unfold docs_convert. apply surfaces_execute. reflexivity.
  - split.
    + unfold docs_create.
      destruct (loadPreset rt ctx (ca_preset args) (ca_logo args) w) as [[p|e] w1] eqn:Hload;
        destruct (loadPreset_frame _ _ _ _ _ _ _ Hload) as (_ & _ & Hl & _);
        [rewrite (bind_Return _ _ _ _ _ Hload) | rewrite (bind_Throw _ _ _ _ _ Hload)];
        [|apply surfaces_throw; exact Hl].
      destruct (template_missing p); [apply surfaces_throw; exact Hl|].
      apply surfaces_execute. exact Hl.
    + unfold docs_create_legacy.
      destruct (loadPreset rt ctx (ca_preset args) (ca_logo args) w) as [[p|e] w1] eqn:Hload;
        destruct (loadPreset_frame _ _ _ _ _ _ _ Hload) as (_ & _ & Hl & _);
        [rewrite (bind_Return _ _ _ _ _ Hload) | rewrite (bind_Throw _ _ _ _ _ Hload)];
        [|apply surfaces_throw; exact Hl].
      destruct (template_missing p); [apply surfaces_throw; exact Hl|].
      apply surfaces_execute. exact Hl.
  - unfold docs_create_ieee_paper.
    destruct (loadPreset rt ctx (ieeePresetName (ip_format args)) None w)
      as [[p|e] w1] eqn:Hload;
      destruct (loadPreset_frame _ _ _ _ _ _ _ Hload) as (_ & _ & Hl & _);
      [rewrite (bind_Return _ _ _ _ _ Hload) | rewrite (bind_Throw _ _ _ _ _ Hload)];
      [|apply surfaces_throw; exact Hl].
    destruct (negb (Js.truthy _)); [apply surfaces_throw; exact Hl|].
    apply surfaces_execute. exact Hl.
  - unfold docs_generate_latex.
    destruct (loadPreset rt ctx (gl_preset args) (gl_logo args) w) as [[p|e] w1] eqn:Hload;
      destruct (loadPreset_frame _ _ _ _ _ _ _ Hload) as (_ & _ & Hl & _);
      [rewrite (bind_Return _ _ _ _ _ Hload) | rewrite (bind_Throw _ _ _ _ _ Hload)];
      [|apply surfaces_throw; exact Hl].
    destruct (template_missing p); [apply surfaces_throw; exact Hl|].
    apply surfaces_execute. exact Hl.
Qed.

Lemma loadPreset_cached rt ctx nm lg w p w1 :
  loadPreset rt ctx nm lg w = (Return p, w1) -> cache w1 !! (nm, lg) = Some p.
Proof.
  unfold loadPreset, bind, get.
  destruct (cache w !! (nm, lg)) as [r|] eqn:Hc.
  - intros [= <- <-]. exact Hc.
  - destruct (loadConfig _ w nm) as [[sc c]|e]; [|discriminate].
    unfold modify, ret. intros [= <- <-]. cbn [cache set_cache].
    apply lookup_insert_eq.
Qed.

(** X16. docs_create_ieee_paper loads the preset ieee-journal for the
    journal format and ieee-conference otherwise, always without a logo.
    Unless the template of that preset is resolved it throws and starts no
    process; otherwise the one conversion it starts ends with the
    simple-tables call and runs in the directory of the resolved
    template. *)
Theorem docs_create_ieee_paper_runs rt ctx computeOutputPath args w c w' :
  docs_create_ieee_paper rt ctx computeOutputPath args w = (c, w') ->
  (log w' = log w /\ exists e, c = Throw e)
  \/ exists p tpl b,
       cache w'
         !! (match ip_format args with
             | Some Journal => "ieee-journal"
             | _ => "ieee-conference"
             end, None) = Some p
       /\ resolved_template_path p = Some tpl
       /\ tpl <> ""
       /\ log w'
          = EvSpawn (Pandoc (call BSimpleTables b) (Some (Js.parentDir tpl))) :: log w.
Proof.
  unfold docs_create_ieee_paper.
  destruct (loadPreset rt ctx (ieeePresetName (ip_format args)) None w)
    as [[p|e] w1] eqn:Hload;
    destruct (loadPreset_frame _ _ _ _ _ _ _ Hload) as (_ & _ & Hl & _);
    [rewrite (bind_Return _ _ _ _ _ Hload) | rewrite (bind_Throw _ _ _ _ _ Hload)];
    [|intros [= <- <-]; left; eauto].
  pose proof (loadPreset_cached _ _ _ _ _ _ _ Hload) as Hcache.
  destruct (resolved_template_path p) as [tpl|] eqn:Htpl;
    [|intros [= <- <-]; left; eauto].
  cbn [Js.truthy]. destruct (String.eqb tpl "") eqn:Hempty; cbn [negb];
    [intros [= <- <-]; left; eauto|].
  rewrite execute_then. intros [= <- <-]. right.
  eexists p, tpl, _. split; [exact Hcache|]. split; [exact Htpl|].
  split; [apply String.eqb_neq; exact Hempty|].
  cbn [log record Js.render]. rewrite Hl. reflexivity.
Qed.

Lemma docs_create_ieee_paper_runs_witness :
  exists b,
    log (docs_create_ieee_paper Example.rt Example.ctx Example.computeOutputPath
           Workspace.paperArgs Workspace.ieee_machine).2
    = [EvSpawn (Pandoc (call BSimpleTables b)
                  (Some "/home/u/.config/opencode/templates/ieee"))].
Proof.
  destruct (docs_create_ieee_paper_runs Example.rt Example.ctx Example.computeOutputPath
              Workspace.paperArgs Workspace.ieee_machine _ _
              (surjective_pairing
                 (docs_create_ieee_paper Example.rt Example.ctx Example.computeOutputPath
                    Workspace.paperArgs Workspace.ieee_machine)))
    as [(Hlog & _)|(p & tpl & b & Hcache & Htpl & _ & Hlog)].
  - vm_compute in Hlog. discriminate Hlog.
  - vm_compute in Hcache. injection Hcache as <-.
    vm_compute in Htpl. injection Htpl as <-.
    exists b. exact Hlog.
Defined.

(** ** The output of docs_generate_latex *)

Lemma rev_app_app (a b c : string) :
  String.rev_app (a +:+ b) c = String.rev_app b (String.rev_app a c).
Proof.
  revert c. induction a as [|x a IH]; intros c; [reflexivity|].
  rewrite append_String. cbn [String.rev_app]. apply IH.
Qed.

Lemma rev_app_in (a b : string) d :
  In d (list_ascii_of_string (String.rev_app a b)) ->
  In d (list_ascii_of_string a) \/ In d (list_ascii_of_string b).
Proof.
  revert b. induction a as [|x a IH]; intros b; cbn [String.rev_app]; [auto|].
  intros [H|H]%IH; [left; right; exact H|].
  destruct H as [<-|H]; [left; left; reflexivity|right; exact H].
Qed.

(** No piece of a split contains the separator. *)
Lemma split_acc_pieces c cur s x :
  (forall d, In d (list_ascii_of_string cur) -> d <> c) ->
  In x (Js.split_acc c cur s) ->
  forall d, In d (list_ascii_of_string x) -> d <> c.
Proof.
  revert cur. induction s as [|d0 s IH]; intros cur Hcur; cbn [Js.split_acc].
  - intros [<-|[]] d Hd. unfold String.rev in Hd.
    apply rev_app_in in Hd. destruct Hd as [Hd|[]]. exact (Hcur d Hd).
  - destruct (Ascii.eqb d0 c) eqn:E.
    + intros [<-|Hin] d Hd.
      * unfold String.rev in Hd. apply rev_app_in in Hd.
        destruct Hd as [Hd|[]]. exact (Hcur d Hd).
      * exact (IH "" (λ _ (F : False), match F with end) Hin d Hd).
    + apply IH. intros d [<-|Hd]; [apply Ascii.eqb_neq; exact E|exact (Hcur d Hd)].
Qed.

Lemma last_in {A} (l : list A) (d : A) : l <> [] -> In (List.last l d) l.
Proof.
  induction l as [|x [|y l] IH]; [congruence|left; reflexivity|].
  intros _. right. apply IH. discriminate.
Qed.

Lemma or_else_falsy o d : Js.truthy o = false -> Js.or_else o d = d.
Proof.
  destruct o as [s|]; [|reflexivity]. unfold Js.truthy, Js.or_else.
  destruct (String.eqb s ""); [reflexivity|discriminate].
Qed.

Lemma prefix_append_self (a b : string) : String.prefix a (a +:+ b) = true.
Proof.
  induction a as [|x a IH]; [now destruct b|].
  rewrite append_String. cbn [String.prefix].
  destruct (Ascii.ascii_dec x x); [exact IH|congruence].
Qed.

Lemma replaceSuffix_pdf s : Js.endsWith (replaceSuffix s ".pdf" ".tex") ".pdf" = false.
Proof.
  unfold replaceSuffix. destruct (Js.endsWith s ".pdf") eqn:E; [|exact E].
  unfold Js.endsWith, String.rev. rewrite rev_app_app. reflexivity.
Qed.

(** X17. When no output path is given, docs_generate_latex never writes
    its LaTeX source to a path that ends in .pdf: a computed path with that
    ending gets the ending .tex instead, and any other computed path is used
    as it is.  The file named in the hint for the manual compilation is the
    last segment of the output path and contains no slash. *)
Theorem docs_generate_latex_output computeOutputPath args :
  Js.truthy (gl_output_path args) = false ->
  let computed := computeOutputPath (gl_input_path args) None "tex" in
  let out := latexOutputPath computeOutputPath args in
  Js.endsWith out ".pdf" = false
  /\ (Js.endsWith computed ".pdf" = false -> out = computed)
  /\ (Js.endsWith computed ".pdf" = true -> Js.endsWith out ".tex" = true)
  /\ no_slash (lastSegment "/" out).
Proof.
  intros Hnone computed out. unfold out, latexOutputPath.
  rewrite (or_else_falsy _ _ Hnone). fold computed.
  split; [apply replaceSuffix_pdf|]. split; [|split].
  - unfold replaceSuffix. intros ->. reflexivity.
  - unfold replaceSuffix. intros ->.
    unfold Js.endsWith, String.rev. rewrite rev_app_app.
    match goal with
    | |- String.prefix _ (String.rev_app ".tex" ?X) = true =>
        change (String.prefix "xet." ("xet." +:+ X) = true)
    end.
    apply prefix_append_self.
  - unfold lastSegment, Js.split. intros c Hc.
    eapply (split_acc_pieces "/" "" (replaceSuffix computed ".pdf" ".tex"));
      [intros _ []| |exact Hc].
    apply last_in, split_acc_nonempty.
Qed.

Lemma docs_generate_latex_output_witness :
  latexOutputPath (λ input _ _, Js.before "." input +:+ ".pdf")
    {| gl_input_path := "/proj/paper.md"; gl_preset := "report";
       gl_output_path := None; gl_logo := None; gl_title := None;
       gl_author := None; gl_date := None; gl_subtitle := None;
       gl_abstract := None; gl_keywords := None; gl_bibliography := None |}
  = "/proj/paper.tex"
  /\ Js.endsWith "/proj/paper.tex" ".pdf" = false.
Proof.
  split; [vm_compute; reflexivity|].
  exact (proj1 (docs_generate_latex_output (λ input _ _, Js.before "." input +:+ ".pdf")
                  {| gl_input_path := "/proj/paper.md"; gl_preset := "report";
                     gl_output_path := None; gl_logo := None; gl_title := None;
                     gl_author := None; gl_date := None; gl_subtitle := None;
                     gl_abstract := None; gl_keywords := None;
                     gl_bibliography := None |} eq_refl)).
Defined.

(** ** A draft that cannot be created *)

Lemma ensureDocsDir_dirs rt ctx w :
  project_ok rt ctx ->
  exists w0,
    ensureDocsDir rt ctx w = (Return tt, w0)
    /\ files w0 = files w
    /\ dirs w ⊆ dirs w0
    /\ fileExists w0 (docsBaseOf rt ctx) = true.
Proof.
  intros Hok. unfold ensureDocsDir.
  rewrite (bind_Return _ _ _ _ _ (getDocsBasePath_ok rt ctx w Hok)).
  unfold bind at 1. unfold existsSync at 1.
  fold (fileExists w (docsBaseOf rt ctx)).
  destruct (fileExists w (docsBaseOf rt ctx)) eqn:Hex; cbn [negb when].
  - exists w. split; [reflexivity|]. split; [reflexivity|].
    split; [intros x Hx; exact Hx|exact Hex].
  - rewrite mkdirSync_eq. eexists. split; [reflexivity|]. split; [reflexivity|].
    split; [cbn [dirs set_dirs]; intros x Hx; apply elem_of_union; right; exact Hx|].
    unfold fileExists. apply orb_true_intro. right. apply bool_decide_eq_true.
    cbn [dirs set_dirs]. apply elem_of_union. left. apply elem_of_singleton.
    reflexivity.
Qed.

Lemma initialContent_directory rt args w :
  Js.truthy (da_initial_content args) = false ->
  Js.truthy (da_source_markdown args) = true ->
  files w !! Js.render (da_source_markdown args) = None ->
  Js.render (da_source_markdown args) ∈ dirs w ->
  exists e, initialContent rt args w = (Throw e, w).
Proof.
  intros Hinit Hsrc Hfile Hdir. unfold initialContent. rewrite Hinit, Hsrc.
  unfold bind, existsSync, readFileSync, ret. rewrite Hfile.
  rewrite (bool_decide_eq_true_2 _ Hdir), orb_true_r. cbv beta iota zeta.
  rewrite Hfile. eauto.
Qed.

(** X18. docs_draft is not atomic either.  When the registry file is
    absent or as the plugin wrote it, no initial content is given and the
    source to read is a directory, docs_draft throws; by then it has made
    sure the drafts directory exists and has created the directory of a
    freshly generated identifier, which stays behind: no file is written, so
    the registry has no entry for it, and no directory is removed. *)
Theorem docs_draft_leaves_directory rt ctx args w :
  project_ok rt ctx ->
  registry_intact rt ctx w ->
  Js.truthy (da_initial_content args) = false ->
  Js.truthy (da_source_markdown args) = true ->
  files w !! Js.render (da_source_markdown args) = None ->
  Js.render (da_source_markdown args) ∈ dirs w ->
  exists e id w',
    docs_draft rt ctx args w = (Throw e, w')
    /\ isValidDocId id = true
    /\ draftDirOf rt ctx id ∈ dirs w'
    /\ fileExists w' (docsBaseOf rt ctx) = true
    /\ files w' = files w
    /\ dirs w ⊆ dirs w'.
Proof.
  intros Hok _ Hinit Hsrc Hfile Hdir. unfold docs_draft.
  destruct (ensureDocsDir_dirs rt ctx w Hok) as (w0 & E0 & Hf0 & Hd0 & Hbase).
  rewrite (bind_Return _ _ _ _ _ E0).
  pose proof (readRegistry_ok rt ctx w0 Hok) as Hr0.
  destruct (generateUniqueDocId_spec rt ctx w0 _ Hr0)
    as (id & w1 & E1 & (Hf1 & Hd1 & _) & _ & Hvalid & _).
  rewrite (bind_Return _ _ _ _ _ E1).
  rewrite (bind_Return _ _ _ _ _ (getDocsBasePath_ok rt ctx w1 Hok)).
  fold (draftDirOf rt ctx id).
  rewrite (bind_Return _ _ _ _ _ (mkdirSync_eq _ w1)).
  set (w2 := set_dirs _ w1).
  assert (Hf2 : files w2 = files w) by (unfold w2; cbn [files set_dirs]; congruence).
  assert (Hd2 : dirs w2 = {[draftDirOf rt ctx id]} ∪ dirs w0)
    by (unfold w2; cbn [dirs set_dirs]; rewrite Hd1; reflexivity).
  assert (Hsub : dirs w ⊆ dirs w2)
    by (rewrite Hd2; intros x Hx; apply elem_of_union; right; exact (Hd0 x Hx)).
  destruct (initialContent_directory rt args w2 Hinit Hsrc) as (e & E3);
    [rewrite Hf2; exact Hfile|exact (Hsub _ Hdir)|].
  rewrite (bind_Throw _ _ _ _ _ E3).
  exists e, id, w2. split; [reflexivity|]. split; [exact Hvalid|].
  split; [rewrite Hd2; apply elem_of_union; left; apply elem_of_singleton; reflexivity|].
  split; [|split; [exact Hf2|exact Hsub]].
  unfold fileExists in *. rewrite Hf2, <- Hf0, Hd2.
  apply orb_true_iff in Hbase. apply orb_true_intro.
  destruct Hbase as [Hb|Hb]; [left; exact Hb|right].
  apply bool_decide_eq_true in Hb. apply bool_decide_eq_true.
  apply elem_of_union. right. exact Hb.
Qed.

Lemma docs_draft_leaves_directory_witness :
  exists e id w',
    docs_draft Example.rt Example.ctx Workspace.fromDirectory Workspace.two_drafts
    = (Throw e, w')
    /\ isValidDocId id = true
    /\ draftDirOf Example.rt Example.ctx id ∈ dirs w'.
Proof.
  destruct (docs_draft_leaves_directory Example.rt Example.ctx Workspace.fromDirectory
              Workspace.two_drafts) as (e & id & w' & Hrun & Hv & Hdir & _).
  - reflexivity.
  - right. eexists. vm_compute. reflexivity.
  - reflexivity.
  - reflexivity.
  - vm_compute. reflexivity.
  - vm_compute. reflexivity.
  - exists e, id, w'. auto.
Defined.

(** ** Compiling LaTeX *)

Lemma parentDir_bare name :
  (forall d, In d (list_ascii_of_string name) -> d <> "/"%char) ->
  Js.parentDir name = "".
Proof.
  intros Hname. unfold Js.parentDir, Js.split.
  destruct (split_acc_no_sep "/" "" name Hname) as (x & ->). reflexivity.
Qed.

(** X19. docs_compile_latex throws without starting a process unless the
    file name ends in .tex.  Otherwise it starts pdflatex once, on the file,
    with the given output directory or else the directory part of the file
    name: everything before its last slash, which is the empty string for a
    file name without a slash. *)
Theorem docs_compile_latex_directory rt file_path output_dir w :
  let run := docs_compile_latex rt file_path output_dir w in
  (Js.endsWith file_path ".tex" = false ->
   run = (Throw "Input file must be a .tex file", w))
  /\ (Js.endsWith file_path ".tex" = true ->
      forall inputDir,
        (no_slash file_path /\ inputDir = ""
         \/ exists name, no_slash name /\ file_path = inputDir +:+ String "/" name) ->
        log run.2
        = EvSpawn (Argv ["pdflatex"; "-output-directory";
                         Js.or_else output_dir inputDir;
                         "-interaction=nonstopmode"; file_path]) :: log w).
Proof.
  cbv zeta. unfold docs_compile_latex. split; intros ->; cbn [negb]; [reflexivity|].
  intros inputDir Hdir.
  assert (Hparent : Js.parentDir file_path = inputDir).
  { destruct Hdir as [(Hbare & ->)|(name & Hname & ->)].
    - apply parentDir_bare. exact Hbare.
    - apply parentDir_append. exact Hname. }
  rewrite Hparent. unfold bind, spawn.
  destruct (negb _); reflexivity.
Qed.

Lemma docs_compile_latex_directory_witness :
  log (docs_compile_latex Example.rt "paper.tex" None Example.fresh).2
  = [EvSpawn (Argv ["pdflatex"; "-output-directory"; "";
                    "-interaction=nonstopmode"; "paper.tex"])].
Proof.
  refine (proj2 (docs_compile_latex_directory Example.rt "paper.tex" None Example.fresh)
            _ "" _).
  - vm_compute. reflexivity.
  - left. split; [|reflexivity].
    intros c Hc. vm_compute in Hc. intros ->.
    repeat (destruct Hc as [Hc|Hc]; [discriminate Hc|]). exact Hc.
Defined.

(** ** The authors table *)

Lemma split_acc_line c cur x :
  (forall d, In d (list_ascii_of_string x) -> d <> c) ->
  Js.split_acc c cur x = [String.rev cur +:+ x]
  /\ forall rest,
       Js.split_acc c cur (x +:+ String c rest)
       = (String.rev cur +:+ x) :: Js.split_acc c "" rest.
Proof.
  unfold String.rev. revert cur. induction x as [|d x IH]; intros cur Hx.
  - split.
    + cbn [Js.split_acc]. rewrite append_nil_r. reflexivity.
    + intros rest. change ("" +:+ String c rest) with (String c rest).
      cbn [Js.split_acc]. rewrite Ascii.eqb_refl, append_nil_r. reflexivity.
  - assert (Hd : Ascii.eqb d c = false)
      by (apply Ascii.eqb_neq, Hx; left; reflexivity).
    destruct (IH (String d cur)) as (IH1 & IH2);
      [intros d' Hd'; apply Hx; right; exact Hd'|].
    cbn [String.rev_app] in IH1, IH2. rewrite rev_app_append in IH1.
    split; [|intros rest; rewrite append_String]; cbn [Js.split_acc]; rewrite Hd.
    + rewrite IH1. rewrite rev_app_append. reflexivity.
    + rewrite IH2. rewrite !rev_app_append. reflexivity.
Qed.

(** Joining lines that hold no newline and splitting the text again gives
    the lines back. *)
Lemma split_join c (lines : list string) :
  lines <> [] ->
  (forall x, In x lines -> forall d, In d (list_ascii_of_string x) -> d <> c) ->
  Js.split c (Js.join (String c "") lines) = lines.
Proof.
  unfold Js.split. induction lines as [|x [|y rest] IH]; [congruence| |]; intros _ Hl.
  - cbn [Js.join]. destruct (split_acc_line c "" x) as (-> & _); [|reflexivity].
    apply Hl. left. reflexivity.
  - rewrite join_cons by discriminate.
    change (String c "" +:+ Js.join (String c "") (y :: rest))
      with (String c (Js.join (String c "") (y :: rest))).
    destruct (split_acc_line c "" x) as (_ & ->); [apply Hl; left; reflexivity|].
    f_equal. apply IH; [discriminate|]. intros z Hz. apply Hl. right. exact Hz.
Qed.

Lemma no_newline_append a b :
  ~ In (ascii_of_nat 10) (list_ascii_of_string a) ->
  ~ In (ascii_of_nat 10) (list_ascii_of_string b) ->
  ~ In (ascii_of_nat 10) (list_ascii_of_string (a +:+ b)).
Proof.
  intros Ha Hb. rewrite list_ascii_app. intros [H|H]%in_app_or; auto.
Qed.

Lemma quoted_escapeYaml_no_newline s :
  ~ In (ascii_of_nat 10) (list_ascii_of_string (quoted (escapeYaml s))).
Proof.
  unfold quoted. rewrite append_String. intros [H|H]; [discriminate H|].
  revert H. apply no_newline_append; [apply escapeYaml_no_newline|].
  intros [H|[]]. discriminate H.
Qed.

Lemma authorYaml_no_newline a x :
  In x (authorYaml a) -> ~ In (ascii_of_nat 10) (list_ascii_of_string x).
Proof.
  unfold authorYaml. intros [[<-|[]]|Hin]%in_app_or.
  - apply no_newline_append; [|apply quoted_escapeYaml_no_newline].
    vm_compute. intros H. repeat (destruct H as [H|H]; [discriminate H|]). exact H.
  - apply in_app_or in Hin. destruct Hin as [Hin|Hin].
    + destruct (Js.truthy (sit_id a)); [|destruct Hin].
      destruct Hin as [<-|[]].
      apply no_newline_append; [|apply quoted_escapeYaml_no_newline].
      vm_compute. intros H. repeat (destruct H as [H|H]; [discriminate H|]). exact H.
    + destruct (Js.truthy (glasgow_id a)); [|destruct Hin].
      destruct Hin as [<-|[]].
      apply no_newline_append; [|apply quoted_escapeYaml_no_newline].
      vm_compute. intros H. repeat (destruct H as [H|H]; [discriminate H|]). exact H.
Qed.

(** X20. The authors file docs_compile writes has one line per field,
    whatever the fields contain: splitting the written text at the newlines
    gives back the heading and, for every author of the parsed array, the
    name line followed by the lines of the identifiers that are present.
    Each of these lines is its key followed by the escaped value in double
    quotes, so that a value cannot open a line of its own. *)
Theorem authorsTable_yaml rt args dir b w b' f w' :
  authorsTable rt args dir b w = (Return (b', Some f), w') ->
  exists authorsArray text,
    JSON_parse_authors rt (Js.render (authors args)) = inr authorsArray
    /\ files w' !! f = Some (Text text)
    /\ Js.split (ascii_of_nat 10) text
       = "authors:" :: concat (map authorYaml authorsArray)
    /\ Forall (λ x, exists key v,
                 In key ["  - name: "; "    sit-id: "; "    glasgow-id: "]
                 /\ x = key +:+ quoted (escapeYaml v))
         (concat (map authorYaml authorsArray)).
Proof.
  unfold authorsTable. destruct (Js.truthy (authors args)); [|discriminate].
  unfold try_catch, parseAuthors, bind, Date_now_, writeFileSync, modify, ret, throw.
  destruct (JSON_parse_authors rt _) as [e|l]; [discriminate|].
  intros [= <- <- <-]. exists l. eexists. split; [reflexivity|].
  split; [cbn [files set_files]; apply lookup_insert_eq|]. split.
  - change (Js.split (ascii_of_nat 10)
              (Js.join (String (ascii_of_nat 10) "")
                 ("authors:" :: concat (map authorYaml l)))
            = "authors:" :: concat (map authorYaml l)).
    apply (split_join (ascii_of_nat 10)); [discriminate|].
    intros x [<-|Hin] d Hd ->.
    + vm_compute in Hd. repeat (destruct Hd as [Hd|Hd]; [discriminate Hd|]). exact Hd.
    + apply in_concat in Hin. destruct Hin as (block & Hblock & Hx).
      apply in_map_iff in Hblock. destruct Hblock as (a & <- & _).
      exact (authorYaml_no_newline a x Hx Hd).
  - apply Forall_forall. intros x Hin%list_elem_of_In.
    apply in_concat in Hin. destruct Hin as (block & Hblock & Hx).
    apply in_map_iff in Hblock. destruct Hblock as (a & <- & _).
    unfold authorYaml in Hx.
    apply in_app_or in Hx. destruct Hx as [[<-|[]]|Hx].
    { eexists _, _. split; [|reflexivity]. left. reflexivity. }
    apply in_app_or in Hx. destruct Hx as [Hx|Hx].
    + destruct (Js.truthy (sit_id a)); [|destruct Hx]. destruct Hx as [<-|[]].
      eexists _, _. split; [|reflexivity]. right. left. reflexivity.
    + destruct (Js.truthy (glasgow_id a)); [|destruct Hx]. destruct Hx as [<-|[]].
      eexists _, _. split; [|reflexivity]. right. right. left. reflexivity.
Qed.

Lemma authorsTable_yaml_witness :
  exists text,
    files (authorsTable Workspace.rt_authors Workspace.authorsArgs "/d" pandoc
             Example.fresh).2
      !! "/d/authors-1700000000000.yaml" = Some (Text text)
    /\ length (Js.split (ascii_of_nat 10) text) = 3.
Proof.
  destruct (authorsTable_yaml Workspace.rt_authors Workspace.authorsArgs "/d" pandoc
              Example.fresh _ "/d/authors-1700000000000.yaml" _ eq_refl)
    as (l & text & Hparse & Hfile & Hsplit & _).
  exists text. split; [exact Hfile|]. rewrite Hsplit.
  injection Hparse as <-. reflexivity.
Defined.

(** ** Without a project directory *)

Lemma getRegistryPath_none rt ctx w :
  ~ project_ok rt ctx -> getRegistryPath rt ctx w = (Throw no_project_directory, w).
Proof.
  unfold project_ok, getRegistryPath. intros Hbad.
  destruct (_ || _); [reflexivity|congruence].
Qed.

Lemma readRegistry_none rt ctx w :
  ~ project_ok rt ctx -> readRegistry rt ctx w = (Throw no_project_directory, w).
Proof.
  intros Hbad. unfold readRegistry.
  rewrite (bind_Throw _ _ _ _ _ (getRegistryPath_none rt ctx w Hbad)). reflexivity.
Qed.

(** X21. When the project directory cannot be determined, because the
    first non-empty one of worktree, directory and working directory is the
    root directory or all are empty, no draft tool touches anything:
    docs_draft and docs_list_drafts throw the error that names the cause, and
    so do docs_compile and docs_delete_draft unless the identifier is
    malformed, which they report first. *)
Theorem draft_tools_need_project rt ctx w :
  ~ project_ok rt ctx ->
  (forall args, docs_draft rt ctx args w = (Throw no_project_directory, w))
  /\ docs_list_drafts rt ctx w = (Throw no_project_directory, w)
  /\ (forall args,
        docs_compile rt ctx args w
        = (if isValidDocId (doc_id args) then Throw no_project_directory
           else Return ("Invalid document ID format: " +:+ doc_id args), w))
  /\ (forall id,
        docs_delete_draft rt ctx id w
        = (if isValidDocId id then Throw no_project_directory
           else Return ("Invalid document ID format: " +:+ id), w)).
Proof.
  intros Hbad. pose proof (readRegistry_none rt ctx w Hbad) as Hread.
  split; [|split; [|split]].
  - intros args. apply docs_draft_needs_project. exact Hbad.
  - unfold docs_list_drafts. rewrite (bind_Throw _ _ _ _ _ Hread). reflexivity.
  - intros args. unfold docs_compile.
    destruct (isValidDocId (doc_id args)); cbn [negb]; [|reflexivity].
    rewrite (bind_Throw _ _ _ _ _ Hread). reflexivity.
  - intros id. unfold docs_delete_draft.
    destruct (isValidDocId id); cbn [negb]; [|reflexivity].
    rewrite (bind_Throw _ _ _ _ _ Hread). reflexivity.
Qed.

Lemma draft_tools_need_project_witness :
  docs_list_drafts Example.rt Workspace.rootCtx Workspace.two_drafts
  = (Throw no_project_directory, Workspace.two_drafts).
Proof.
  refine (proj1 (proj2 (draft_tools_need_project Example.rt Workspace.rootCtx
                          Workspace.two_drafts _))).
  vm_compute. discriminate.
Defined.
